(** * Verification of scripts/validate_structure.py

    A shallow embedding of the IaC structure validator (class [IaCValidator]
    and [main]) together with the fragment of Python's [str] and [re] that
    the script uses, and the properties of the rule engine stated by the
    specification.

    Text is a [string]; a character is an [ascii] read as a code point in
    U+0000..U+00FF.  The character classes below are Python's classes
    restricted to that range. *)

From Stdlib Require Import String Ascii List Bool Arith Lia.
Import ListNotations.
Open Scope string_scope.
Open Scope list_scope.
Open Scope nat_scope.

Infix "+++" := String.append (right associativity, at level 60).

Set Implicit Arguments.

(* ================================================================== *)
(** ** Python [str] built-ins used by the script *)
(* ================================================================== *)

Module Py.

Definition code (c : ascii) : nat := nat_of_ascii c.

Definition between (lo hi n : nat) : bool := (lo <=? n) && (n <=? hi).

(** [str.isspace] on one character: TAB..CR, FS..US, space, NEL, NBSP. *)
Definition isspace (c : ascii) : bool :=
  let n := code c in
  between 9 13 n || between 28 32 n || (n =? 133) || (n =? 160).

(** Decimal digits ([\d] of a [str] pattern): only 0-9 below U+0100. *)
Definition isdecimal (c : ascii) : bool := between 48 57 (code c).

Definition isupper_ascii (c : ascii) : bool := between 65 90 (code c).

(** [str.isalpha] below U+0100. *)
Definition isalpha (c : ascii) : bool :=
  let n := code c in
  between 65 90 n || between 97 122 n
  || (n =? 170) || (n =? 181) || (n =? 186)
  || between 192 214 n || between 216 246 n || between 248 255 n.

(** Characters with a numeric value below U+0100: digits, superscripts
    one to three and the vulgar fractions. *)
Definition isnumeric (c : ascii) : bool :=
  let n := code c in
  between 48 57 n || (n =? 178) || (n =? 179) || (n =? 185)
  || between 188 190 n.

(** A word character of [\w] and [\b]: alphanumeric or underscore. *)
Definition isword (c : ascii) : bool :=
  isalpha c || isnumeric c || (code c =? 95).

(** [str.lower] on one character. *)
Definition lower_char (c : ascii) : ascii :=
  let n := code c in
  if between 65 90 n || between 192 214 n || between 216 222 n
  then ascii_of_nat (n + 32) else c.

Fixpoint lower (s : string) : string :=
  match s with
  | EmptyString => EmptyString
  | String c s' => String (lower_char c) (lower s')
  end.

(** [s.startswith(p)] *)
Fixpoint startswith (p s : string) : bool :=
  match p, s with
  | EmptyString, _ => true
  | String a p', String b s' => Ascii.eqb a b && startswith p' s'
  | String _ _, EmptyString => false
  end.

(** [s.find(sub)]: offset of the first occurrence; [None] stands for -1. *)
Fixpoint find (sub s : string) : option nat :=
  if startswith sub s then Some 0
  else match s with
       | EmptyString => None
       | String _ s' => option_map S (find sub s')
       end.

(** [sub in s] *)
Definition contains (sub s : string) : bool :=
  match find sub s with Some _ => true | None => false end.

(** [s[:n]] and [s[n:]] for [0 <= n]. *)
Fixpoint take (n : nat) (s : string) : string :=
  match n, s with
  | S n', String c s' => String c (take n' s')
  | _, _ => EmptyString
  end.

Fixpoint drop (n : nat) (s : string) : string :=
  match n, s with
  | S n', String _ s' => drop n' s'
  | _, _ => s
  end.

(** [s[a:b]] for [0 <= a], [0 <= b]. *)
Definition slice (a b : nat) (s : string) : string :=
  take (b - a) (drop a s).

Fixpoint lstrip (s : string) : string :=
  match s with
  | String c s' => if isspace c then lstrip s' else s
  | EmptyString => EmptyString
  end.

Fixpoint rstrip (s : string) : string :=
  match s with
  | EmptyString => EmptyString
  | String c s' =>
      match rstrip s' with
      | EmptyString => if isspace c then EmptyString else String c EmptyString
      | r => String c r
      end
  end.

(** [s.strip()] *)
Definition strip (s : string) : string := rstrip (lstrip s).

Definition newline : ascii := ascii_of_nat 10.

(** [s.split('\n')]: always at least one piece. *)
Fixpoint split_lines (s : string) : list string :=
  match s with
  | EmptyString => [EmptyString]
  | String c s' =>
      if Ascii.eqb c newline then EmptyString :: split_lines s'
      else match split_lines s' with
           | l :: ls => String c l :: ls
           | [] => [String c EmptyString]
           end
  end.

(** [enumerate(xs, 1)] *)
Fixpoint enumerate_from {A} (i : nat) (xs : list A) : list (nat * A) :=
  match xs with
  | [] => []
  | x :: xs' => (i, x) :: enumerate_from (S i) xs'
  end.

(** [sep.join(parts)] *)
Fixpoint join (sep : string) (parts : list string) : string :=
  match parts with
  | [] => EmptyString
  | [p] => p
  | p :: ps => p +++ sep +++ join sep ps
  end.

(** [s.endswith(p)] *)
Definition endswith (p s : string) : bool :=
  let n := String.length s in
  let m := String.length p in
  (m <=? n) && String.eqb (drop (n - m) s) p.

End Py.

(* ================================================================== *)
(** ** The fragment of Python's [re] used by the script

    A backtracking matcher in continuation-passing style: alternatives are
    tried left to right, a greedy repetition tries the longest run first and
    a lazy one the shortest, as the [re] module does.  Every repetition in
    the script's patterns ranges over a one-character class, which keeps
    the matcher structurally recursive. *)
(* ================================================================== *)

Module Re.

Record flags := Flags { IGNORECASE : bool; DOTALL : bool; MULTILINE : bool }.

Definition no_flags : flags := Flags false false false.

(** One-character classes. *)
Inductive cset :=
| CSpace                       (* \s *)
| CDigit                       (* \d *)
| CDot                         (* .  *)
| CNot (c : ascii)             (* [^c] *)
| CRange (lo hi : ascii).      (* [lo-hi] *)

Inductive regex :=
| Eps
| Chr (c : ascii)                    (* a literal character *)
| Cls (cs : cset)                    (* one character of a class *)
| Seq (r1 r2 : regex)
| Alt (r1 r2 : regex)                (* r1|r2 *)
| Star (greedy : bool) (cs : cset)   (* cs* and cs*? *)
| Grp (r : regex)                    (* ( r ), the capturing group *)
| WordB                              (* \b *)
| Caret.                             (* ^ *)

(** [cs+] and [cs+?] *)
Definition Plus (greedy : bool) (cs : cset) : regex :=
  Seq (Cls cs) (Star greedy cs).

(** A run of literal characters. *)
Fixpoint Lit (s : string) : regex :=
  match s with
  | EmptyString => Eps
  | String c s' => Seq (Chr c) (Lit s')
  end.

Definition in_cset (fl : flags) (cs : cset) (c : ascii) : bool :=
  match cs with
  | CSpace => Py.isspace c
  | CDigit => Py.isdecimal c
  | CDot => DOTALL fl || negb (Ascii.eqb c Py.newline)
  | CNot x => negb (Ascii.eqb c x)
  | CRange lo hi => Py.between (Py.code lo) (Py.code hi) (Py.code c)
  end.

Definition chr_eq (fl : flags) (pat c : ascii) : bool :=
  if IGNORECASE fl
  then Ascii.eqb (Py.lower_char c) (Py.lower_char pat)
  else Ascii.eqb c pat.

(** The matcher's position in the subject: offset, the character before
    it, the text after it, and the span of the capturing group. *)
Record cursor := Cursor {
  pos : nat;
  prev : option ascii;
  rest : string;
  grp : option (nat * nat)
}.

Definition start_of (s : string) : cursor := Cursor 0 None s None.

Definition step (c : ascii) (s' : string) (cur : cursor) : cursor :=
  Cursor (S (pos cur)) (Some c) s' (grp cur).

Definition is_word (o : option ascii) : bool :=
  match o with Some c => Py.isword c | None => false end.

Definition next_char (cur : cursor) : option ascii :=
  match rest cur with String c _ => Some c | EmptyString => None end.

Definition at_word_boundary (cur : cursor) : bool :=
  xorb (is_word (prev cur)) (is_word (next_char cur)).

Definition at_line_start (fl : flags) (cur : cursor) : bool :=
  match prev cur with
  | None => true
  | Some c => MULTILINE fl && Ascii.eqb c Py.newline
  end.

Definition orelse {A} (a : option A) (b : unit -> option A) : option A :=
  match a with Some x => Some x | None => b tt end.

(** Repetition of a class from a cursor whose remaining text is [s]. *)
Fixpoint star_from (fl : flags) (greedy : bool) (cs : cset)
    (k : cursor -> option cursor) (s : string) (cur : cursor)
    : option cursor :=
  match s with
  | EmptyString => k cur
  | String c s' =>
      if in_cset fl cs c then
        if greedy
        then orelse (star_from fl greedy cs k s' (step c s' cur))
                    (fun _ => k cur)
        else orelse (k cur)
                    (fun _ => star_from fl greedy cs k s' (step c s' cur))
      else k cur
  end.

Fixpoint exec (fl : flags) (r : regex) (cur : cursor)
    (k : cursor -> option cursor) : option cursor :=
  match r with
  | Eps => k cur
  | Chr p =>
      match rest cur with
      | String c s' => if chr_eq fl p c then k (step c s' cur) else None
      | EmptyString => None
      end
  | Cls cs =>
      match rest cur with
      | String c s' => if in_cset fl cs c then k (step c s' cur) else None
      | EmptyString => None
      end
  | Seq r1 r2 => exec fl r1 cur (fun mid => exec fl r2 mid k)
  | Alt r1 r2 => orelse (exec fl r1 cur k) (fun _ => exec fl r2 cur k)
  | Star greedy cs => star_from fl greedy cs k (rest cur) cur
  | Grp r' =>
      exec fl r' cur
        (fun fin => k (Cursor (pos fin) (prev fin) (rest fin)
                              (Some (pos cur, pos fin))))
  | WordB => if at_word_boundary cur then k cur else None
  | Caret => if at_line_start fl cur then k cur else None
  end.

(** A match object: span, [group()] and [group(1)]. *)
Record rmatch := Match {
  m_start : nat;
  m_end : nat;
  group0 : string;
  group1 : option string
}.

Definition match_at (fl : flags) (r : regex) (cur : cursor)
    : option rmatch :=
  match exec fl r cur Some with
  | Some fin =>
      Some (Match (pos cur) (pos fin)
              (Py.take (pos fin - pos cur) (rest cur))
              (match grp fin with
               | Some (a, b) =>
                   Some (Py.slice (a - pos cur) (b - pos cur) (rest cur))
               | None => None
               end))
  | None => None
  end.

(** Leftmost match at or after a cursor whose remaining text is [s]. *)
Fixpoint search_from (fl : flags) (r : regex) (s : string) (cur : cursor)
    : option rmatch :=
  match match_at fl r cur with
  | Some m => Some m
  | None =>
      match s with
      | EmptyString => None
      | String c s' => search_from fl r s' (step c s' cur)
      end
  end.

(** [re.search(r, s, fl)] *)
Definition search (fl : flags) (r : regex) (s : string) : option rmatch :=
  search_from fl r s (start_of s).

Definition found (fl : flags) (r : regex) (s : string) : bool :=
  match search fl r s with Some _ => true | None => false end.

(** Successive non-overlapping matches, left to right.  [skip] counts the
    characters of the last match still to be passed over.  None of the
    script's patterns matches the empty string; after an empty match the
    scan resumes one character further. *)
Fixpoint finditer_from (fl : flags) (r : regex) (s : string)
    (cur : cursor) (skip : nat) : list rmatch :=
  match skip with
  | S n =>
      match s with
      | EmptyString => []
      | String c s' => finditer_from fl r s' (step c s' cur) n
      end
  | O =>
      match match_at fl r cur with
      | Some m =>
          m :: match s with
               | EmptyString => []
               | String c s' =>
                   finditer_from fl r s' (step c s' cur)
                     (pred (m_end m - m_start m))
               end
      | None =>
          match s with
          | EmptyString => []
          | String c s' => finditer_from fl r s' (step c s' cur) 0
          end
      end
  end.

(** [re.finditer(r, s, fl)] *)
Definition finditer (fl : flags) (r : regex) (s : string) : list rmatch :=
  finditer_from fl r s (Cursor 0 None s None) 0.

(** [re.findall(r, s, fl)] for a pattern with one capturing group: the
    text of the group, empty when the group took no part in the match. *)
Definition findall (fl : flags) (r : regex) (s : string) : list string :=
  map (fun m => match group1 m with Some g => g | None => EmptyString end)
      (finditer fl r s).

End Re.

Import Re.

(** The script's patterns.  In the comments \x22 stands for the double
    quote character. *)
Module Pat.

Definition ws_star : regex := Star true CSpace.
Definition ws_plus : regex := Plus true CSpace.
Definition digits : regex := Plus true CDigit.
Definition quote : ascii := ascii_of_nat 34.
Definition q : regex := Chr quote.
Definition not_quote_plus : regex := Plus true (CNot quote).
Definition not_quote_star : regex := Star true (CNot quote).

Fixpoint seq (rs : list regex) : regex :=
  match rs with
  | [] => Eps
  | [r] => r
  | r :: rs' => Seq r (seq rs')
  end.

(** r'\bport\s*=\s*(\d+)' *)
Definition port : regex :=
  seq [WordB; Lit "port"; ws_star; Chr "="; ws_star; Grp digits].

(** r'\bzone\s*=\s*\x22(\d+)\x22' *)
Definition zone : regex :=
  seq [WordB; Lit "zone"; ws_star; Chr "="; ws_star; q; Grp digits; q].

(** r'168\.63\.129\.16' *)
Definition wire_server : regex := Lit "168.63.129.16".

(** r'\bdisk_size_gb\s*=\s*(\d+)' *)
Definition disk_size : regex :=
  seq [WordB; Lit "disk_size_gb"; ws_star; Chr "="; ws_star; Grp digits].

(** r'contains\(\s*\[\s*\x22yes\x22\s*,\s*\x22no\x22\s*\]' *)
Definition yes_no : regex :=
  seq [Lit "contains("; ws_star; Chr "["; ws_star; q; Lit "yes"; q;
       ws_star; Chr ","; ws_star; q; Lit "no"; q; ws_star; Chr "]"].

(** r'contains\(\s*\[\s*\x22true\x22\s*,\s*\x22false\x22\s*\]' *)
Definition true_false : regex :=
  seq [Lit "contains("; ws_star; Chr "["; ws_star; q; Lit "true"; q;
       ws_star; Chr ","; ws_star; q; Lit "false"; q; ws_star; Chr "]"].

(** r'variable\s+\x22([^\x22]+)\x22' *)
Definition var_pattern : regex :=
  seq [Lit "variable"; ws_plus; q; Grp not_quote_plus; q].

(** r'[A-Z]' *)
Definition upper : regex := Cls (CRange "A" "Z").

(** r'resource\s+\x22[^\x22]+\x22\s+\x22([^\x22]+)\x22' *)
Definition resource_pattern : regex :=
  seq [Lit "resource"; ws_plus; q; not_quote_plus; q; ws_plus;
       q; Grp not_quote_plus; q].

(** (password|secret|key) *)
Definition secret_word : regex :=
  Alt (Lit "password") (Alt (Lit "secret") (Lit "key")).

(** r'(password|secret|key)\s*=\s*\x22[^$]' *)
Definition hardcoded_secret : regex :=
  seq [Grp secret_word; ws_star; Chr "="; ws_star; q; Cls (CNot "$")].

(** r'var\.|data\.' *)
Definition var_or_data : regex := Alt (Lit "var.") (Lit "data.").

(** .*?} *)
Definition to_closing_brace : regex := Seq (Star false CDot) (Chr "}").

(** r'variable\s+\x22(NAME)\x22.*?}' where NAME is
    [^\x22]*(?:password|secret|key)[^\x22]* *)
Definition sensitive_vars : regex :=
  seq [Lit "variable"; ws_plus; q;
       Grp (seq [not_quote_star; secret_word; not_quote_star]); q;
       to_closing_brace].

(** r'variable\s+\x22([^\x22]+)\x22.*?}' *)
Definition var_blocks : regex :=
  seq [Lit "variable"; ws_plus; q; Grp not_quote_plus; q; to_closing_brace].

(** Characters with a meaning of their own in a pattern. *)
Definition metachar (c : ascii) : bool :=
  existsb (Ascii.eqb c)
    ["\"; "."; "^"; "$"; "*"; "+"; "?"; "{"; "}"; "["; "]"; "|"; "(";
     ")"]%char.

Fixpoint plain (s : string) : bool :=
  match s with
  | EmptyString => true
  | String c s' => negb (metachar c) && plain s'
  end.

(** rf'variable\s+\x22{var_name}\x22.*?}}' with the name standing for
    itself. *)
Definition var_block_regex (var_name : string) : regex :=
  seq [Lit "variable"; ws_plus; q; Lit var_name; q; to_closing_brace].

(** The same pattern as Python compiles it: the name is spliced into the
    pattern unescaped.  A name free of metacharacters stands for itself;
    any other name is read by Python as pattern syntax, which this
    development does not cover ([None]). *)
Definition var_block (var_name : string) : option regex :=
  if plain var_name then Some (var_block_regex var_name) else None.

(** r'default\s*=' *)
Definition default_assign : regex :=
  seq [Lit "default"; ws_star; Chr "="].

(** r'^\s*output\s+\x22' *)
Definition output_decl : regex :=
  seq [Caret; ws_star; Lit "output"; ws_plus; q].

Definition dotall : flags := Flags false true false.
Definition dotall_ignorecase : flags := Flags true true false.
Definition ignorecase : flags := Flags true false false.
Definition multiline : flags := Flags false false true.

End Pat.

(* ================================================================== *)
(** ** The file system seen by the script *)
(* ================================================================== *)

#[local] Set Warnings "-register-all".

(** What a path can hold: a readable text file (its text as [read_text]
    returns it) or a directory with its entries in the order the operating
    system lists them. *)
Inductive node :=
| File (text : string)
| Dir (entries : list (string * node)).

Inductive exn :=
| IsADirectoryError
| ZeroDivisionError.

(** Outcome of a computation: a value, a raised exception, or [Uncovered]
    when the run leaves the fragment of [re] covered here (see
    [Pat.var_block]). *)
Inductive res (A : Type) :=
| Val (a : A)
| Exc (e : exn)
| Uncovered.

Arguments Val {A} a.
Arguments Exc {A} e.
Arguments Uncovered {A}.

(** A discovered file: its components relative to the root, and what the
    file system holds there. *)
Record tf_file := TfFile { parts : list string; target : node }.

Module FS.

Fixpoint assoc (name : string) (es : list (string * node)) : option node :=
  match es with
  | [] => None
  | (n, x) :: es' => if String.eqb n name then Some x else assoc name es'
  end.

(** [root / name] *)
Definition child (root : node) (name : string) : option node :=
  match root with
  | Dir es => assoc name es
  | File _ => None
  end.

(** [p.exists()] *)
Definition exists_ (p : option node) : bool :=
  match p with Some _ => true | None => false end.

(** [p.read_text()] for a path that exists. *)
Definition read_text (n : node) : res string :=
  match n with
  | File text => Val text
  | Dir _ => Exc IsADirectoryError
  end.

Definition is_tf (name : string) : bool := Py.endswith ".tf" name.

Definition under (dir : string) (f : tf_file) : tf_file :=
  TfFile (dir :: parts f) (target f).

(** [root.glob("**/*.tf")]: every entry, at any depth, whose name ends in
    [.tf]; the entries of a directory first, then those of its
    subdirectories in turn. *)
Fixpoint glob (root : node) : list tf_file :=
  match root with
  | File _ => []
  | Dir es =>
      map (fun e => TfFile [fst e] (snd e))
          (filter (fun e => is_tf (fst e)) es)
      ++ (fix below (l : list (string * node)) : list tf_file :=
            match l with
            | [] => []
            | (d, sub) :: l' => map (under d) (glob sub) ++ below l'
            end) es
  end.

(** [f.name] *)
Definition name (f : tf_file) : string := last (parts f) "".

(** [str(f.relative_to(root))] *)
Definition relative_to (f : tf_file) : string := Py.join "/" (parts f).

End FS.

(* ================================================================== *)
(** ** ValidationResult and the validator's state *)
(* ================================================================== *)

Record ValidationResult := mkResult {
  check_name : string;
  passed : bool;
  message : string;
  file_path : string;
  line_number : nat
}.

(** ValidationResult(check_name, passed, message) with the default
    file_path and line_number. *)
Definition result3 (n : string) (p : bool) (m : string) : ValidationResult :=
  mkResult n p m "" 0.

(** ValidationResult(check_name, passed, message, file_path) *)
Definition result4 (n : string) (p : bool) (m f : string)
    : ValidationResult :=
  mkResult n p m f 0.

Record IaCValidator := mkValidator {
  path : string;              (* str(self.path) *)
  root : node;                (* what the file system holds at self.path *)
  strict : bool;
  results : list ValidationResult;
  tf_files : list tf_file
}.

(** Checks run in a monad threading [self.results] and exceptions. *)
Definition M (A : Type) : Type :=
  list ValidationResult -> list ValidationResult * res A.

Definition ret {A} (a : A) : M A := fun s => (s, Val a).

Definition bind {A B} (m : M A) (k : A -> M B) : M B :=
  fun s =>
    match m s with
    | (s', Val a) => k a s'
    | (s', Exc e) => (s', Exc e)
    | (s', Uncovered) => (s', Uncovered)
    end.

(** self.results.append(r) *)
Definition append (r : ValidationResult) : M unit :=
  fun s => (s ++ [r], Val tt).

Definition lift {A} (r : res A) : M A := fun s => (s, r).

Notation "x <- m ;; k" := (bind m (fun x => k))
  (at level 61, m at next level, right associativity).
Notation "m ;; k" := (bind m (fun _ => k))
  (at level 61, right associativity).

Definition when (b : bool) (m : M unit) : M unit :=
  if b then m else ret tt.

(** for x in xs: body(x) *)
Fixpoint for_each {X} (xs : list X) (body : X -> M unit) : M unit :=
  match xs with
  | [] => ret tt
  | x :: xs' => body x ;; for_each xs' body
  end.

Definition dq : string := String Pat.quote "".
Definition quoted (s : string) : string := dq +++ s +++ dq.

(* ================================================================== *)
(** ** The rule families *)
(* ================================================================== *)

Definition required_files : list (string * string) :=
  [("README.md", "Project documentation");
   ("variables.tf", "Variable declarations");
   ("outputs.tf", "Output definitions");
   ("versions.tf", "Provider versions (or provider.tf)");
   (".gitignore", "Git exclusions")].

Definition required_file_result (self : IaCValidator)
    (entry : string * string) : ValidationResult :=
  let (filename, description) := entry in
  let file_exists := FS.exists_ (FS.child (root self) filename) in
  let file_exists :=
    if String.eqb filename "versions.tf" && negb file_exists
    then FS.exists_ (FS.child (root self) "provider.tf")
    else file_exists in
  result3 ("Required File: " +++ filename) file_exists
    (description +++ " " +++ (if file_exists then "found" else "MISSING")).

Definition check_file_structure (self : IaCValidator) : M unit :=
  for_each required_files
    (fun entry => append (required_file_result self entry)) ;;
  let constants_file := FS.exists_ (FS.child (root self) "locals_constants.tf") in
  append (result3 "Constants File" constants_file
            (if constants_file then "locals_constants.tf found"
             else "locals_constants.tf MISSING - magic numbers may be present")).

Definition magic_patterns : list (regex * string) :=
  [(Pat.port, "Port number");
   (Pat.zone, "Availability zone");
   (Pat.wire_server, "Azure Wire Server IP");
   (Pat.disk_size, "Disk size")].

Definition is_comment (line : string) : bool :=
  Py.startswith "#" (Py.strip line).

Definition magic_result (tf : tf_file) (i : nat) (description : string)
    (m : rmatch) : ValidationResult :=
  mkResult "Magic Number" false
    (description +++ " hardcoded: " +++ group0 m
       +++ " - Should be in locals_constants.tf")
    (FS.relative_to tf) i.

Definition check_magic_numbers (self : IaCValidator) : M unit :=
  let has_constants_file :=
    FS.exists_ (FS.child (root self) "locals_constants.tf") in
  for_each (tf_files self) (fun tf =>
    if String.eqb (FS.name tf) "locals_constants.tf" then ret tt
    else
      content <- lift (FS.read_text (target tf)) ;;
      let lines := Py.split_lines content in
      for_each (Py.enumerate_from 1 lines) (fun il =>
        let (i, line) := il in
        if is_comment line then ret tt
        else
          for_each magic_patterns (fun pd =>
            let (pattern, description) := pd in
            for_each (finditer no_flags pattern line) (fun m =>
              if Py.contains "local." line then ret tt
              else append (magic_result tf i description m))))).

Definition check_string_booleans (self : IaCValidator) : M unit :=
  for_each (tf_files self) (fun tf =>
    content <- lift (FS.read_text (target tf)) ;;
    let lines := Py.split_lines content in
    for_each (Py.enumerate_from 1 lines) (fun il =>
      let (i, line) := il in
      when (found no_flags Pat.yes_no line)
        (append (mkResult "String Boolean" false
           ("String boolean detected - Use type = bool instead of "
              +++ quoted "yes" +++ "/" +++ quoted "no")
           (FS.relative_to tf) i)) ;;
      when (found no_flags Pat.true_false line)
        (append (mkResult "String Boolean" false
           ("String boolean detected - Use type = bool instead of "
              +++ quoted "true" +++ "/" +++ quoted "false" +++ " strings")
           (FS.relative_to tf) i)))).

Definition check_naming_conventions (self : IaCValidator) : M unit :=
  for_each (tf_files self) (fun tf =>
    if negb (String.eqb (FS.name tf) "variables.tf") then ret tt
    else
      content <- lift (FS.read_text (target tf)) ;;
      let variables := findall no_flags Pat.var_pattern content in
      for_each variables (fun var_name =>
        when (found no_flags Pat.upper var_name)
          (append (result4 "Variable Naming" false
             ("Variable " +++ quoted var_name +++ " not in snake_case")
             (FS.relative_to tf))) ;;
        when (String.length var_name <? 3)
          (append (result4 "Variable Naming" false
             ("Variable " +++ quoted var_name +++ " too short (< 3 chars)")
             (FS.relative_to tf))))) ;;
  for_each (tf_files self) (fun tf =>
    content <- lift (FS.read_text (target tf)) ;;
    let resources := findall no_flags Pat.resource_pattern content in
    for_each resources (fun res_name =>
      when (found no_flags Pat.upper res_name)
        (append (result4 "Resource Naming" false
           ("Resource " +++ quoted res_name +++ " not in snake_case")
           (FS.relative_to tf))))).

Definition required_sections : list (string * string) :=
  [("prerequisites", "Prerequisites section");
   ("quick start", "Quick Start or Getting Started section");
   ("configuration", "Configuration section")].

Definition section_result (content : string) (entry : string * string)
    : ValidationResult :=
  let (keyword, description) := entry in
  let found := Py.contains keyword content in
  result3 ("README: " +++ description) found
    (description +++ " " +++ (if found then "found" else "MISSING in README.md")).

Definition example_result (self : IaCValidator) : ValidationResult :=
  let example_file := FS.child (root self) "terraform.tfvars.example" in
  result3 "Example Configuration" (FS.exists_ example_file)
    ("terraform.tfvars.example "
       +++ (if FS.exists_ example_file then "found" else "MISSING")).

Definition readme_missing : ValidationResult :=
  result3 "README.md" false "README.md not found".

Definition check_documentation (self : IaCValidator) : M unit :=
  match FS.child (root self) "README.md" with
  | None => append readme_missing
  | Some readme =>
      text <- lift (FS.read_text readme) ;;
      let content := Py.lower text in
      for_each required_sections
        (fun entry => append (section_result content entry)) ;;
      append (example_result self)
  end.

(** content[max(0, content.find(line) - 200):content.find(line)] *)
Definition lookback (content line : string) : string :=
  match Py.find line content with
  | Some at_ => Py.slice (at_ - 200) at_ content
  | None => Py.take (String.length content - 1) content
  end.

Definition sensitive_result (var_name var_block : string)
    : ValidationResult :=
  let has_sensitive :=
    Py.contains "sensitive" var_block && Py.contains "true" var_block in
  result3 "Sensitive Variable" has_sensitive
    ("Variable " +++ quoted var_name +++ " "
       +++ (if has_sensitive then "is" else "NOT") +++ " marked sensitive").

(** The search for a variable's block, with the name spliced into the
    pattern. *)
Definition search_var_block (var_name content : string)
    : res (option rmatch) :=
  match Pat.var_block var_name with
  | Some r => Val (search Pat.dotall r content)
  | None => Uncovered
  end.

(** The part of check_security_standards after its loop over the files:
    the sensitive flag on sensitive variables. *)
Definition check_sensitive_variables (self : IaCValidator) : M unit :=
  match FS.child (root self) "variables.tf" with
  | None => ret tt
  | Some variables_file =>
      content <- lift (FS.read_text variables_file) ;;
      let sensitive_vars :=
        findall Pat.dotall_ignorecase Pat.sensitive_vars content in
      for_each sensitive_vars (fun var_name =>
        var_block_match <- lift (search_var_block var_name content) ;;
        match var_block_match with
        | Some m => append (sensitive_result var_name (group0 m))
        | None => ret tt
        end)
  end.

Definition check_security_standards (self : IaCValidator) : M unit :=
  for_each (tf_files self) (fun tf =>
    content <- lift (FS.read_text (target tf)) ;;
    let lines := Py.split_lines content in
    for_each (Py.enumerate_from 1 lines) (fun il =>
      let (i, line) := il in
      when (found Pat.ignorecase Pat.hardcoded_secret line)
        (when (negb (found no_flags Pat.var_or_data line))
           (append (mkResult "Hardcoded Secret" false
              "Possible hardcoded secret detected - Use variables or Key Vault"
              (FS.relative_to tf) i))) ;;
      when (Py.contains "source_address_prefix" line
            && Py.contains (quoted "*") line)
        (when (Py.contains "allow" (Py.lower (lookback content line)))
           (append (mkResult "Overly Permissive Security Rule" false
              "Security rule allows traffic from anywhere (*) - Use specific CIDR blocks"
              (FS.relative_to tf) i))))) ;;
  check_sensitive_variables self.

Definition check_variable_validation (self : IaCValidator) : M unit :=
  match FS.child (root self) "variables.tf" with
  | None => ret tt
  | Some variables_file =>
      content <- lift (FS.read_text variables_file) ;;
      let var_blocks := findall Pat.dotall Pat.var_blocks content in
      for_each var_blocks (fun var_name =>
        var_match <- lift (search_var_block var_name content) ;;
        match var_match with
        | Some m =>
            let var_block := group0 m in
            let has_validation := Py.contains "validation" var_block in
            let has_default := found no_flags Pat.default_assign var_block in
            when (negb has_default && negb has_validation)
              (append (result4 "Variable Validation" false
                 ("Required variable " +++ quoted var_name
                    +++ " lacks validation block")
                 "variables.tf"))
        | None => ret tt
        end)
  end.

Definition check_output_organization (self : IaCValidator) : M unit :=
  if negb (FS.exists_ (FS.child (root self) "outputs.tf")) then
    append (result3 "Output Organization" false
              "outputs.tf not found - outputs may be scattered")
  else
    for_each (tf_files self) (fun tf =>
      if String.eqb (FS.name tf) "outputs.tf" then ret tt
      else
        content <- lift (FS.read_text (target tf)) ;;
        when (found Pat.multiline Pat.output_decl content)
          (append (result4 "Output Organization" false
             ("Output found in " +++ FS.name tf
                +++ " - should be in outputs.tf")
             (FS.relative_to tf)))).

(* ================================================================== *)
(** ** The driver *)
(* ================================================================== *)

Definition count_passed (rs : list ValidationResult) : nat :=
  List.length (filter passed rs).

Definition file_discovery_failure (self : IaCValidator) : ValidationResult :=
  result3 "File Discovery" false
    ("No Terraform files found in " +++ path self).

Definition all_checks (self : IaCValidator) : M unit :=
  check_file_structure self ;;
  check_magic_numbers self ;;
  check_string_booleans self ;;
  check_naming_conventions self ;;
  check_documentation self ;;
  check_security_standards self ;;
  check_variable_validation self ;;
  check_output_organization self.

Definition set_tf_files (self : IaCValidator) (fs : list tf_file)
    : IaCValidator :=
  mkValidator (path self) (root self) (strict self) (results self) fs.

Definition set_results (self : IaCValidator) (rs : list ValidationResult)
    : IaCValidator :=
  mkValidator (path self) (root self) (strict self) rs (tf_files self).

(** run_all_checks: the validator afterwards and the value returned (or the
    exception raised). *)
Definition run_all_checks (self : IaCValidator) : IaCValidator * res bool :=
  let self := set_tf_files self (FS.glob (root self)) in
  match tf_files self with
  | [] =>
      (set_results self (results self ++ [file_discovery_failure self]),
       Val false)
  | _ :: _ =>
      match all_checks self (results self) with
      | (rs, Val _) =>
          let total := List.length rs in
          let passed := count_passed rs in
          let failed := total - passed in
          (set_results self rs, Val (failed =? 0))
      | (rs, Exc e) => (set_results self rs, Exc e)
      | (rs, Uncovered) => (set_results self rs, Uncovered)
      end
  end.

(** The figures of the report's summary; the pass rate
    [passed / len(self.results) * 100] is kept as an exact fraction. *)
Record summary := Summary {
  total_checks : nat;
  passed_checks : nat;
  failed_checks : nat;
  pass_rate : nat * nat     (* numerator and denominator, in percent *)
}.

(** generate_report up to its summary block, the only part that can raise
    (division by the number of results).  Rendering the groups and writing
    the file are taken to succeed. *)
Definition generate_report (self : IaCValidator) : res summary :=
  let passed_n := count_passed (results self) in
  let failed_n := List.length (filter (fun r => negb (passed r)) (results self)) in
  match List.length (results self) with
  | O => Exc ZeroDivisionError
  | S _ as n => Val (Summary n passed_n failed_n (passed_n * 100, n))
  end.

(** IaCValidator(path, strict) *)
Definition new_validator (p : string) (n : node) (st : bool) : IaCValidator :=
  mkValidator p n st [] [].

Record Args := mkArgs {
  arg_path : string;
  arg_strict : bool;
  arg_report : bool       (* whether --report was given *)
}.

(** What main leaves behind: the exit code ([None] when the run left the
    covered fragment of [re], see [Pat.var_block]), the validator (when one
    was built) and the summary of the report (when one was written). *)
Record exit_state := Exit {
  exit_code : option nat;
  validator : option IaCValidator;
  report : option summary
}.

(** main, on the file system object found at args.path ([None] when the
    path does not exist). *)
Definition main (args : Args) (at_path : option node) : exit_state :=
  match at_path with
  | None => Exit (Some 2) None None
  | Some n =>
      let validator := new_validator (arg_path args) n (arg_strict args) in
      match run_all_checks validator with
      | (v, Val all_passed) =>
          if arg_report args then
            match generate_report v with
            | Val s =>
                Exit (Some (if all_passed then 0 else 1)) (Some v) (Some s)
            | _ => Exit (Some 2) (Some v) None
            end
          else Exit (Some (if all_passed then 0 else 1)) (Some v) None
      | (v, Exc _) => Exit (Some 2) (Some v) None
      | (v, Uncovered) => Exit None (Some v) None
      end
  end.

(* ================================================================== *)
(** ** Definitions used to state the properties

    Logs of the monad, the results each rule is expected to emit, the
    specification's reading of the claims, and sample trees. *)
(* ================================================================== *)

(** *** Reasoning about the monad *)

(** [runs m out r]: from any state, [m] appends [out] to the results and
    ends with [r]. *)
Definition runs {A} (m : M A) (out : list ValidationResult) (r : res A)
    : Prop :=
  forall s, m s = (s ++ out, r).

(** [adds Q m]: [m] only appends results, all of which satisfy [Q]. *)
Definition adds {A} (Q : ValidationResult -> Prop) (m : M A) : Prop :=
  exists out r, runs m out r /\ Forall Q out.

(** *** Which rule emits which check names *)

Definition named (ns : list string) (r : ValidationResult) : Prop :=
  existsb (String.eqb (check_name r)) ns = true.

Definition file_structure_names : list string :=
  ["Required File: README.md"; "Required File: variables.tf";
   "Required File: outputs.tf"; "Required File: versions.tf";
   "Required File: .gitignore"; "Constants File"].

Definition documentation_names : list string :=
  ["README.md"; "README: Prerequisites section";
   "README: Quick Start or Getting Started section";
   "README: Configuration section"; "Example Configuration"].

Definition security_names : list string :=
  ["Hardcoded Secret"; "Overly Permissive Security Rule";
   "Sensitive Variable"].

(** *** The sequence of checks *)

(** A computation run from the empty result list. *)
Definition eval {A} (m : M A) : list ValidationResult * res A := m [].

Definition log {A} (m : M A) : list ValidationResult := fst (eval m).
Definition outcome {A} (m : M A) : res A := snd (eval m).

(** What [m ;; k] leaves, from what [m] and [k] leave. *)
Definition seq_eval (a b : list ValidationResult * res unit)
    : list ValidationResult * res unit :=
  match snd a with
  | Val _ => (fst a ++ fst b, snd b)
  | _ => a
  end.

Definition any_result (_ : ValidationResult) : Prop := True.

(** The six results of check_file_structure. *)
Definition file_structure_results (self : IaCValidator)
    : list ValidationResult :=
  map (required_file_result self) required_files
  ++ [let constants_file :=
        FS.exists_ (FS.child (root self) "locals_constants.tf") in
      result3 "Constants File" constants_file
        (if constants_file then "locals_constants.tf found"
         else "locals_constants.tf MISSING - magic numbers may be present")].

(** *** A root without variables.tf *)

Definition not_about_variables (r : ValidationResult) : Prop :=
  check_name r <> "Variable Validation" /\ check_name r <> "Sensitive Variable".

Definition two_file_root : node :=
  Dir [("main.tf", File "port = 1"); ("README.md", File "x")].

(** *** Removing the documentation file *)

(** The entries of a directory after deleting the entry called [name]. *)
Definition remove_entry (name : string) (es : list (string * node))
    : list (string * node) :=
  filter (fun e => negb (String.eqb (fst e) name)) es.

(** [completes m]: [m] ends normally from every state, only appending. *)
Definition completes (m : M unit) : Prop := exists o, runs m o (Val tt).

(** Every discovered entry is a regular file. *)
Definition all_regular (fs : list tf_file) : Prop :=
  forall f, In f fs -> exists text, target f = File text.

(** The file-structure results other than the one for README.md. *)
Definition other_structure_results (self : IaCValidator)
    : list ValidationResult :=
  tl (file_structure_results self).

(** What the rules after the documentation rule leave. *)
Definition later_rules (self : IaCValidator)
    : list ValidationResult * res unit :=
  seq_eval (eval (check_security_standards self))
    (seq_eval (eval (check_variable_validation self))
              (eval (check_output_organization self))).

(** What the per-file rules before the documentation rule emit. *)
Definition earlier_rules (self : IaCValidator) : list ValidationResult :=
  log (check_magic_numbers self) ++ log (check_string_booleans self)
    ++ log (check_naming_conventions self).

(** The results of a whole run on a fresh validator. *)
Definition run_results (p : string) (n : node) (st : bool)
    : list ValidationResult :=
  results (fst (run_all_checks (new_validator p n st))).

Definition run_outcome (p : string) (n : node) (st : bool) : res bool :=
  snd (run_all_checks (new_validator p n st)).

Definition readme_present : ValidationResult :=
  result3 "Required File: README.md" true "Project documentation found".

Definition readme_absent : ValidationResult :=
  result3 "Required File: README.md" false "Project documentation MISSING".

(** A line break, and a text given line by line. *)
Definition nl : string := String Py.newline "".

Definition lines (ls : list string) : string := Py.join nl ls +++ nl.

(** A root that meets every rule. *)
Definition compliant_entries : list (string * node) :=
  [("README.md",
    File (lines ["# Platform"; "## Prerequisites"; "## Quick Start";
                 "## Configuration"]));
   ("variables.tf",
    File (lines ["variable " +++ quoted "region" +++ " {";
                 "  type    = string";
                 "  default = " +++ quoted "westeurope";
                 "}"]));
   ("outputs.tf",
    File (lines ["output " +++ quoted "group_id" +++ " {";
                 "  value = azurerm_resource_group.main.id";
                 "}"]));
   ("versions.tf",
    File (lines ["terraform {";
                 "  required_version = " +++ quoted ">= 1.5";
                 "}"]));
   (".gitignore", File (lines [".terraform/"]));
   ("locals_constants.tf",
    File (lines ["locals {"; "  ssh_port = 22"; "}"]));
   ("terraform.tfvars.example",
    File (lines ["region = " +++ quoted "westeurope"]));
   ("main.tf",
    File (lines ["resource " +++ quoted "azurerm_resource_group" +++ " "
                   +++ quoted "main" +++ " {";
                 "  name     = " +++ quoted "rg-platform";
                 "  location = var.region";
                 "}"]))].

Definition compliant_root : node := Dir compliant_entries.

(** C4 as the specification states it: one result flips and exactly three
    results disappear, nothing else being added, removed or changed. *)
Definition claimed_readme_change (r1 r2 : list ValidationResult) : Prop :=
  exists A B s1 s2 s3,
    r1 = readme_present :: A ++ [s1; s2; s3] ++ B
    /\ r2 = readme_absent :: A ++ B.

Definition is_readme_missing (r : ValidationResult) : bool :=
  String.eqb (check_name r) "README.md".

(** *** Magic numbers, line by line *)

(** What check_magic_numbers emits for one line, one file, one entry. *)
Definition magic_line_results (tf : tf_file) (i : nat) (line : string)
    : list ValidationResult :=
  if is_comment line then []
  else flat_map (fun pd =>
         flat_map (fun m =>
           if Py.contains "local." line then []
           else [magic_result tf i (snd pd) m])
           (finditer no_flags (fst pd) line))
         magic_patterns.

Definition magic_file_results (tf : tf_file) (text : string)
    : list ValidationResult :=
  flat_map (fun il => magic_line_results tf (fst il) (snd il))
           (Py.enumerate_from 1 (Py.split_lines text)).

Definition magic_results_of (tf : tf_file) : list ValidationResult :=
  if String.eqb (FS.name tf) "locals_constants.tf" then []
  else match target tf with
       | File text => magic_file_results tf text
       | Dir _ => []
       end.

(** Every match of a magic-number pattern on a line, pattern by pattern. *)
Definition magic_hits (line : string) : list rmatch :=
  flat_map (fun pd => finditer no_flags (fst pd) line) magic_patterns.

(** A Magic Number result attributed to line [i] of the file shown as
    [f]. *)
Definition magic_at (f : string) (i : nat) (r : ValidationResult) : bool :=
  String.eqb (check_name r) "Magic Number"
  && String.eqb (file_path r) f && (line_number r =? i).

Definition port_root : node :=
  Dir [("main.tf",
        File (lines ["resource " +++ quoted "azurerm_lb_rule" +++ " "
                       +++ quoted "web" +++ " {";
                     "  port = 8080";
                     "}"]));
       ("locals_constants.tf", File (lines ["locals {"; "  port = 22"; "}"]))].

(** *** Output organization *)

(** The top-level output declarations found in a text: the successive
    matches of the declaration pattern. *)
Definition stray_outputs (text : string) : list rmatch :=
  finditer Pat.multiline Pat.output_decl text.

Definition stray_output_result (tf : tf_file) : ValidationResult :=
  result4 "Output Organization" false
    ("Output found in " +++ FS.name tf +++ " - should be in outputs.tf")
    (FS.relative_to tf).

(** What the rule emits for one discovered entry: one failing result when
    the file is not called outputs.tf and holds a declaration. *)
Definition output_results_of (tf : tf_file) : list ValidationResult :=
  if String.eqb (FS.name tf) "outputs.tf" then []
  else match target tf with
       | File text =>
           match stray_outputs text with
           | [] => []
           | _ :: _ => [stray_output_result tf]
           end
       | Dir _ => []
       end.

Definition is_output_organization (r : ValidationResult) : bool :=
  String.eqb (check_name r) "Output Organization".

(** The stray declarations of a discovered entry: those of a regular file
    not called outputs.tf. *)
Definition strays_of (tf : tf_file) : list rmatch :=
  if String.eqb (FS.name tf) "outputs.tf" then []
  else match target tf with
       | File text => stray_outputs text
       | Dir _ => []
       end.

Definition output_block (name : string) : list string :=
  ["output " +++ quoted name +++ " {"; "  value = 1"; "}"].

(** outputs.tf in place, and main.tf holding the given lines. *)
Definition outputs_root (main_lines : list string) : node :=
  Dir [("outputs.tf", File (lines (output_block "group_id")));
       ("main.tf", File (lines main_lines))].

(** C5 as the specification states it: each stray declaration is flagged
    as one failing result. *)
Definition claimed_output_flags (p : string) (n : node) (st : bool) : Prop :=
  List.length (filter is_output_organization (run_results p n st)) =
  List.length (flat_map strays_of (FS.glob n)).

(** *** The wildcard-source lookback *)

(** Offset at which line [k] (counted from 0) starts. *)
Fixpoint line_offset (ls : list string) (k : nat) : nat :=
  match k, ls with
  | S k', l :: ls' => String.length l + 1 + line_offset ls' k'
  | _, _ => 0
  end.

(** The (at most) 200 characters immediately before line [k]. *)
Definition preceding_window (content : string) (k : nat) : string :=
  let at_ := line_offset (Py.split_lines content) k in
  Py.slice (at_ - 200) at_ content.

Definition wildcard_line : string :=
  "  source_address_prefix = " +++ quoted "*".

Definition allow_then_deny : string :=
  lines ["resource " +++ quoted "azurerm_network_security_rule" +++ " "
           +++ quoted "web" +++ " {";
         "  name   = " +++ quoted "web";
         "  access = " +++ quoted "Allow";
         wildcard_line;
         "}";
         "resource " +++ quoted "azurerm_resource_group" +++ " "
           +++ quoted "main" +++ " {";
         "  name     = " +++ quoted "rg-platform-production-westeurope";
         "  location = " +++ quoted "westeurope";
         "  tags = {";
         "    environment = " +++ quoted "production";
         "    owner       = " +++ quoted "platform-team";
         "    cost_center = " +++ quoted "infrastructure";
         "  }";
         "}";
         "resource " +++ quoted "azurerm_network_security_rule" +++ " "
           +++ quoted "block" +++ " {";
         "  name   = " +++ quoted "block";
         "  access = " +++ quoted "Deny";
         wildcard_line;
         "}"].

Definition allow_then_deny_root : node :=
  Dir [("main.tf", File allow_then_deny)].

Definition permissive_rule (f : string) (i : nat) : ValidationResult :=
  mkResult "Overly Permissive Security Rule" false
    "Security rule allows traffic from anywhere (*) - Use specific CIDR blocks"
    f i.

(** *** How the matcher runs on the variable-block patterns *)

(** One character further; [forward n] goes [n] characters further. *)
Definition next (cur : cursor) : cursor :=
  match rest cur with
  | String c s' => step c s' cur
  | EmptyString => Cursor (S (pos cur)) (prev cur) EmptyString (grp cur)
  end.

Fixpoint forward (n : nat) (cur : cursor) : cursor :=
  match n with
  | O => cur
  | S n' => forward n' (next cur)
  end.

(** Length of the longest prefix whose characters all satisfy [p]. *)
Fixpoint span (p : ascii -> bool) (s : string) : nat :=
  match s with
  | String c s' => if p c then S (span p s') else 0
  | EmptyString => 0
  end.

Definition set_grp (g : option (nat * nat)) (cur : cursor) : cursor :=
  Cursor (pos cur) (prev cur) (rest cur) g.

(** Length of the match of the pattern of [Pat.var_block] at the start of
    a text, read off the text. *)
Definition var_block_length (name s : string) : option nat :=
  if Py.startswith "variable" s then
    let s1 := Py.drop 8 s in
    let w := span Py.isspace s1 in
    if 1 <=? w then
      let s2 := Py.drop w s1 in
      if Py.startswith dq s2 then
        let s3 := Py.drop 1 s2 in
        if Py.startswith name s3 then
          let s4 := Py.drop (String.length name) s3 in
          if Py.startswith dq s4 then
            match Py.find "}" (Py.drop 1 s4) with
            | Some i => Some (8 + w + 1 + String.length name + 1 + S i)
            | None => None
            end
          else None
        else None
      else None
    else None
  else None.

(** The same for [Pat.var_blocks]: offset and length of the captured name,
    and length of the match. *)
Definition not_quote (c : ascii) : bool := negb (Ascii.eqb c Pat.quote).

Definition var_blocks_parts (s : string) : option (nat * nat * nat) :=
  if Py.startswith "variable" s then
    let s1 := Py.drop 8 s in
    let w := span Py.isspace s1 in
    if 1 <=? w then
      let s2 := Py.drop w s1 in
      if Py.startswith dq s2 then
        let s3 := Py.drop 1 s2 in
        let n := span not_quote s3 in
        if 1 <=? n then
          let s4 := Py.drop n s3 in
          if Py.startswith dq s4 then
            match Py.find "}" (Py.drop 1 s4) with
            | Some i => Some (8 + w + 1, n, 8 + w + 1 + n + 1 + S i)
            | None => None
            end
          else None
        else None
      else None
    else None
  else None.

Fixpoint all_chars (p : ascii -> bool) (s : string) : bool :=
  match s with
  | String c s' => p c && all_chars p s'
  | EmptyString => true
  end.

(** The text the rules look at for [name]: the match of the spliced
    pattern, when there is one. *)
Definition examined_block (name content : string) : option string :=
  option_map group0 (search Pat.dotall (Pat.var_block_regex name) content).

(** The examined block is the stretch of the file that starts at a
    [variable "name"] header and ends at the first closing brace after the
    header. *)
Definition block_of (name blk : string) : Prop :=
  exists ws body,
    blk = "variable" +++ ws +++ quoted name +++ body +++ "}"
    /\ ws <> "" /\ all_chars Py.isspace ws = true
    /\ Py.contains "}" body = false.

(** *** Variable validation *)

Definition validation_failure (var_name : string) : ValidationResult :=
  result4 "Variable Validation" false
    ("Required variable " +++ quoted var_name +++ " lacks validation block")
    "variables.tf".

(** What the text examined for a name makes the rule decide. *)
Definition has_default (blk : string) : bool :=
  found no_flags Pat.default_assign blk.

Definition mentions_validation (blk : string) : bool :=
  Py.contains "validation" blk.

Definition validation_results_of (content name : string)
    : list ValidationResult :=
  match examined_block name content with
  | Some blk =>
      if negb (has_default blk) && negb (mentions_validation blk)
      then [validation_failure name] else []
  | None => []
  end.

Definition all_plain (names : list string) : Prop :=
  forall name, In name names -> Pat.plain name = true.

Definition variables_root (variables_lines : list string) : node :=
  Dir [("variables.tf", File (lines variables_lines))].

Definition password_block (body : list string) : list string :=
  ("variable " +++ quoted "db_password" +++ " {") :: body ++ ["}"].

(** Length of the text up to and including the brace that closes [depth]
    open braces. *)
Fixpoint closing_length (depth : nat) (s : string) : option nat :=
  match s with
  | EmptyString => None
  | String c s' =>
      if Ascii.eqb c "{" then option_map S (closing_length (S depth) s')
      else if Ascii.eqb c "}" then
        match depth with
        | 0 => None
        | 1 => Some 1
        | S d => option_map S (closing_length d s')
        end
      else option_map S (closing_length depth s')
  end.

(** r'variable\s+\x22NAME\x22' *)
Definition header_regex (name : string) : regex :=
  Pat.seq [Lit "variable"; Pat.ws_plus; Pat.q; Lit name; Pat.q].

(** The declaration of [name]: from its header through the brace closing
    the one the header opens. *)
Definition declaration_of (name content : string) : option string :=
  match search no_flags (header_regex name) content with
  | None => None
  | Some m =>
      let from_header := Py.drop (m_start m) content in
      match Py.find "{" from_header with
      | None => None
      | Some i =>
          match closing_length 1 (Py.drop (S i) from_header) with
          | None => None
          | Some j => Some (Py.take (S i + j) from_header)
          end
      end
  end.

(** r'validation\s*{' *)
Definition validation_block_regex : regex :=
  Pat.seq [Lit "validation"; Pat.ws_star; Chr "{"].

Definition has_validation_block (decl : string) : bool :=
  found no_flags validation_block_regex decl.

(** C6 as the specification states it, on the declarations of a file. *)
Definition claimed_validation_rule (content : string)
    (out : list ValidationResult) : Prop :=
  forall name decl,
    In name (findall no_flags Pat.var_pattern content) ->
    declaration_of name content = Some decl ->
    (has_default decl = false -> has_validation_block decl = false ->
     In (validation_failure name) out)
    /\ (has_default decl = true -> ~ In (validation_failure name) out).

Definition tags_lines : list string :=
  ["variable " +++ quoted "tags" +++ " {";
   "  type    = object({ env = string })";
   "  default = { env = " +++ quoted "dev" +++ " }";
   "}"].

(** *** Sensitive variables *)

(** The Sensitive Variable result for a name, passing or failing. *)
Definition sensitive_verdict (var_name : string) (marked : bool)
    : ValidationResult :=
  result3 "Sensitive Variable" marked
    ("Variable " +++ quoted var_name +++ " "
       +++ (if marked then "is" else "NOT") +++ " marked sensitive").

(** What the sub-check looks for in the examined block. *)
Definition mentions_sensitive_true (blk : string) : bool :=
  Py.contains "sensitive" blk && Py.contains "true" blk.

Definition sensitive_results_of (content name : string)
    : list ValidationResult :=
  match examined_block name content with
  | Some blk => [sensitive_verdict name (mentions_sensitive_true blk)]
  | None => []
  end.

(** The names the sub-check looks at. *)
Definition sensitive_names (content : string) : list string :=
  findall Pat.dotall_ignorecase Pat.sensitive_vars content.

(** r'sensitive\s*=\s*true' *)
Definition marker_regex : regex :=
  Pat.seq [Lit "sensitive"; Pat.ws_star; Chr "="; Pat.ws_star; Lit "true"].

Definition has_true_marker (decl : string) : bool :=
  found no_flags marker_regex decl.

(** C1 as the specification states it: the result for a variable passes
    if and only if its declaration holds a true-valued marker. *)
Definition claimed_sensitive_rule (content : string)
    (out : list ValidationResult) : Prop :=
  forall name decl,
    In name (sensitive_names content) ->
    declaration_of name content = Some decl ->
    In (sensitive_verdict name (has_true_marker decl)) out
    /\ ~ In (sensitive_verdict name (negb (has_true_marker decl))) out.

Definition unmarked_password : list string :=
  password_block ["  type      = string";
                  "  sensitive = false";
                  "  nullable  = true"].

(** *** How the matcher runs on the sensitive-name pattern *)

(** [p] is a prefix of [s] up to case. *)
Fixpoint startswith_ci (p s : string) : bool :=
  match p, s with
  | EmptyString, _ => true
  | String a p', String b s' =>
      Ascii.eqb (Py.lower_char b) (Py.lower_char a) && startswith_ci p' s'
  | String _ _, EmptyString => false
  end.

(** One of the three words starts here, in any case. *)
Definition keyword_at (s : string) : bool :=
  startswith_ci "password" s || startswith_ci "secret" s
  || startswith_ci "key" s.

(** One of the three words starts somewhere in the run of non-quote
    characters that [s] begins with. *)
Fixpoint keyword_in_run (s : string) : bool :=
  match s with
  | String c s' =>
      if not_quote c then keyword_in_run s' || keyword_at s
      else keyword_at s
  | EmptyString => false
  end.

(** The cursor at the end of the run of non-quote characters. *)
Definition end_of_run (cur : cursor) : cursor :=
  forward (span not_quote (rest cur)) cur.

(** What follows the capturing group that started at offset [p0]: the
    closing quote, then [k]. *)
Definition after_group (fl : flags) (p0 : nat) (k : cursor -> option cursor)
    (fin : cursor) : option cursor :=
  exec fl (Chr Pat.quote) (set_grp (Some (p0, pos fin)) fin) k.

(** Offset and length of the captured name and length of the match of
    [Pat.sensitive_vars] at the start of a text. *)
Definition sensitive_parts (s : string) : option (nat * nat * nat) :=
  if startswith_ci "variable" s then
    let s1 := Py.drop 8 s in
    let w := span Py.isspace s1 in
    if 1 <=? w then
      let s2 := Py.drop w s1 in
      if Py.startswith dq s2 then
        let s3 := Py.drop 1 s2 in
        if keyword_in_run s3 then
          let n := span not_quote s3 in
          let s4 := Py.drop n s3 in
          if Py.startswith dq s4 then
            match Py.find "}" (Py.drop 1 s4) with
            | Some i => Some (8 + w + 1, n, 8 + w + 1 + n + 1 + S i)
            | None => None
            end
          else None
        else None
      else None
    else None
  else None.

(** *** A file declaring db_password alone *)

Definition password_header : string :=
  "variable " +++ quoted "db_password" +++ " {".

(** variables.tf holding one block, with [body] between the braces. *)
Definition single_password_file (body : string) : string :=
  password_header +++ body +++ "}" +++ nl.

Definition password_block_text (body : string) : string :=
  password_header +++ body +++ "}".

Definition marker_line : string := "  sensitive = true" +++ nl.

(** *** Results by check name *)

Definition is_sensitive_variable (r : ValidationResult) : bool :=
  String.eqb (check_name r) "Sensitive Variable".

Definition is_variable_validation (r : ValidationResult) : bool :=
  String.eqb (check_name r) "Variable Validation".

(** *** The verdict of a run *)

(** [stops_at_directory m]: [m] raises IsADirectoryError from every state,
    only appending. *)
Definition stops_at_directory (m : M unit) : Prop :=
  exists o, runs m o (Exc IsADirectoryError).

Definition completes_or_stops (m : M unit) : Prop :=
  completes m \/ stops_at_directory m.

(** The check names under which a passing result can be recorded. *)
Definition passing_names : list string :=
  file_structure_names
  ++ ["README: Prerequisites section";
      "README: Quick Start or Getting Started section";
      "README: Configuration section"; "Example Configuration";
      "Sensitive Variable"].

Definition fails_unless_named (ns : list string) (r : ValidationResult)
    : Prop :=
  passed r = true -> named ns r.

(** The files a root must hold by name for every file-structure and
    documentation result to pass. *)
Definition needed_files : list string :=
  ["README.md"; "variables.tf"; "outputs.tf"; ".gitignore";
   "locals_constants.tf"; "terraform.tfvars.example"].

(** A root with a directory whose name ends in .tf. *)
Definition module_dir_root : node :=
  Dir [("main.tf", File "port = 1");
       ("network.tf", Dir [("rules.txt", File "")])].

(** *** Rules that look at one line at a time *)

(** A result attributed to line [i] of the file shown as [f]. *)
Definition at_place (f : string) (i : nat) (r : ValidationResult) : bool :=
  String.eqb (file_path r) f && (line_number r =? i).

(** What a rule emits for a file and for a discovered entry, from what it
    emits for one numbered line of the file's text. *)
Definition file_results
    (per_line : tf_file -> string -> nat -> string -> list ValidationResult)
    (tf : tf_file) (text : string) : list ValidationResult :=
  flat_map (fun il => per_line tf text (fst il) (snd il))
           (Py.enumerate_from 1 (Py.split_lines text)).

Definition entry_results
    (per_line : tf_file -> string -> nat -> string -> list ValidationResult)
    (tf : tf_file) : list ValidationResult :=
  match target tf with
  | File text => file_results per_line tf text
  | Dir _ => []
  end.

Definition yes_no_result (tf : tf_file) (i : nat) : ValidationResult :=
  mkResult "String Boolean" false
    ("String boolean detected - Use type = bool instead of "
       +++ quoted "yes" +++ "/" +++ quoted "no")
    (FS.relative_to tf) i.

Definition true_false_result (tf : tf_file) (i : nat) : ValidationResult :=
  mkResult "String Boolean" false
    ("String boolean detected - Use type = bool instead of "
       +++ quoted "true" +++ "/" +++ quoted "false" +++ " strings")
    (FS.relative_to tf) i.

(** What check_string_booleans emits for one line. *)
Definition string_boolean_line_results (tf : tf_file) (text : string)
    (i : nat) (line : string) : list ValidationResult :=
  (if found no_flags Pat.yes_no line then [yes_no_result tf i] else [])
  ++ (if found no_flags Pat.true_false line then [true_false_result tf i]
      else []).

Definition string_boolean_lines : list string :=
  ["variable " +++ quoted "enabled" +++ " {";
   "  validation {";
   "    condition = contains([" +++ quoted "yes" +++ ", "
     +++ quoted "no" +++ "], var.enabled)";
   "  }";
   "}"].

Definition string_boolean_file : tf_file :=
  TfFile ["variables.tf"] (File (lines string_boolean_lines)).

Definition string_boolean_root : node :=
  Dir [("variables.tf", File (lines string_boolean_lines))].

Definition hardcoded_secret_result (tf : tf_file) (i : nat)
    : ValidationResult :=
  mkResult "Hardcoded Secret" false
    "Possible hardcoded secret detected - Use variables or Key Vault"
    (FS.relative_to tf) i.

(** What the loop of check_security_standards emits for one line of a file
    whose text is [content]. *)
Definition security_line_results (tf : tf_file) (content : string)
    (i : nat) (line : string) : list ValidationResult :=
  (if found Pat.ignorecase Pat.hardcoded_secret line
   then if negb (found no_flags Pat.var_or_data line)
        then [hardcoded_secret_result tf i] else []
   else [])
  ++ (if Py.contains "source_address_prefix" line
         && Py.contains (quoted "*") line
      then if Py.contains "allow" (Py.lower (lookback content line))
           then [permissive_rule (FS.relative_to tf) i] else []
      else []).

(** A Hardcoded Secret result attributed to line [i] of the file shown as
    [f]. *)
Definition hardcoded_secret_at (f : string) (i : nat)
    (r : ValidationResult) : bool :=
  String.eqb (check_name r) "Hardcoded Secret" && at_place f i r.

(** An Overly Permissive Security Rule result attributed to line [i] of
    the file shown as [f]. *)
Definition permissive_at (f : string) (i : nat) (r : ValidationResult)
    : bool :=
  String.eqb (check_name r) "Overly Permissive Security Rule"
  && at_place f i r.

Definition secrets_lines : list string :=
  ["  admin_password = " +++ quoted "hunter2";
   "  admin_password = var.admin_password # " +++ quoted "x"].

Definition secrets_file : tf_file :=
  TfFile ["main.tf"] (File (lines secrets_lines)).

Definition secrets_root : node :=
  Dir [("main.tf", File (lines secrets_lines))].

(** *** Where a pattern matches *)

Definition matches_at (fl : flags) (r : regex) (cur : cursor) : bool :=
  match match_at fl r cur with Some _ => true | None => false end.

(** Some cursor at or after [cur], whose remaining text is [s], passes
    [test]. *)
Fixpoint occurs_from (test : cursor -> bool) (s : string) (cur : cursor)
    : bool :=
  test cur
  || match s with
     | EmptyString => false
     | String c s' => occurs_from test s' (step c s' cur)
     end.

Fixpoint any_char (p : ascii -> bool) (s : string) : bool :=
  match s with
  | String c s' => p c || any_char p s'
  | EmptyString => false
  end.

(** *** Naming conventions *)

(** An ASCII capital letter occurs in the name. *)
Definition has_upper (name : string) : bool :=
  any_char Py.isupper_ascii name.

Definition not_snake_case (kind : string) (tf : tf_file) (name : string)
    : ValidationResult :=
  result4 (kind +++ " Naming") false
    (kind +++ " " +++ quoted name +++ " not in snake_case")
    (FS.relative_to tf).

Definition too_short (tf : tf_file) (var_name : string) : ValidationResult :=
  result4 "Variable Naming" false
    ("Variable " +++ quoted var_name +++ " too short (< 3 chars)")
    (FS.relative_to tf).

Definition variable_naming_results (tf : tf_file) (var_name : string)
    : list ValidationResult :=
  (if has_upper var_name then [not_snake_case "Variable" tf var_name] else [])
  ++ (if String.length var_name <? 3 then [too_short tf var_name] else []).

Definition resource_naming_results (tf : tf_file) (res_name : string)
    : list ValidationResult :=
  if has_upper res_name then [not_snake_case "Resource" tf res_name] else [].

(** The naming results of one discovered entry: variable names are looked
    at in files called variables.tf, resource names in every file. *)
Definition variable_naming_of (tf : tf_file) : list ValidationResult :=
  if String.eqb (FS.name tf) "variables.tf" then
    match target tf with
    | File content =>
        flat_map (variable_naming_results tf)
                 (findall no_flags Pat.var_pattern content)
    | Dir _ => []
    end
  else [].

Definition resource_naming_of (tf : tf_file) : list ValidationResult :=
  match target tf with
  | File content =>
      flat_map (resource_naming_results tf)
               (findall no_flags Pat.resource_pattern content)
  | Dir _ => []
  end.

(** Offset and length of the captured name and length of the match of
    [Pat.var_pattern] at the start of a text. *)
Definition var_pattern_parts (s : string) : option (nat * nat * nat) :=
  if Py.startswith "variable" s then
    let s1 := Py.drop 8 s in
    let w := span Py.isspace s1 in
    if 1 <=? w then
      let s2 := Py.drop w s1 in
      if Py.startswith dq s2 then
        let s3 := Py.drop 1 s2 in
        let n := span not_quote s3 in
        if 1 <=? n then
          let s4 := Py.drop n s3 in
          if Py.startswith dq s4 then Some (8 + w + 1, n, 8 + w + 1 + n + 1)
          else None
        else None
      else None
    else None
  else None.

Definition naming_lines : list string :=
  ["variable " +++ quoted "vmSize" +++ " {}";
   "variable " +++ quoted "az" +++ " {}";
   "variable " +++ quoted "vm_size" +++ " {}"].

Definition naming_root : node :=
  Dir [("variables.tf", File (lines naming_lines))].

(** *** The groups of the report *)

(** [s.split(sep)[0]]: the text before the first [sep], all of [s] when
    [sep] does not occur. *)
Fixpoint split_head (sep : ascii) (s : string) : string :=
  match s with
  | EmptyString => EmptyString
  | String c s' =>
      if Ascii.eqb c sep then EmptyString else String c (split_head sep s')
  end.

(** result.check_name.split(':')[0] *)
Definition check_type (r : ValidationResult) : string :=
  split_head ":" (check_name r).

(** A dict from check types to results, in insertion order.
    [group_append] is the body of the grouping loop: the list of a key seen
    for the first time starts empty, then the result is appended to the
    list of its key. *)
Fixpoint group_append (key : string) (r : ValidationResult)
    (d : list (string * list ValidationResult))
    : list (string * list ValidationResult) :=
  match d with
  | [] => [(key, [r])]
  | (k, rs) :: d' =>
      if String.eqb k key then (k, rs ++ [r]) :: d'
      else (k, rs) :: group_append key r d'
  end.

(** by_type after the loop over self.results. *)
Definition by_type (rs : list ValidationResult)
    : list (string * list ValidationResult) :=
  fold_left (fun d r => group_append (check_type r) r d) rs [].

(** sorted(by_type.items()).  The keys of a dict are distinct, so two items
    are always ordered by their keys, and str is ordered by code point;
    the ascending arrangement is built by insertion. *)
Fixpoint insert_item (e : string * list ValidationResult)
    (l : list (string * list ValidationResult))
    : list (string * list ValidationResult) :=
  match l with
  | [] => [e]
  | e' :: l' =>
      if String.leb (fst e) (fst e') then e :: l else e' :: insert_item e l'
  end.

Definition sorted_items (d : list (string * list ValidationResult))
    : list (string * list ValidationResult) :=
  fold_right insert_item [] d.

(** The sections of the report, in the order they are written: the part of
    generate_report that groups the results by check type. *)
Definition report_sections (self : IaCValidator)
    : list (string * list ValidationResult) :=
  sorted_items (by_type (results self)).

(** Each key is strictly below the next one. *)
Fixpoint ascending (keys : list string) : bool :=
  match keys with
  | a :: (b :: _) as t => String.ltb a b && ascending t
  | _ => true
  end.

(** How many results the sections list altogether. *)
Fixpoint entries (d : list (string * list ValidationResult)) : nat :=
  match d with
  | [] => 0
  | (_, rs) :: d' => List.length rs + entries d'
  end.

(** The list stored under a key; empty when the key is absent. *)
Fixpoint group_of (key : string) (d : list (string * list ValidationResult))
    : list ValidationResult :=
  match d with
  | [] => []
  | (k, rs) :: d' => if String.eqb k key then rs else group_of key d'
  end.

Definition of_type (key : string) (r : ValidationResult) : bool :=
  String.eqb (check_type r) key.

(** What the grouping loop maintains: distinct keys, no empty list, and
    under each key the results of that type seen so far, in order. *)
Definition grouped (d : list (string * list ValidationResult))
    (rs : list ValidationResult) : Prop :=
  NoDup (map fst d)
  /\ (forall k l, In (k, l) d -> l <> [])
  /\ (forall k, group_of k d = filter (of_type k) rs)
  /\ entries d = List.length rs.

(** *** Names the sensitive-variable pattern selects *)

(** One of the three words occurs in the name, in any letter case. *)
Definition has_keyword (name : string) : bool :=
  Py.contains "password" (Py.lower name)
  || Py.contains "secret" (Py.lower name)
  || Py.contains "key" (Py.lower name).

(** A result recorded for a name that the sensitive-name pattern finds
    in the variables.tf of the root [n]. *)
Definition recorded_for_found_name (n : node) (r : ValidationResult)
    : Prop :=
  exists content name marked,
    FS.child n "variables.tf" = Some (File content)
    /\ In name (findall Pat.dotall_ignorecase Pat.sensitive_vars content)
    /\ r = sensitive_verdict name marked.

Definition sensitive_only_for_found (n : node) (r : ValidationResult)
    : Prop :=
  check_name r = "Sensitive Variable" -> recorded_for_found_name n r.

(** *** What discovery reaches *)

(** [reaches n ps x]: following the names [ps] down from [n] leads to the
    entry [x]. *)
Inductive reaches : node -> list string -> node -> Prop :=
| reaches_here es name x :
    In (name, x) es -> reaches (Dir es) [name] x
| reaches_below es d sub ps x :
    In (d, sub) es -> reaches sub ps x -> reaches (Dir es) (d :: ps) x.

(** The entries of a directory's subdirectories, as [FS.glob] lists
    them. *)
Fixpoint glob_below (l : list (string * node)) : list tf_file :=
  match l with
  | [] => []
  | (d, sub) :: l' => map (FS.under d) (FS.glob sub) ++ glob_below l'
  end.

(** A root whose README.md is a directory. *)
Definition readme_dir_root : node :=
  Dir [("main.tf", File ""); ("README.md", Dir [])].

(** *** The wire-server address *)

Definition wire_server_result (tf : tf_file) (i : nat) : ValidationResult :=
  mkResult "Magic Number" false
    "Azure Wire Server IP hardcoded: 168.63.129.16 - Should be in locals_constants.tf"
    (FS.relative_to tf) i.

Definition wire_server_lines : list string :=
  ["resource " +++ quoted "azurerm_route" +++ " " +++ quoted "wire" +++ " {";
   "  address_prefix = " +++ quoted "168.63.129.16/32";
   "}"].

Definition wire_server_root : node :=
  Dir [("main.tf", File (lines wire_server_lines))].

(** *** Trees with distinct names *)

(** Every directory lists each name once, and no name holds a slash. *)
Inductive well_formed : node -> Prop :=
| wf_file text : well_formed (File text)
| wf_dir es :
    NoDup (map fst es) ->
    Forall (fun e => Py.contains "/" (fst e) = false /\ well_formed (snd e))
           es ->
    well_formed (Dir es).

Definition slash_free (ps : list string) : Prop :=
  Forall (fun p => Py.contains "/" p = false) ps.

(* ================================================================== *)
(** ** Reasoning about the monad *)
(* ================================================================== *)

Lemma runs_ret {A} (a : A) : runs (ret a) [] (Val a).
Proof. intros s. unfold ret. now rewrite app_nil_r. Qed.

Lemma runs_lift {A} (r : res A) : runs (lift r) [] r.
Proof. intros s. unfold lift. now rewrite app_nil_r. Qed.

Lemma runs_append (x : ValidationResult) : runs (append x) [x] (Val tt).
Proof. intros s. reflexivity. Qed.

Lemma runs_bind_val {A B} (m : M A) (k : A -> M B) o1 a o2 r :
  runs m o1 (Val a) -> runs (k a) o2 r -> runs (bind m k) (o1 ++ o2) r.
Proof.
  intros Hm Hk s. unfold bind. rewrite Hm, Hk. now rewrite app_assoc.
Qed.

Lemma runs_bind_stop {A B} (m : M A) (k : A -> M B) o1 r :
  runs m o1 r -> (forall a, r <> Val a) ->
  exists r', runs (bind m k) o1 r' /\ (forall b, r' <> Val b).
Proof.
  intros Hm Hr. destruct r as [a|e|].
  - now destruct (Hr a).
  - exists (Exc e). split; [|discriminate].
    intros s. unfold bind. now rewrite Hm.
  - exists Uncovered. split; [|discriminate].
    intros s. unfold bind. now rewrite Hm.
Qed.

Lemma runs_fun {A} (m : M A) o1 r1 o2 r2 :
  runs m o1 r1 -> runs m o2 r2 -> o1 = o2 /\ r1 = r2.
Proof.
  intros H1 H2. specialize (H1 []). specialize (H2 []).
  rewrite H1 in H2. simpl in H2. now inversion H2.
Qed.

Lemma adds_ret {A} Q (a : A) : adds Q (ret a).
Proof. exists [], (Val a). split; [apply runs_ret | constructor]. Qed.

Lemma adds_lift {A} Q (r : res A) : adds Q (lift r).
Proof. exists [], r. split; [apply runs_lift | constructor]. Qed.

Lemma adds_append (Q : ValidationResult -> Prop) x : Q x -> adds Q (append x).
Proof.
  intros H. exists [x], (Val tt). split; [apply runs_append | now repeat constructor].
Qed.

Lemma adds_bind {A B} Q (m : M A) (k : A -> M B) :
  adds Q m -> (forall a, adds Q (k a)) -> adds Q (bind m k).
Proof.
  intros (o1 & r & Hm & HQ1) Hk. destruct r as [a|e|].
  - destruct (Hk a) as (o2 & r2 & Hk2 & HQ2).
    exists (o1 ++ o2), r2. split.
    + eapply runs_bind_val; eauto.
    + apply Forall_app. now split.
  - exists o1, (Exc e). split; [|assumption].
    intros s. unfold bind. now rewrite Hm.
  - exists o1, Uncovered. split; [|assumption].
    intros s. unfold bind. now rewrite Hm.
Qed.

Lemma adds_when Q (b : bool) (m : M unit) : adds Q m -> adds Q (when b m).
Proof. intros H. destruct b; [exact H | apply adds_ret]. Qed.

Lemma adds_for_each {X} Q (xs : list X) (body : X -> M unit) :
  (forall x, In x xs -> adds Q (body x)) -> adds Q (for_each xs body).
Proof.
  induction xs as [|x xs IH]; intros H; simpl.
  - apply adds_ret.
  - apply adds_bind.
    + apply H. now left.
    + intros _. apply IH. intros y Hy. apply H. now right.
Qed.

Lemma adds_weaken {A} (Q Q' : ValidationResult -> Prop) (m : M A) :
  (forall x, Q x -> Q' x) -> adds Q m -> adds Q' m.
Proof.
  intros HQ (o & r & Hm & Ho). exists o, r. split; [assumption|].
  eapply Forall_impl; eauto.
Qed.

(** Loops whose bodies only emit: the results are those of the bodies in
    order. *)
Lemma runs_for_each {X} (xs : list X) (body : X -> M unit)
    (f : X -> list ValidationResult) :
  (forall x, In x xs -> runs (body x) (f x) (Val tt)) ->
  runs (for_each xs body) (flat_map f xs) (Val tt).
Proof.
  induction xs as [|x xs IH]; intros H; simpl.
  - apply runs_ret.
  - eapply runs_bind_val.
    + apply H. now left.
    + apply IH. intros y Hy. apply H. now right.
Qed.

Lemma runs_when (b : bool) (m : M unit) o :
  runs m o (Val tt) -> runs (when b m) (if b then o else []) (Val tt).
Proof. intros H. destruct b; [exact H | apply runs_ret]. Qed.

(* ================================================================== *)
(** ** Which rule emits which check names *)
(* ================================================================== *)

Ltac adds_step :=
  match goal with
  | |- adds _ (bind _ _) => apply adds_bind; [| intros ?]
  | |- adds _ (for_each _ _) => apply adds_for_each; intros ? ?
  | |- adds _ (when _ _) => apply adds_when
  | |- adds _ (append _) => apply adds_append; reflexivity
  | |- adds _ (ret _) => apply adds_ret
  | |- adds _ (lift _) => apply adds_lift
  | |- adds _ (if ?b then _ else _) => destruct b
  | |- adds _ (let (_, _) := ?x in _) => destruct x
  | |- adds _ (match ?x with _ => _ end) => destruct x
  end.

Ltac adds_auto := repeat adds_step.

Lemma check_file_structure_names self :
  adds (named file_structure_names) (check_file_structure self).
Proof.
  unfold check_file_structure, required_files. simpl for_each. adds_auto.
Qed.

Lemma check_magic_numbers_names self :
  adds (named ["Magic Number"]) (check_magic_numbers self).
Proof. unfold check_magic_numbers. adds_auto. Qed.

Lemma check_string_booleans_names self :
  adds (named ["String Boolean"]) (check_string_booleans self).
Proof. unfold check_string_booleans. adds_auto. Qed.

Lemma check_naming_conventions_names self :
  adds (named ["Variable Naming"; "Resource Naming"])
       (check_naming_conventions self).
Proof. unfold check_naming_conventions. adds_auto. Qed.

Lemma check_documentation_names self :
  adds (named documentation_names) (check_documentation self).
Proof.
  unfold check_documentation, required_sections. simpl for_each. adds_auto.
Qed.

Lemma check_sensitive_variables_names self :
  adds (named ["Sensitive Variable"]) (check_sensitive_variables self).
Proof. unfold check_sensitive_variables. adds_auto. Qed.

Lemma check_security_standards_names self :
  adds (named security_names) (check_security_standards self).
Proof.
  unfold check_security_standards. apply adds_bind.
  - adds_auto.
  - intros _. eapply adds_weaken; [|apply check_sensitive_variables_names].
    intros x. unfold named. simpl. intros H.
    rewrite orb_false_r in H. rewrite H. now rewrite !orb_true_r.
Qed.

Lemma check_variable_validation_names self :
  adds (named ["Variable Validation"]) (check_variable_validation self).
Proof. unfold check_variable_validation. adds_auto. Qed.

Lemma check_output_organization_names self :
  adds (named ["Output Organization"]) (check_output_organization self).
Proof. unfold check_output_organization. adds_auto. Qed.

(* ================================================================== *)
(** ** The sequence of checks *)
(* ================================================================== *)

Lemma adds_runs {A} Q (m : M A) :
  adds Q m -> runs m (log m) (outcome m) /\ Forall Q (log m).
Proof.
  intros (o & r & Hm & HQ). unfold log, outcome, eval.
  rewrite (Hm []). simpl. now split.
Qed.

Lemma eval_seq Q1 Q2 (m k : M unit) :
  adds Q1 m -> adds Q2 k ->
  eval (m ;; k) = seq_eval (eval m) (eval k).
Proof.
  intros Hm Hk.
  destruct (adds_runs Hm) as [Rm _]. destruct (adds_runs Hk) as [Rk _].
  unfold eval at 1. unfold bind. rewrite (Rm []). simpl.
  unfold seq_eval, log, outcome in *.
  destruct (snd (eval m)) as [[]|e|] eqn:E.
  - rewrite Rk. reflexivity.
  - unfold eval in *. destruct (m []) as [o r]. simpl in *. now subst.
  - unfold eval in *. destruct (m []) as [o r]. simpl in *. now subst.
Qed.

Lemma adds_any {A} Q (m : M A) : adds Q m -> adds any_result m.
Proof. apply adds_weaken. now intros. Qed.

Create HintDb checks.

#[local] Hint Resolve check_file_structure_names check_magic_numbers_names
  check_string_booleans_names check_naming_conventions_names
  check_documentation_names check_security_standards_names
  check_sensitive_variables_names check_variable_validation_names
  check_output_organization_names : checks.

Ltac any_check := eapply adds_any; eauto with checks.

Ltac any_chain :=
  repeat (apply adds_bind; [any_check | intros _]); any_check.

Lemma eval_all_checks self :
  eval (all_checks self) =
  seq_eval (eval (check_file_structure self))
  (seq_eval (eval (check_magic_numbers self))
  (seq_eval (eval (check_string_booleans self))
  (seq_eval (eval (check_naming_conventions self))
  (seq_eval (eval (check_documentation self))
  (seq_eval (eval (check_security_standards self))
  (seq_eval (eval (check_variable_validation self))
            (eval (check_output_organization self)))))))).
Proof.
  unfold all_checks.
  repeat (erewrite (@eval_seq any_result any_result);
          [f_equal | any_check | any_chain]).
Qed.

Lemma check_file_structure_runs self :
  runs (check_file_structure self) (file_structure_results self) (Val tt).
Proof. intros s. unfold check_file_structure, file_structure_results.
  unfold required_files. simpl. unfold bind, append. simpl.
  now rewrite <- !app_assoc.
Qed.

Lemma eval_check_file_structure self :
  eval (check_file_structure self) = (file_structure_results self, Val tt).
Proof. unfold eval. now rewrite check_file_structure_runs. Qed.

(** run_all_checks on a fresh validator, in terms of [eval]. *)
Lemma run_all_checks_new p n st :
  run_all_checks (new_validator p n st) =
  let self := mkValidator p n st [] (FS.glob n) in
  match FS.glob n with
  | [] => (set_results self [file_discovery_failure self], Val false)
  | _ :: _ =>
      let rs := log (all_checks self) in
      (set_results self rs,
       match outcome (all_checks self) with
       | Val _ => Val (List.length rs - count_passed rs =? 0)
       | Exc e => Exc e
       | Uncovered => Uncovered
       end)
  end.
Proof.
  unfold run_all_checks, new_validator, set_tf_files. simpl.
  destruct (FS.glob n) as [|f fs] eqn:G; simpl; [reflexivity|].
  unfold log, outcome, eval.
  destruct (all_checks _ []) as [rs [[]| |]]; reflexivity.
Qed.

Lemma seq_eval_Forall (Q : ValidationResult -> Prop) a b :
  Forall Q (fst a) -> Forall Q (fst b) -> Forall Q (fst (seq_eval a b)).
Proof.
  intros Ha Hb. unfold seq_eval. destruct (snd a); simpl; auto.
  apply Forall_app. now split.
Qed.

Lemma named_other ns r target :
  named ns r -> existsb (String.eqb target) ns = false ->
  check_name r <> target.
Proof.
  unfold named. intros H Hn E. subst target. congruence.
Qed.

Lemma adds_log {A} Q (m : M A) : adds Q m -> Forall Q (fst (eval m)).
Proof. intros H. now destruct (adds_runs H). Qed.

(* ================================================================== *)
(** ** Properties of the driver *)
(* ================================================================== *)

Lemma all_checks_strict p n st st' rs fs :
  all_checks (mkValidator p n st rs fs) =
  all_checks (mkValidator p n st' rs fs).
Proof. reflexivity. Qed.

Lemma run_all_checks_strict p n st st' :
  results (fst (run_all_checks (new_validator p n st))) =
  results (fst (run_all_checks (new_validator p n st')))
  /\ snd (run_all_checks (new_validator p n st)) =
     snd (run_all_checks (new_validator p n st')).
Proof.
  rewrite !run_all_checks_new. cbv zeta.
  destruct (FS.glob n) as [|f fs]; simpl; [now split|].
  rewrite (all_checks_strict p n st st' [] (f :: fs)). now split.
Qed.

(** C8. Running the validation with the strict-mode flag enabled gives the
    same ordered results, the same report summary, the same value of
    run_all_checks and the same exit code as running with it disabled. *)
Theorem strict_flag_changes_nothing (p : string) (rep : bool)
    (at_path : option node) :
  let on := main (mkArgs p true rep) at_path in
  let off := main (mkArgs p false rep) at_path in
  option_map results (validator on) = option_map results (validator off)
  /\ report on = report off
  /\ exit_code on = exit_code off
  /\ (forall n,
        snd (run_all_checks (new_validator p n true)) =
        snd (run_all_checks (new_validator p n false))).
Proof.
  cbv zeta.
  assert (H4 : forall n,
        snd (run_all_checks (new_validator p n true)) =
        snd (run_all_checks (new_validator p n false)))
    by (intros n; apply run_all_checks_strict).
  destruct at_path as [n|]; [|now repeat split].
  unfold main. simpl arg_path. simpl arg_strict. simpl arg_report.
  destruct (run_all_checks_strict p n true false) as [Hr Ho].
  destruct (run_all_checks (new_validator p n true)) as [v1 r1].
  destruct (run_all_checks (new_validator p n false)) as [v2 r2].
  simpl in Hr, Ho. subst r2. unfold generate_report. rewrite Hr.
  destruct r1 as [b|e|]; destruct rep;
    destruct (List.length (results v2)); simpl; rewrite ?Hr;
    repeat split; auto.
Qed.

(** C3. A root that exists but holds no file matching the suffix: the run
    leaves exactly one result, the failing File Discovery one,
    run_all_checks returns False and the process exits with code 1. *)
Theorem empty_discovery_single_failure (p : string) (st rep : bool)
    (n : node) :
  FS.glob n = [] ->
  let e := main (mkArgs p st rep) (Some n) in
  option_map results (validator e) =
    Some [result3 "File Discovery" false
            ("No Terraform files found in " +++ p)]
  /\ snd (run_all_checks (new_validator p n st)) = Val false
  /\ exit_code e = Some 1.
Proof.
  intros G. cbv zeta. unfold main. simpl arg_path. simpl arg_strict.
  simpl arg_report. rewrite run_all_checks_new. cbv zeta. rewrite G.
  destruct rep; simpl; auto.
Qed.

Lemma empty_discovery_single_failure_witness :
  let n := Dir [("README.md", File "notes"); ("docs", Dir [])] in
  FS.glob n = [] /\
  exit_code (main (mkArgs "infra" false true) (Some n)) = Some 1.
Proof.
  cbv zeta. split; [reflexivity|].
  apply (@empty_discovery_single_failure "infra" false true
           (Dir [("README.md", File "notes"); ("docs", Dir [])])).
  reflexivity.
Defined.

Lemma log_all_checks_head self :
  exists more, log (all_checks self) = file_structure_results self ++ more.
Proof.
  unfold log. rewrite eval_all_checks, eval_check_file_structure.
  unfold seq_eval at 1. simpl. eauto.
Qed.

(** C10. After run_all_checks on a fresh validator the result list is
    either the single File Discovery failure or starts with the six
    file-structure results; it is never empty, and the pass rate of
    generate_report is computed without a division by zero. *)
Theorem results_never_empty (p : string) (n : node) (st : bool) :
  let v := fst (run_all_checks (new_validator p n st)) in
  (results v = [result3 "File Discovery" false
                  ("No Terraform files found in " +++ p)]
   \/ exists more, results v = file_structure_results v ++ more)
  /\ results v <> []
  /\ 1 <= List.length (results v)
  /\ exists s, generate_report v = Val s
               /\ snd (pass_rate s) = List.length (results v)
               /\ snd (pass_rate s) <> 0.
Proof.
  cbv zeta. rewrite run_all_checks_new. cbv zeta.
  assert (G : forall v : IaCValidator, results v <> [] ->
            results v <> [] /\ 1 <= List.length (results v) /\
            exists s, generate_report v = Val s
               /\ snd (pass_rate s) = List.length (results v)
               /\ snd (pass_rate s) <> 0).
  { intros v Hv. split; [assumption|]. unfold generate_report.
    destruct (results v) as [|r rs] eqn:E; [congruence|]. simpl.
    split; [lia|]. eexists. split; [reflexivity|]. simpl. split; [reflexivity|lia]. }
  destruct (FS.glob n) as [|f fs]; simpl fst.
  - split; [now left|]. apply G. discriminate.
  - destruct (log_all_checks_head (mkValidator p n st [] (f :: fs)))
      as [more Hm].
    split.
    + right. exists more. simpl results. rewrite Hm. reflexivity.
    + apply G. simpl results. rewrite Hm. discriminate.
Qed.

Lemma all_checks_Forall (Q : ValidationResult -> Prop) self :
  Forall Q (fst (eval (check_file_structure self))) ->
  Forall Q (fst (eval (check_magic_numbers self))) ->
  Forall Q (fst (eval (check_string_booleans self))) ->
  Forall Q (fst (eval (check_naming_conventions self))) ->
  Forall Q (fst (eval (check_documentation self))) ->
  Forall Q (fst (eval (check_security_standards self))) ->
  Forall Q (fst (eval (check_variable_validation self))) ->
  Forall Q (fst (eval (check_output_organization self))) ->
  Forall Q (log (all_checks self)).
Proof.
  intros H1 H2 H3 H4 H5 H6 H7 H8. unfold log. rewrite eval_all_checks.
  apply seq_eval_Forall; [exact H1|].
  apply seq_eval_Forall; [exact H2|].
  apply seq_eval_Forall; [exact H3|].
  apply seq_eval_Forall; [exact H4|].
  apply seq_eval_Forall; [exact H5|].
  apply seq_eval_Forall; [exact H6|].
  apply seq_eval_Forall; [exact H7|exact H8].
Qed.

(* ================================================================== *)
(** ** A root without variables.tf *)
(* ================================================================== *)

Lemma named_not_about_variables ns r :
  existsb (String.eqb "Variable Validation") ns = false ->
  existsb (String.eqb "Sensitive Variable") ns = false ->
  named ns r -> not_about_variables r.
Proof.
  intros H1 H2 H. split.
  - exact (@named_other ns r _ H H1).
  - exact (@named_other ns r _ H H2).
Qed.

Lemma check_variable_validation_skips self :
  FS.child (root self) "variables.tf" = None ->
  runs (check_variable_validation self) [] (Val tt).
Proof.
  intros H. unfold check_variable_validation. rewrite H. apply runs_ret.
Qed.

Lemma check_sensitive_variables_skips self :
  FS.child (root self) "variables.tf" = None ->
  runs (check_sensitive_variables self) [] (Val tt).
Proof.
  intros H. unfold check_sensitive_variables. rewrite H. apply runs_ret.
Qed.

Lemma adds_of_runs {A} (Q : ValidationResult -> Prop) (m : M A) o r :
  runs m o r -> Forall Q o -> adds Q m.
Proof. intros H HQ. now exists o, r. Qed.

Lemma check_security_standards_without_variables self :
  FS.child (root self) "variables.tf" = None ->
  adds (named ["Hardcoded Secret"; "Overly Permissive Security Rule"])
       (check_security_standards self).
Proof.
  intros H. unfold check_security_standards. apply adds_bind.
  - adds_auto.
  - intros _. eapply adds_of_runs.
    + now apply check_sensitive_variables_skips.
    + constructor.
Qed.

Lemma not_about_variables_log ns {A} (m : M A) :
  existsb (String.eqb "Variable Validation") ns = false ->
  existsb (String.eqb "Sensitive Variable") ns = false ->
  adds (named ns) m -> Forall not_about_variables (fst (eval m)).
Proof.
  intros H1 H2 H. apply adds_log. eapply adds_weaken; [|exact H].
  intros x. now apply named_not_about_variables.
Qed.

(** C9. When the root has no variables.tf, the Variable Validation rule and
    the Sensitive Variable sub-check emit nothing and raise nothing, no
    result of the run carries either check name, and (when some
    configuration file was discovered) the missing file is reported by the
    failing required-file result. *)
Theorem missing_variables_file_is_skipped (p : string) (n : node)
    (st : bool) :
  FS.child n "variables.tf" = None ->
  FS.glob n <> [] ->
  let self := mkValidator p n st [] (FS.glob n) in
  let v := fst (run_all_checks (new_validator p n st)) in
  runs (check_variable_validation self) [] (Val tt)
  /\ runs (check_sensitive_variables self) [] (Val tt)
  /\ Forall not_about_variables (results v)
  /\ In (result3 "Required File: variables.tf" false
           "Variable declarations MISSING") (results v).
Proof.
  intros H G. cbv zeta. rewrite run_all_checks_new. cbv zeta.
  destruct (FS.glob n) as [|f fs] eqn:E; [congruence|]. simpl fst.
  simpl results. set (self := mkValidator p n st [] (f :: fs)).
  split; [now apply check_variable_validation_skips|].
  split; [now apply check_sensitive_variables_skips|].
  split.
  - apply all_checks_Forall.
    + eapply not_about_variables_log;
        [| |apply check_file_structure_names]; reflexivity.
    + eapply not_about_variables_log;
        [| |apply check_magic_numbers_names]; reflexivity.
    + eapply not_about_variables_log;
        [| |apply check_string_booleans_names]; reflexivity.
    + eapply not_about_variables_log;
        [| |apply check_naming_conventions_names]; reflexivity.
    + eapply not_about_variables_log;
        [| |apply check_documentation_names]; reflexivity.
    + eapply not_about_variables_log;
        [| |apply check_security_standards_without_variables];
        [reflexivity|reflexivity|exact H].
    + unfold eval.
      rewrite (check_variable_validation_skips self H). constructor.
    + eapply not_about_variables_log;
        [| |apply check_output_organization_names]; reflexivity.
  - destruct (log_all_checks_head self) as [more Hm]. rewrite Hm.
    apply in_or_app. left. unfold file_structure_results, required_files.
    simpl. right. left. unfold required_file_result. simpl.
    replace (FS.child n "variables.tf") with (@None node). reflexivity.
Qed.

Lemma missing_variables_file_is_skipped_witness :
  Forall not_about_variables
    (results (fst (run_all_checks (new_validator "." two_file_root false)))).
Proof.
  assert (H1 : FS.child two_file_root "variables.tf" = None) by reflexivity.
  assert (H2 : FS.glob two_file_root <> []) by discriminate.
  pose proof (@missing_variables_file_is_skipped "." two_file_root false
                H1 H2) as H.
  cbv zeta in H. exact (proj1 (proj2 (proj2 H))).
Defined.

(* ================================================================== *)
(** ** Removing the documentation file *)
(* ================================================================== *)

Lemma assoc_remove_other name other es :
  other <> name ->
  FS.assoc other (remove_entry name es) = FS.assoc other es.
Proof.
  intros Hne. induction es as [|[n x] es IH]; simpl; [reflexivity|].
  destruct (String.eqb_spec n name) as [->|Hn]; simpl.
  - destruct (String.eqb_spec name other) as [E|_]; [congruence|exact IH].
  - now rewrite IH.
Qed.

Lemma assoc_remove_same name es :
  FS.assoc name (remove_entry name es) = None.
Proof.
  induction es as [|[n x] es IH]; simpl; [reflexivity|].
  destruct (String.eqb_spec n name) as [->|Hn]; simpl; [exact IH|].
  destruct (String.eqb_spec n name); [contradiction|exact IH].
Qed.

Lemma assoc_In name es x :
  FS.assoc name es = Some x -> In (name, x) es.
Proof.
  induction es as [|[n y] es IH]; simpl; [discriminate|].
  destruct (String.eqb_spec n name) as [->|Hn].
  - intros [= ->]. now left.
  - intros H. right. now apply IH.
Qed.

Lemma NoDup_assoc_unique name es x y :
  NoDup (map fst es) -> FS.assoc name es = Some x -> In (name, y) es ->
  y = x.
Proof.
  induction es as [|[n z] es IH]; simpl; [contradiction|].
  intros Hnd Ha Hin. inversion Hnd as [|? ? Hnot Hnd']; subst.
  destruct (String.eqb_spec n name) as [->|Hn].
  - injection Ha as ->. destruct Hin as [[= ->]|Hin]; [reflexivity|].
    exfalso. apply Hnot. change name with (fst (name, y)).
    now apply in_map.
  - destruct Hin as [[= -> ->]|Hin]; [contradiction|]. now apply IH.
Qed.

(** Deleting a regular file whose name does not end in .tf leaves the
    discovered files as they were. *)
Lemma glob_remove_file name es text :
  FS.is_tf name = false ->
  NoDup (map fst es) ->
  FS.assoc name es = Some (File text) ->
  FS.glob (Dir (remove_entry name es)) = FS.glob (Dir es).
Proof.
  intros Htf Hnd Ha.
  assert (Hfile : forall y, In (name, y) es -> y = File text)
    by (intros y Hy; eapply NoDup_assoc_unique; eauto).
  clear Hnd Ha. simpl. f_equal.
  - f_equal. induction es as [|[n x] es IH]; simpl; [reflexivity|].
    destruct (String.eqb_spec n name) as [->|Hn]; simpl.
    + rewrite Htf. apply IH. intros y Hy. apply Hfile. now right.
    + destruct (FS.is_tf n); simpl; rewrite IH; auto;
        intros y Hy; apply Hfile; now right.
  - induction es as [|[n x] es IH]; simpl; [reflexivity|].
    destruct (String.eqb_spec n name) as [->|Hn]; simpl.
    + rewrite (Hfile x) by now left. simpl.
      apply IH. intros y Hy. apply Hfile. now right.
    + f_equal. apply IH. intros y Hy. apply Hfile. now right.
Qed.

Lemma completes_ret : completes (ret tt).
Proof. exists []. apply runs_ret. Qed.

Lemma completes_append x : completes (append x).
Proof. exists [x]. apply runs_append. Qed.

Lemma completes_bind (m k : M unit) :
  completes m -> completes k -> completes (m ;; k).
Proof.
  intros [o1 H1] [o2 H2]. exists (o1 ++ o2). eapply runs_bind_val; eauto.
Qed.

Lemma completes_read {A} (a : A) (k : A -> M unit) :
  completes (k a) -> completes (bind (lift (Val a)) k).
Proof.
  intros [o H]. exists o. change o with ([] ++ o).
  eapply runs_bind_val; [apply runs_lift|exact H].
Qed.

Lemma completes_when b m : completes m -> completes (when b m).
Proof. intros H. destruct b; [exact H|apply completes_ret]. Qed.

Lemma completes_for_each {X} (xs : list X) (body : X -> M unit) :
  (forall x, In x xs -> completes (body x)) -> completes (for_each xs body).
Proof.
  induction xs as [|x xs IH]; intros H; simpl.
  - apply completes_ret.
  - apply completes_bind; [apply H; now left|].
    apply IH. intros y Hy. apply H. now right.
Qed.

Ltac completes_step :=
  match goal with
  | |- completes (bind (lift (Val _)) _) => apply completes_read
  | |- completes (bind _ _) => apply completes_bind
  | |- completes (for_each _ _) => apply completes_for_each; intros ? ?
  | |- completes (when _ _) => apply completes_when
  | |- completes (append _) => apply completes_append
  | |- completes (ret _) => apply completes_ret
  | |- completes (if ?b then _ else _) => destruct b
  | |- completes (let (_, _) := ?x in _) => destruct x
  end.

Ltac read_regular H :=
  match goal with
  | Hin : In ?f _ |- context [FS.read_text (target ?f)] =>
      let t := fresh "text" in
      let E := fresh "E" in
      destruct (H f Hin) as [t E]; rewrite E; simpl FS.read_text
  end.

Ltac completes_auto H := repeat (completes_step || read_regular H).

Lemma check_magic_numbers_completes self :
  all_regular (tf_files self) -> completes (check_magic_numbers self).
Proof. intros H. unfold check_magic_numbers. completes_auto H. Qed.

Lemma check_string_booleans_completes self :
  all_regular (tf_files self) -> completes (check_string_booleans self).
Proof. intros H. unfold check_string_booleans. completes_auto H. Qed.

Lemma check_naming_conventions_completes self :
  all_regular (tf_files self) -> completes (check_naming_conventions self).
Proof. intros H. unfold check_naming_conventions. completes_auto H. Qed.

Lemma completes_eval m : completes m -> eval m = (log m, Val tt).
Proof.
  intros [o H]. unfold log, eval. rewrite (H []). reflexivity.
Qed.

Lemma seq_eval_val l b : seq_eval (l, Val tt) b = (l ++ fst b, snd b).
Proof. reflexivity. Qed.

Section RemoveReadme.

Variables (p : string) (st : bool) (es : list (string * node)).
Variable fs : list tf_file.

Let before : IaCValidator := mkValidator p (Dir es) st [] fs.
Let after : IaCValidator :=
  mkValidator p (Dir (remove_entry "README.md" es)) st [] fs.

Ltac same_lookup :=
  unfold before, after; simpl root; unfold FS.child;
  rewrite ?assoc_remove_other by discriminate.

Lemma magic_numbers_same :
  check_magic_numbers after = check_magic_numbers before.
Proof. reflexivity. Qed.

Lemma string_booleans_same :
  check_string_booleans after = check_string_booleans before.
Proof. reflexivity. Qed.

Lemma naming_conventions_same :
  check_naming_conventions after = check_naming_conventions before.
Proof. reflexivity. Qed.

Lemma security_standards_same :
  check_security_standards after = check_security_standards before.
Proof.
  unfold check_security_standards, check_sensitive_variables.
  same_lookup. reflexivity.
Qed.

Lemma variable_validation_same :
  check_variable_validation after = check_variable_validation before.
Proof. unfold check_variable_validation. same_lookup. reflexivity. Qed.

Lemma output_organization_same :
  check_output_organization after = check_output_organization before.
Proof. unfold check_output_organization. same_lookup. reflexivity. Qed.

Lemma example_result_same : example_result after = example_result before.
Proof. unfold example_result. same_lookup. reflexivity. Qed.

Lemma other_structure_results_same :
  other_structure_results after = other_structure_results before.
Proof.
  unfold other_structure_results, file_structure_results, required_files,
    required_file_result.
  simpl map. simpl tl. same_lookup. reflexivity.
Qed.

Lemma file_structure_results_before text :
  FS.assoc "README.md" es = Some (File text) ->
  file_structure_results before =
  result3 "Required File: README.md" true "Project documentation found"
    :: other_structure_results before.
Proof.
  intros H. unfold other_structure_results, file_structure_results,
    required_files. simpl map. simpl tl. simpl app. f_equal.
  unfold required_file_result, before. simpl root. unfold FS.child.
  rewrite H. reflexivity.
Qed.

Lemma file_structure_results_after :
  file_structure_results after =
  result3 "Required File: README.md" false "Project documentation MISSING"
    :: other_structure_results after.
Proof.
  unfold other_structure_results, file_structure_results,
    required_files. simpl map. simpl tl. simpl app. f_equal.
  unfold required_file_result, after. simpl root. unfold FS.child.
  rewrite assoc_remove_same. reflexivity.
Qed.

Lemma check_documentation_before text :
  FS.assoc "README.md" es = Some (File text) ->
  eval (check_documentation before) =
  (map (section_result (Py.lower text)) required_sections
     ++ [example_result before], Val tt).
Proof.
  intros H. unfold check_documentation, before. simpl root.
  unfold FS.child. rewrite H. reflexivity.
Qed.

Lemma check_documentation_after :
  eval (check_documentation after) = ([readme_missing], Val tt).
Proof.
  unfold check_documentation, after. simpl root. unfold FS.child.
  rewrite assoc_remove_same. reflexivity.
Qed.

Lemma log_all_checks_regular self docs :
  all_regular (tf_files self) ->
  eval (check_documentation self) = (docs, Val tt) ->
  log (all_checks self) =
  file_structure_results self ++ earlier_rules self ++ docs
    ++ fst (later_rules self).
Proof.
  intros Hreg Hdocs. unfold log at 1. rewrite eval_all_checks.
  rewrite eval_check_file_structure.
  rewrite (completes_eval (check_magic_numbers_completes _ Hreg)).
  rewrite (completes_eval (check_string_booleans_completes _ Hreg)).
  rewrite (completes_eval (check_naming_conventions_completes _ Hreg)).
  rewrite Hdocs. fold (later_rules self).
  rewrite !seq_eval_val. simpl fst. unfold earlier_rules.
  now rewrite <- !app_assoc.
Qed.

Lemma removing_readme_logs text :
  all_regular fs ->
  FS.assoc "README.md" es = Some (File text) ->
  exists A B,
    log (all_checks before) =
      result3 "Required File: README.md" true
        "Project documentation found"
      :: A ++ (map (section_result (Py.lower text)) required_sections
               ++ [example_result before]) ++ B
    /\ log (all_checks after) =
      result3 "Required File: README.md" false
        "Project documentation MISSING"
      :: A ++ [readme_missing] ++ B.
Proof.
  intros Hreg Hr.
  exists (other_structure_results before ++ earlier_rules before),
         (fst (later_rules before)).
  split.
  - rewrite (@log_all_checks_regular before _ Hreg
               (check_documentation_before Hr)).
    rewrite (file_structure_results_before Hr).
    rewrite <- app_comm_cons. now rewrite <- !app_assoc.
  - rewrite (@log_all_checks_regular after _ Hreg
               check_documentation_after).
    rewrite file_structure_results_after, other_structure_results_same.
    unfold later_rules, earlier_rules.
    rewrite magic_numbers_same, string_booleans_same,
      naming_conventions_same, security_standards_same,
      variable_validation_same, output_organization_same.
    rewrite <- app_comm_cons. now rewrite <- !app_assoc.
Qed.

End RemoveReadme.

Lemma run_results_log p n st :
  FS.glob n <> [] ->
  run_results p n st = log (all_checks (mkValidator p n st [] (FS.glob n))).
Proof.
  intros G. unfold run_results. rewrite run_all_checks_new. cbv zeta.
  destruct (FS.glob n); [congruence|reflexivity].
Qed.

(** C4 (amended). Removing a regular README.md from a root whose discovered
    entries are all regular files turns the passing required-file result
    for README.md into a failing one and replaces the documentation rule's
    four results (three sections and the example configuration) by the
    single failing README.md result; every other result of the run stays
    as it was, in the same order. *)
Theorem removing_readme_changes (p : string) (st : bool)
    (es : list (string * node)) (text : string) :
  NoDup (map fst es) ->
  FS.assoc "README.md" es = Some (File text) ->
  all_regular (FS.glob (Dir es)) ->
  FS.glob (Dir es) <> [] ->
  exists A B,
    run_results p (Dir es) st =
      readme_present
      :: A ++ (map (section_result (Py.lower text)) required_sections
               ++ [example_result (new_validator p (Dir es) st)]) ++ B
    /\ run_results p (Dir (remove_entry "README.md" es)) st =
      readme_absent :: A ++ [readme_missing] ++ B.
Proof.
  intros Hnd Hr Hreg G.
  assert (Hg : FS.glob (Dir (remove_entry "README.md" es)) = FS.glob (Dir es))
    by (eapply glob_remove_file; eauto).
  rewrite !run_results_log by (rewrite ?Hg; exact G). rewrite Hg.
  destruct (@removing_readme_logs p st es (FS.glob (Dir es)) text Hreg Hr)
    as (A & B & H1 & H2).
  exists A, B. split; [exact H1|exact H2].
Qed.

Lemma compliant_root_passes :
  exit_code (main (mkArgs "." false true) (Some compliant_root)) = Some 0.
Proof. vm_compute. reflexivity. Qed.

Lemma all_regular_check (fs : list tf_file) :
  forallb (fun f => match target f with File _ => true | Dir _ => false end)
          fs = true ->
  all_regular fs.
Proof.
  intros H f Hin. rewrite forallb_forall in H. specialize (H f Hin).
  destruct (target f) as [t|]; [now exists t|discriminate].
Qed.

Lemma NoDup_check (l : list string) :
  (fix distinct (l : list string) : bool :=
     match l with
     | [] => true
     | x :: l' => negb (existsb (String.eqb x) l') && distinct l'
     end) l = true ->
  NoDup l.
Proof.
  induction l as [|x l IH]; intros H; [constructor|].
  apply andb_prop in H. destruct H as [H1 H2]. constructor.
  - intros Hin. apply negb_true_iff in H1.
    assert (existsb (String.eqb x) l = true).
    { apply existsb_exists. exists x. split; [assumption|apply String.eqb_refl]. }
    congruence.
  - now apply IH.
Qed.

Lemma removing_readme_changes_witness :
  exists A B,
    run_results "." compliant_root false =
      readme_present
      :: A ++ (map (section_result
                      (Py.lower (lines ["# Platform"; "## Prerequisites";
                                        "## Quick Start";
                                        "## Configuration"])))
                   required_sections
               ++ [example_result (new_validator "." compliant_root false)])
         ++ B
    /\ run_results "." (Dir (remove_entry "README.md" compliant_entries))
         false =
      readme_absent :: A ++ [readme_missing] ++ B.
Proof.
  apply (@removing_readme_changes "." false compliant_entries).
  - apply NoDup_check. vm_compute. reflexivity.
  - reflexivity.
  - apply all_regular_check. vm_compute. reflexivity.
  - vm_compute. discriminate.
Defined.

(** The claim fails on the compliant root: the run without README.md holds
    a result named README.md that the run with it does not hold. *)
Lemma removing_readme_counterexample :
  run_outcome "." compliant_root false = Val true
  /\ ~ claimed_readme_change
         (run_results "." compliant_root false)
         (run_results "." (Dir (remove_entry "README.md" compliant_entries))
            false).
Proof.
  split; [vm_compute; reflexivity|].
  intros (A & B & s1 & s2 & s3 & H1 & H2).
  assert (F1 : existsb is_readme_missing
                 (run_results "." compliant_root false) = false)
    by (vm_compute; reflexivity).
  assert (F2 : existsb is_readme_missing
                 (run_results "."
                    (Dir (remove_entry "README.md" compliant_entries)) false)
               = true)
    by (vm_compute; reflexivity).
  rewrite H1 in F1. rewrite H2 in F2.
  simpl existsb in F1, F2. rewrite !existsb_app in F1, F2.
  change (is_readme_missing readme_present) with false in F1.
  change (is_readme_missing readme_absent) with false in F2.
  simpl orb in F1, F2.
  apply orb_false_elim in F1. destruct F1 as [FA F1].
  do 3 (apply orb_false_elim in F1; destruct F1 as [_ F1]).
  rewrite FA, F1 in F2. discriminate.
Qed.

(* ================================================================== *)
(** ** Magic numbers, line by line *)
(* ================================================================== *)

Lemma runs_read {A B} (a : A) (k : A -> M B) o r :
  runs (k a) o r -> runs (bind (lift (Val a)) k) o r.
Proof.
  intros H. change o with ([] ++ o).
  eapply runs_bind_val; [apply runs_lift|exact H].
Qed.

Lemma check_magic_numbers_runs self :
  all_regular (tf_files self) ->
  runs (check_magic_numbers self)
       (flat_map magic_results_of (tf_files self)) (Val tt).
Proof.
  intros Hreg. unfold check_magic_numbers.
  apply runs_for_each. intros tf Hin. unfold magic_results_of.
  destruct (String.eqb (FS.name tf) "locals_constants.tf");
    [apply runs_ret|].
  destruct (Hreg tf Hin) as [text E]. rewrite E. simpl FS.read_text.
  apply runs_read. unfold magic_file_results.
  apply runs_for_each. intros [i line] _. simpl fst. simpl snd.
  unfold magic_line_results.
  destruct (is_comment line); [apply runs_ret|].
  apply runs_for_each. intros [pattern description] _. simpl fst. simpl snd.
  apply runs_for_each. intros m _.
  destruct (Py.contains "local." line); [apply runs_ret|apply runs_append].
Qed.

(** Filtering a concatenation of blocks whose keys are distinct. *)
Lemma filter_flat_map_unique {X K} (key : X -> K)
    (g : X -> list ValidationResult) (P : ValidationResult -> bool)
    (x : X) (xs : list X) :
  NoDup (map key xs) -> In x xs ->
  (forall y, In y xs -> key y <> key x -> filter P (g y) = []) ->
  filter P (flat_map g xs) = filter P (g x).
Proof.
  induction xs as [|y ys IH]; simpl; [contradiction|].
  intros Hnd Hin Hother. inversion Hnd as [|? ? Hnot Hnd']; subst.
  rewrite filter_app.
  destruct Hin as [->|Hin].
  - assert (Hnil : filter P (flat_map g ys) = []).
    { clear IH Hnd'.
      assert (Hys : forall z, In z ys -> filter P (g z) = []).
      { intros z Hz. apply Hother; [now right|].
        intros E. apply Hnot. rewrite <- E. now apply in_map. }
      clear Hother Hnot Hnd.
      induction ys as [|z zs IHz]; simpl; [reflexivity|].
      rewrite filter_app, Hys by now left.
      apply IHz. intros w Hw. apply Hys. now right. }
    rewrite Hnil. apply app_nil_r.
  - assert (Hy : filter P (g y) = []).
    { apply Hother; [now left|].
      intros E. apply Hnot. rewrite E. now apply in_map. }
    rewrite Hy. simpl. apply IH; auto.
Qed.

Lemma enumerate_from_keys {A} (xs : list A) i :
  map fst (Py.enumerate_from i xs) = seq i (List.length xs).
Proof.
  revert i. induction xs as [|x xs IH]; intros i; simpl; [reflexivity|].
  now rewrite IH.
Qed.

Lemma enumerate_from_nth {A} (xs : list A) i k x :
  nth_error xs k = Some x -> In (i + k, x) (Py.enumerate_from i xs).
Proof.
  revert i k. induction xs as [|y ys IH]; intros i k H.
  - now destruct k.
  - destruct k as [|k]; simpl in *.
    + injection H as ->. left. f_equal. lia.
    + right. replace (i + S k) with (S i + k) by lia. now apply IH.
Qed.

Lemma magic_result_at tf i d m :
  magic_at (FS.relative_to tf) i (magic_result tf i d m) = true.
Proof.
  unfold magic_at, magic_result. simpl.
  now rewrite String.eqb_refl, Nat.eqb_refl.
Qed.

Lemma magic_line_results_at tf i line :
  Forall (fun r => magic_at (FS.relative_to tf) i r = true
                   /\ passed r = false)
         (magic_line_results tf i line).
Proof.
  unfold magic_line_results. destruct (is_comment line); [constructor|].
  apply Forall_flat_map. apply Forall_forall. intros pd _.
  apply Forall_flat_map. apply Forall_forall. intros m _.
  destruct (Py.contains "local." line); [constructor|].
  constructor; [|constructor]. split; [apply magic_result_at|reflexivity].
Qed.

Lemma filter_all (P : ValidationResult -> bool) l :
  Forall (fun r => P r = true) l -> filter P l = l.
Proof.
  induction 1 as [|x l Hx _ IH]; simpl; [reflexivity|].
  now rewrite Hx, IH.
Qed.

Lemma filter_none (P : ValidationResult -> bool) l :
  Forall (fun r => P r = false) l -> filter P l = [].
Proof.
  induction 1 as [|x l Hx _ IH]; simpl; [reflexivity|].
  now rewrite Hx, IH.
Qed.

Lemma magic_line_results_other tf tf' i j line :
  FS.relative_to tf' <> FS.relative_to tf \/ j <> i ->
  filter (magic_at (FS.relative_to tf) i) (magic_line_results tf' j line)
  = [].
Proof.
  intros Hne. apply filter_none.
  eapply Forall_impl; [|apply magic_line_results_at].
  intros r [Hr _]. unfold magic_at in *.
  apply andb_prop in Hr. destruct Hr as [Hr Hl].
  apply andb_prop in Hr. destruct Hr as [Hn Hf].
  rewrite Hn. simpl.
  apply String.eqb_eq in Hf. apply Nat.eqb_eq in Hl.
  destruct Hne as [Hne|Hne].
  - destruct (String.eqb_spec (file_path r) (FS.relative_to tf));
      [congruence|reflexivity].
  - destruct (Nat.eqb_spec (line_number r) i); [congruence|].
    apply andb_false_r.
Qed.

(** The Magic Number results of one file at one line are those of that
    line. *)
Lemma magic_file_results_at tf text k line :
  nth_error (Py.split_lines text) k = Some line ->
  filter (magic_at (FS.relative_to tf) (S k)) (magic_file_results tf text)
  = magic_line_results tf (S k) line.
Proof.
  intros Hk. unfold magic_file_results.
  rewrite (@filter_flat_map_unique _ _ fst _ _ (S k, line)).
  - simpl. apply filter_all.
    eapply Forall_impl; [|apply magic_line_results_at]. now intros r [H _].
  - rewrite enumerate_from_keys. apply seq_NoDup.
  - apply (@enumerate_from_nth _ _ 1 k line Hk).
  - intros [j l] _ Hj. simpl in *. apply magic_line_results_other. now right.
Qed.

Lemma filter_flat_map_nil {X} (P : ValidationResult -> bool)
    (g : X -> list ValidationResult) xs :
  (forall x, In x xs -> filter P (g x) = []) ->
  filter P (flat_map g xs) = [].
Proof.
  induction xs as [|x xs IH]; intros H; simpl; [reflexivity|].
  rewrite filter_app, H by now left. apply IH.
  intros y Hy. apply H. now right.
Qed.

Lemma magic_results_of_other tf tf' i :
  FS.relative_to tf' <> FS.relative_to tf ->
  filter (magic_at (FS.relative_to tf) i) (magic_results_of tf') = [].
Proof.
  intros Hne. unfold magic_results_of.
  destruct (String.eqb (FS.name tf') "locals_constants.tf"); [reflexivity|].
  destruct (target tf') as [text|]; [|reflexivity].
  unfold magic_file_results. apply filter_flat_map_nil.
  intros [j l] _. apply magic_line_results_other. now left.
Qed.

(** The Magic Number results check_magic_numbers attributes to one line of
    one discovered file. *)
Lemma magic_results_at (fs : list tf_file) tf text k line :
  NoDup (map FS.relative_to fs) ->
  In tf fs ->
  FS.name tf <> "locals_constants.tf" ->
  target tf = File text ->
  nth_error (Py.split_lines text) k = Some line ->
  filter (magic_at (FS.relative_to tf) (S k)) (flat_map magic_results_of fs)
  = magic_line_results tf (S k) line.
Proof.
  intros Hnd Hin Hname Htext Hk.
  rewrite (@filter_flat_map_unique _ _ FS.relative_to _ _ tf); auto.
  - unfold magic_results_of.
    destruct (String.eqb_spec (FS.name tf) "locals_constants.tf");
      [contradiction|].
    rewrite Htext. now apply magic_file_results_at.
  - intros y _ Hy. now apply magic_results_of_other.
Qed.

Lemma not_magic_filter ns f i l :
  existsb (String.eqb "Magic Number") ns = false ->
  Forall (named ns) l -> filter (magic_at f i) l = [].
Proof.
  intros Hns Hl. apply filter_none. eapply Forall_impl; [|exact Hl].
  intros r Hr. unfold magic_at.
  destruct (String.eqb_spec (check_name r) "Magic Number") as [E|_];
    [|reflexivity].
  exfalso. exact (@named_other ns r _ Hr Hns E).
Qed.

Lemma seq_eval_filter_nil (P : ValidationResult -> bool) a b :
  filter P (fst a) = [] -> filter P (fst b) = [] ->
  filter P (fst (seq_eval a b)) = [].
Proof.
  intros Ha Hb. unfold seq_eval. destruct (snd a); simpl; auto.
  now rewrite filter_app, Ha, Hb.
Qed.

(** In a whole run the Magic Number results at a place are exactly those
    check_magic_numbers emits there. *)
Lemma run_magic_results p n st f i :
  all_regular (FS.glob n) ->
  filter (magic_at f i) (run_results p n st) =
  filter (magic_at f i) (flat_map magic_results_of (FS.glob n)).
Proof.
  intros Hreg. unfold run_results. rewrite run_all_checks_new. cbv zeta.
  destruct (FS.glob n) as [|tf0 fs0] eqn:G; [reflexivity|].
  simpl fst. simpl results.
  set (self := mkValidator p n st [] (tf0 :: fs0)).
  unfold log. rewrite eval_all_checks, eval_check_file_structure.
  assert (Hm : eval (check_magic_numbers self) =
               (flat_map magic_results_of (tf0 :: fs0), Val tt)).
  { unfold eval. now rewrite (check_magic_numbers_runs self Hreg). }
  rewrite Hm, !seq_eval_val. cbn [fst]. rewrite !filter_app.
  rewrite (@not_magic_filter file_structure_names); try reflexivity.
  2: { destruct (adds_runs (check_file_structure_names self)) as [R HQ].
       destruct (runs_fun R (check_file_structure_runs self)) as [<- _].
       exact HQ. }
  simpl app.
  match goal with |- _ ++ ?rest = _ => assert (Hrest : rest = []) end.
  { repeat apply seq_eval_filter_nil.
    - apply (@not_magic_filter ["String Boolean"]); [reflexivity|].
      apply adds_log. apply check_string_booleans_names.
    - apply (@not_magic_filter ["Variable Naming"; "Resource Naming"]);
        [reflexivity|].
      apply adds_log. apply check_naming_conventions_names.
    - apply (@not_magic_filter documentation_names); [reflexivity|].
      apply adds_log. apply check_documentation_names.
    - apply (@not_magic_filter security_names); [reflexivity|].
      apply adds_log. apply check_security_standards_names.
    - apply (@not_magic_filter ["Variable Validation"]); [reflexivity|].
      apply adds_log. apply check_variable_validation_names.
    - apply (@not_magic_filter ["Output Organization"]); [reflexivity|].
      apply adds_log. apply check_output_organization_names. }
  rewrite Hrest. apply app_nil_r.
Qed.

Lemma flat_map_nil_body {X Y} (l : list X) :
  flat_map (fun _ : X => @nil Y) l = [].
Proof. induction l; simpl; auto. Qed.

Lemma magic_line_results_suppressed tf i line :
  Py.contains "local." line = true -> magic_line_results tf i line = [].
Proof.
  intros H. unfold magic_line_results. rewrite H.
  destruct (is_comment line); [reflexivity|].
  unfold magic_patterns. simpl flat_map.
  now rewrite !flat_map_nil_body.
Qed.

Lemma length_flat_map_singletons {X Y} (h : X -> Y) (l : list X) :
  List.length (flat_map (fun m => [h m]) l) = List.length l.
Proof. induction l; simpl; auto. Qed.

Lemma magic_line_results_length tf i line :
  is_comment line = false ->
  Py.contains "local." line = false ->
  List.length (magic_line_results tf i line) = List.length (magic_hits line).
Proof.
  intros Hc Hl. unfold magic_line_results, magic_hits. rewrite Hc, Hl.
  unfold magic_patterns. simpl flat_map.
  now rewrite !length_app, !length_flat_map_singletons.
Qed.

(** C2. For a line of a discovered file other than locals_constants.tf
    that is not a comment: when the line matches a magic-number pattern and
    holds the token local., the run has no Magic Number result for that
    line; when it matches exactly one pattern exactly once and holds no
    such token, the run has exactly one Magic Number result for that line,
    a failing one carrying the file's relative path and the 1-based line
    number. *)
Theorem magic_number_per_line (p : string) (n : node) (st : bool)
    (tf : tf_file) (text : string) (k : nat) (line : string) :
  all_regular (FS.glob n) ->
  NoDup (map FS.relative_to (FS.glob n)) ->
  In tf (FS.glob n) ->
  FS.name tf <> "locals_constants.tf" ->
  target tf = File text ->
  nth_error (Py.split_lines text) k = Some line ->
  is_comment line = false ->
  let here :=
    filter (magic_at (FS.relative_to tf) (S k)) (run_results p n st) in
  (magic_hits line <> [] -> Py.contains "local." line = true -> here = [])
  /\ (List.length (magic_hits line) = 1 ->
      Py.contains "local." line = false ->
      exists r, here = [r]
                /\ check_name r = "Magic Number"
                /\ passed r = false
                /\ file_path r = FS.relative_to tf
                /\ line_number r = S k).
Proof.
  intros Hreg Hnd Hin Hname Htext Hk Hc. cbv zeta.
  rewrite (@run_magic_results p n st _ _ Hreg).
  rewrite (@magic_results_at _ _ _ _ _ Hnd Hin Hname Htext Hk).
  split.
  - intros _ Hl. now apply magic_line_results_suppressed.
  - intros Hone Hl.
    pose proof (@magic_line_results_length tf (S k) line Hc Hl) as Hlen.
    rewrite Hone in Hlen.
    pose proof (magic_line_results_at tf (S k) line) as Hall.
    destruct (magic_line_results tf (S k) line) as [|r [|r' l]];
      try discriminate.
    exists r. split; [reflexivity|].
    inversion Hall as [|? ? [Hat Hp] _]; subst.
    unfold magic_at in Hat.
    apply andb_prop in Hat. destruct Hat as [Hat Hline].
    apply andb_prop in Hat. destruct Hat as [Hn Hf].
    apply String.eqb_eq in Hn, Hf. apply Nat.eqb_eq in Hline.
    now repeat split.
Qed.

Lemma magic_number_per_line_witness :
  exists r,
    filter (magic_at "main.tf" 2) (run_results "." port_root false) = [r]
    /\ check_name r = "Magic Number"
    /\ passed r = false
    /\ file_path r = "main.tf"
    /\ line_number r = 2.
Proof.
  assert (Hreg : all_regular (FS.glob port_root))
    by (apply all_regular_check; vm_compute; reflexivity).
  assert (Hnd : NoDup (map FS.relative_to (FS.glob port_root)))
    by (apply NoDup_check; vm_compute; reflexivity).
  pose (tf := TfFile ["main.tf"]
                (File (lines ["resource " +++ quoted "azurerm_lb_rule" +++ " "
                                +++ quoted "web" +++ " {";
                              "  port = 8080";
                              "}"]))).
  assert (Hin : In tf (FS.glob port_root)) by (vm_compute; now left).
  assert (Hname : FS.name tf <> "locals_constants.tf")
    by (vm_compute; discriminate).
  assert (Hk : nth_error (Py.split_lines
                 (lines ["resource " +++ quoted "azurerm_lb_rule" +++ " "
                           +++ quoted "web" +++ " {";
                         "  port = 8080";
                         "}"])) 1 = Some "  port = 8080")
    by (vm_compute; reflexivity).
  assert (Hc : is_comment "  port = 8080" = false)
    by (vm_compute; reflexivity).
  pose proof (@magic_number_per_line "." port_root false tf _ 1 _
                Hreg Hnd Hin Hname eq_refl Hk Hc) as H.
  cbv zeta in H. destruct H as [_ H].
  apply H; vm_compute; reflexivity.
Defined.

(* ================================================================== *)
(** ** Output organization *)
(* ================================================================== *)

Lemma search_from_finditer fl r s cur :
  match search_from fl r s cur with
  | Some _ => finditer_from fl r s cur 0 <> []
  | None => finditer_from fl r s cur 0 = []
  end.
Proof.
  revert cur. induction s as [|c s IH]; intros cur; simpl.
  - destruct (match_at fl r cur); [discriminate|reflexivity].
  - destruct (match_at fl r cur); [discriminate|]. apply IH.
Qed.

Lemma found_finditer fl r s :
  found fl r s = match finditer fl r s with [] => false | _ :: _ => true end.
Proof.
  unfold found, search, finditer, start_of.
  pose proof (search_from_finditer fl r s (Cursor 0 None s None)) as H.
  destruct (search_from fl r s (Cursor 0 None s None));
    destruct (finditer_from fl r s (Cursor 0 None s None) 0);
    congruence.
Qed.

Lemma check_output_organization_runs self :
  FS.exists_ (FS.child (root self) "outputs.tf") = true ->
  all_regular (tf_files self) ->
  runs (check_output_organization self)
       (flat_map output_results_of (tf_files self)) (Val tt).
Proof.
  intros Hex Hreg. unfold check_output_organization. rewrite Hex. simpl negb.
  cbv iota. apply runs_for_each. intros tf Hin. unfold output_results_of.
  destruct (String.eqb (FS.name tf) "outputs.tf"); [apply runs_ret|].
  destruct (Hreg tf Hin) as [text E]. rewrite E. simpl FS.read_text.
  apply runs_read. rewrite found_finditer. unfold stray_outputs.
  destruct (finditer Pat.multiline Pat.output_decl text);
    [apply runs_ret|apply runs_append].
Qed.

Lemma seq_eval_val_inv a b u :
  snd (seq_eval a b) = Val u ->
  snd a = Val tt /\ snd b = Val u /\ fst (seq_eval a b) = fst a ++ fst b.
Proof.
  unfold seq_eval. destruct a as [la [[]|e|]]; simpl; intros H;
    try discriminate. auto.
Qed.

Lemma not_output_filter ns l :
  existsb (String.eqb "Output Organization") ns = false ->
  Forall (named ns) l -> filter is_output_organization l = [].
Proof.
  intros Hns Hl. apply filter_none. eapply Forall_impl; [|exact Hl].
  intros r Hr. unfold is_output_organization.
  destruct (String.eqb_spec (check_name r) "Output Organization") as [E|_];
    [|reflexivity].
  exfalso. exact (@named_other ns r _ Hr Hns E).
Qed.

Lemma run_outcome_all_checks p n st b :
  run_outcome p n st = Val b -> FS.glob n <> [] ->
  outcome (all_checks (mkValidator p n st [] (FS.glob n))) = Val tt.
Proof.
  unfold run_outcome. rewrite run_all_checks_new. cbv zeta.
  destruct (FS.glob n); [congruence|]. simpl snd.
  destruct (outcome _) as [[]| |]; intros H _; congruence.
Qed.

Lemma output_results_of_named tf :
  Forall (fun r => is_output_organization r = true) (output_results_of tf).
Proof.
  unfold output_results_of.
  destruct (String.eqb (FS.name tf) "outputs.tf"); [constructor|].
  destruct (target tf); [|constructor].
  destruct (stray_outputs text); repeat constructor.
Qed.

(** In a run that completes, the Output Organization results are those of
    check_output_organization. *)
Lemma run_output_results p n st b :
  run_outcome p n st = Val b ->
  FS.exists_ (FS.child n "outputs.tf") = true ->
  all_regular (FS.glob n) ->
  filter is_output_organization (run_results p n st) =
  flat_map output_results_of (FS.glob n).
Proof.
  intros Hrun Hex Hreg.
  destruct (FS.glob n) as [|tf0 fs0] eqn:G.
  { unfold run_results. rewrite run_all_checks_new. cbv zeta. rewrite G.
    reflexivity. }
  assert (Hne : FS.glob n <> []) by (rewrite G; discriminate).
  rewrite (@run_results_log p n st Hne).
  pose proof (@run_outcome_all_checks p n st b Hrun Hne) as Hout.
  rewrite G in *. set (self := mkValidator p n st [] (tf0 :: fs0)) in *.
  unfold outcome in Hout. unfold log. rewrite eval_all_checks in *.
  repeat match type of Hout with
  | snd (seq_eval ?a ?b) = Val _ =>
      let H1 := fresh "H" in
      destruct (seq_eval_val_inv a b Hout) as (_ & H1 & ->);
      clear Hout; rename H1 into Hout
  end.
  rewrite !filter_app.
  rewrite (@not_output_filter file_structure_names);
    [|reflexivity|apply adds_log; apply check_file_structure_names].
  rewrite (@not_output_filter ["Magic Number"]);
    [|reflexivity|apply adds_log; apply check_magic_numbers_names].
  rewrite (@not_output_filter ["String Boolean"]);
    [|reflexivity|apply adds_log; apply check_string_booleans_names].
  rewrite (@not_output_filter ["Variable Naming"; "Resource Naming"]);
    [|reflexivity|apply adds_log; apply check_naming_conventions_names].
  rewrite (@not_output_filter documentation_names);
    [|reflexivity|apply adds_log; apply check_documentation_names].
  rewrite (@not_output_filter security_names);
    [|reflexivity|apply adds_log; apply check_security_standards_names].
  rewrite (@not_output_filter ["Variable Validation"]);
    [|reflexivity|apply adds_log; apply check_variable_validation_names].
  simpl app. unfold eval.
  rewrite (@check_output_organization_runs self Hex Hreg). cbn [fst app].
  apply filter_all. apply Forall_flat_map. apply Forall_forall.
  intros tf _. apply output_results_of_named.
Qed.

Lemma output_results_of_strays tf :
  output_results_of tf =
  match strays_of tf with [] => [] | _ :: _ => [stray_output_result tf] end.
Proof.
  unfold output_results_of, strays_of.
  destruct (String.eqb (FS.name tf) "outputs.tf"); [reflexivity|].
  destruct (target tf); reflexivity.
Qed.

Lemma output_results_none fs :
  (forall tf, In tf fs -> strays_of tf = []) ->
  flat_map output_results_of fs = [].
Proof.
  induction fs as [|tf fs IH]; intros H; simpl; [reflexivity|].
  rewrite output_results_of_strays, H by now left. simpl.
  apply IH. intros tf' Hin. apply H. now right.
Qed.

(** C5 (amended). In a run that completes on a root holding outputs.tf, the
    Output Organization results are, in discovery order, one failing result
    per discovered file not called outputs.tf that holds at least one
    top-level output declaration, however many it holds, attributed to
    that file.  So a tree whose only stray declarations sit in one file
    yields exactly one such result, referencing that file, and a tree
    without stray declarations yields none. *)
Theorem output_organization_per_file (p : string) (n : node) (st b : bool) :
  run_outcome p n st = Val b ->
  FS.exists_ (FS.child n "outputs.tf") = true ->
  all_regular (FS.glob n) ->
  let flagged := filter is_output_organization (run_results p n st) in
  flagged = flat_map output_results_of (FS.glob n)
  /\ (forall l1 tf l2,
        FS.glob n = l1 ++ tf :: l2 ->
        strays_of tf <> [] ->
        (forall tf', In tf' (l1 ++ l2) -> strays_of tf' = []) ->
        flagged = [stray_output_result tf]
        /\ passed (stray_output_result tf) = false
        /\ file_path (stray_output_result tf) = FS.relative_to tf)
  /\ ((forall tf, In tf (FS.glob n) -> strays_of tf = []) -> flagged = []).
Proof.
  intros Hrun Hex Hreg. cbv zeta.
  rewrite (@run_output_results p n st b Hrun Hex Hreg).
  split; [reflexivity|]. split.
  - intros l1 tf l2 G Hs Hothers. rewrite G.
    rewrite flat_map_app. simpl flat_map.
    rewrite !output_results_none.
    + rewrite output_results_of_strays.
      destruct (strays_of tf); [congruence|]. now repeat split.
    + intros tf' Hin. apply Hothers. apply in_or_app. now right.
    + intros tf' Hin. apply Hothers. apply in_or_app. now left.
  - apply output_results_none.
Qed.

Lemma output_organization_per_file_witness :
  filter is_output_organization
    (run_results "." (outputs_root (output_block "stray")) false)
  = [stray_output_result
       (TfFile ["main.tf"] (File (lines (output_block "stray"))))].
Proof.
  assert (Hrun : run_outcome "." (outputs_root (output_block "stray")) false
                 = Val false) by (vm_compute; reflexivity).
  assert (Hreg : all_regular (FS.glob (outputs_root (output_block "stray"))))
    by (apply all_regular_check; vm_compute; reflexivity).
  pose proof (@output_organization_per_file "."
                (outputs_root (output_block "stray")) false false
                Hrun eq_refl Hreg) as H.
  cbv zeta in H. destruct H as (_ & H & _).
  apply (H [TfFile ["outputs.tf"] (File (lines (output_block "group_id")))]
           _ []).
  - reflexivity.
  - vm_compute. discriminate.
  - intros tf' [<-|[]]. reflexivity.
Defined.

(** Two stray declarations in main.tf are flagged once. *)
Lemma output_organization_counterexample :
  let n := outputs_root (output_block "first" ++ output_block "second") in
  run_outcome "." n false = Val false
  /\ List.length (flat_map strays_of (FS.glob n)) = 2
  /\ List.length (filter is_output_organization (run_results "." n false)) = 1
  /\ ~ claimed_output_flags "." n false.
Proof.
  cbv zeta. split; [vm_compute; reflexivity|].
  split; [vm_compute; reflexivity|].
  split; [vm_compute; reflexivity|].
  unfold claimed_output_flags. vm_compute. discriminate.
Qed.

(* ================================================================== *)
(** ** The wildcard-source lookback *)
(* ================================================================== *)

(** C7, at the failing input: line 18 of main.tf is the wildcard line of a
    Deny rule, the 200 characters before it hold no allow in any case, and
    the run still flags it, because the window is taken before the first
    occurrence of the line's text (line 4, inside the Allow rule). *)
Theorem wildcard_lookback_uses_first_occurrence :
  nth_error (Py.split_lines allow_then_deny) 17 = Some wildcard_line
  /\ Py.contains "allow" (Py.lower (preceding_window allow_then_deny 17))
     = false
  /\ Py.find wildcard_line allow_then_deny
     = Some (line_offset (Py.split_lines allow_then_deny) 3)
  /\ In (permissive_rule "main.tf" 18)
        (run_results "." allow_then_deny_root false).
Proof.
  split; [vm_compute; reflexivity|].
  split; [vm_compute; reflexivity|].
  split; [vm_compute; reflexivity|].
  vm_compute. tauto.
Qed.

(* ================================================================== *)
(** ** How the matcher runs on the variable-block patterns *)
(* ================================================================== *)

Lemma pos_forward n cur : pos (forward n cur) = pos cur + n.
Proof.
  revert cur. induction n as [|n IH]; intros cur; simpl; [lia|].
  rewrite IH. unfold next. destruct (rest cur); simpl; lia.
Qed.

Lemma rest_forward n cur : rest (forward n cur) = Py.drop n (rest cur).
Proof.
  revert cur. induction n as [|n IH]; intros cur; simpl.
  - now destruct (rest cur).
  - rewrite IH. unfold next. destruct (rest cur) as [|c s']; simpl;
      [now destruct n|reflexivity].
Qed.

Lemma grp_forward n cur : grp (forward n cur) = grp cur.
Proof.
  revert cur. induction n as [|n IH]; intros cur; simpl; [reflexivity|].
  rewrite IH. unfold next. now destruct (rest cur).
Qed.

Lemma forward_add n m cur : forward (n + m) cur = forward m (forward n cur).
Proof.
  revert cur. induction n as [|n IH]; intros cur; simpl; auto.
Qed.

Lemma forward_set_grp n g cur :
  forward n (set_grp g cur) = set_grp g (forward n cur).
Proof.
  revert cur. induction n as [|n IH]; intros cur; simpl; [reflexivity|].
  rewrite <- IH. f_equal. unfold next, set_grp. simpl.
  now destruct (rest cur).
Qed.

Lemma orelse_ext {A} (a a' : option A) b b' :
  a = a' -> (forall u, b u = b' u) -> orelse a b = orelse a' b'.
Proof. intros -> H. destruct a'; simpl; auto. Qed.

Lemma star_from_ext fl g cs k k' s cur :
  (forall c, k c = k' c) ->
  star_from fl g cs k s cur = star_from fl g cs k' s cur.
Proof.
  intros H. revert cur. induction s as [|c s IH]; intros cur; simpl; auto.
  destruct (in_cset fl cs c); auto.
  destruct g; apply orelse_ext; auto.
Qed.

Lemma exec_ext fl r : forall cur k k',
  (forall c, k c = k' c) -> exec fl r cur k = exec fl r cur k'.
Proof.
  induction r; intros cur k k' H; simpl.
  - apply H.
  - destruct (rest cur); auto. destruct (chr_eq fl c a); auto.
  - destruct (rest cur); auto. destruct (in_cset fl cs a); auto.
  - apply IHr1. intros mid. now apply IHr2.
  - apply orelse_ext; auto.
  - now apply star_from_ext.
  - apply IHr. intros fin. apply H.
  - destruct (at_word_boundary cur); auto.
  - destruct (at_line_start fl cur); auto.
Qed.

(** A literal run, matched case-sensitively. *)
Lemma exec_Lit fl s : forall cur k,
  IGNORECASE fl = false ->
  exec fl (Lit s) cur k =
  if Py.startswith s (rest cur) then k (forward (String.length s) cur)
  else None.
Proof.
  induction s as [|c s IH]; intros cur k Hic; simpl.
  - now destruct (rest cur).
  - destruct (rest cur) as [|c' r'] eqn:E; [reflexivity|].
    unfold chr_eq. rewrite Hic. rewrite (Ascii.eqb_sym c c').
    destruct (Ascii.eqb c' c); simpl; [|reflexivity].
    rewrite IH by assumption. simpl. unfold next. rewrite E. reflexivity.
Qed.

Lemma exec_Chr fl p cur k :
  exec fl (Chr p) cur k =
  match rest cur with
  | String c _ => if chr_eq fl p c then k (next cur) else None
  | EmptyString => None
  end.
Proof.
  simpl. unfold next. destruct (rest cur); reflexivity.
Qed.

(** A greedy repetition followed by a character outside its class stops
    at the end of the longest run: backing off never helps. *)
Lemma star_greedy_then_chr fl cs p k s : forall cur,
  (forall c, chr_eq fl p c = true -> in_cset fl cs c = false) ->
  rest cur = s ->
  star_from fl true cs (fun c => exec fl (Chr p) c k) s cur =
  exec fl (Chr p) (forward (span (in_cset fl cs) s) cur) k.
Proof.
  induction s as [|c s IH]; intros cur Hp E; cbn [star_from span forward];
    [reflexivity|].
  destruct (in_cset fl cs c) eqn:Hc; [|reflexivity].
  cbn [forward].
  assert (N : next cur = step c s cur) by (unfold next; now rewrite E).
  rewrite N, IH by auto.
  destruct (exec fl (Chr p) (forward (span (in_cset fl cs) s) (step c s cur)) k);
    cbn [orelse]; [reflexivity|].
  rewrite exec_Chr, E. destruct (chr_eq fl p c) eqn:Hpc; [|reflexivity].
  rewrite (Hp c Hpc) in Hc. discriminate.
Qed.

Lemma plus_greedy_then_chr fl cs p k cur :
  (forall c, chr_eq fl p c = true -> in_cset fl cs c = false) ->
  exec fl (Plus true cs) cur (fun c => exec fl (Chr p) c k) =
  if 1 <=? span (in_cset fl cs) (rest cur)
  then exec fl (Chr p) (forward (span (in_cset fl cs) (rest cur)) cur) k
  else None.
Proof.
  intros Hp. unfold Plus. cbn [exec].
  destruct (rest cur) as [|c s] eqn:E; [reflexivity|]. cbn [span].
  destruct (in_cset fl cs c); [|reflexivity]. cbn [Nat.leb forward].
  assert (N : next cur = step c s cur) by (unfold next; now rewrite E).
  rewrite N. apply star_greedy_then_chr; auto.
Qed.

(** The lazy [.*?}] at the end of a pattern stops at the first closing
    brace. *)
Lemma lazy_to_brace fl s : forall cur,
  DOTALL fl = true -> IGNORECASE fl = false ->
  rest cur = s ->
  star_from fl false CDot (fun c => exec fl (Chr "}") c Some) s cur =
  match Py.find "}" s with
  | Some i => Some (forward (S i) cur)
  | None => None
  end.
Proof.
  induction s as [|c s IH]; intros cur Hd Hic E; cbn [star_from].
  - rewrite exec_Chr, E. reflexivity.
  - assert (N : next cur = step c s cur) by (unfold next; now rewrite E).
    cbn [in_cset]. rewrite Hd. cbn [orb]. rewrite exec_Chr, E.
    unfold chr_eq. rewrite Hic. cbn [Py.find Py.startswith].
    rewrite (Ascii.eqb_sym "}" c).
    destruct (Ascii.eqb c "}") eqn:Hc; cbn [orelse andb].
    + destruct s; reflexivity.
    + rewrite IH by auto. cbn [forward]. rewrite N.
      destruct (Py.find "}" s); reflexivity.
Qed.

Lemma exec_to_closing_brace fl cur :
  DOTALL fl = true -> IGNORECASE fl = false ->
  exec fl Pat.to_closing_brace cur Some =
  match Py.find "}" (rest cur) with
  | Some i => Some (forward (S i) cur)
  | None => None
  end.
Proof.
  intros Hd Hic. unfold Pat.to_closing_brace. cbn [exec].
  now apply lazy_to_brace.
Qed.

Lemma exec_Chr_set_grp fl p g cur k :
  exec fl (Chr p) (set_grp g cur) k =
  exec fl (Chr p) cur (fun c => k (set_grp g c)).
Proof.
  rewrite !exec_Chr. unfold set_grp at 1. cbn [rest].
  destruct (rest cur) as [|c s'] eqn:E; [reflexivity|].
  destruct (chr_eq fl p c); [|reflexivity]. f_equal.
  unfold next, set_grp. cbn [rest]. rewrite E. reflexivity.
Qed.

(** The capturing group around a greedy run, followed by a character
    outside the run's class. *)
Lemma grp_plus_then_chr fl cs p k cur :
  (forall c, chr_eq fl p c = true -> in_cset fl cs c = false) ->
  exec fl (Grp (Plus true cs)) cur (fun c => exec fl (Chr p) c k) =
  if 1 <=? span (in_cset fl cs) (rest cur)
  then exec fl (Chr p) (forward (span (in_cset fl cs) (rest cur)) cur)
         (fun c => k (set_grp (Some (pos cur, pos c - 1)) c))
  else None.
Proof.
  intros Hp.
  rewrite <- (plus_greedy_then_chr fl cs p
                (fun c => k (set_grp (Some (pos cur, pos c - 1)) c)) cur Hp).
  change (exec fl (Grp (Plus true cs)) cur (fun c => exec fl (Chr p) c k))
    with (exec fl (Plus true cs) cur
            (fun fin => exec fl (Chr p)
                          (set_grp (Some (pos cur, pos fin)) fin) k)).
  apply exec_ext. intros fin.
  rewrite exec_Chr_set_grp. rewrite !exec_Chr.
  destruct (rest fin) as [|c s'] eqn:E; [reflexivity|].
  destruct (chr_eq fl p c); [|reflexivity].
  replace (pos (next fin) - 1) with (pos fin); [reflexivity|].
  unfold next. rewrite E. simpl. lia.
Qed.

Lemma no_ignorecase_chr fl p c :
  IGNORECASE fl = false -> chr_eq fl p c = Ascii.eqb c p.
Proof. intros H. unfold chr_eq. now rewrite H. Qed.

Lemma quote_not_space fl c :
  IGNORECASE fl = false ->
  chr_eq fl Pat.quote c = true -> in_cset fl CSpace c = false.
Proof.
  intros Hic. rewrite no_ignorecase_chr by assumption. intros H.
  apply Ascii.eqb_eq in H. subst c. reflexivity.
Qed.

Lemma quote_not_nonquote fl c :
  IGNORECASE fl = false ->
  chr_eq fl Pat.quote c = true -> in_cset fl (CNot Pat.quote) c = false.
Proof.
  intros Hic. rewrite no_ignorecase_chr by assumption. intros H.
  cbn [in_cset]. now rewrite H.
Qed.

Lemma startswith_dq s :
  Py.startswith dq s =
  match s with String c _ => Ascii.eqb c Pat.quote | EmptyString => false end.
Proof.
  destruct s as [|c s]; [reflexivity|]. unfold dq. cbn [Py.startswith].
  rewrite (Ascii.eqb_sym Pat.quote c). now rewrite andb_true_r.
Qed.

Lemma exec_quote fl cur k :
  IGNORECASE fl = false ->
  exec fl Pat.q cur k =
  if Py.startswith dq (rest cur) then k (next cur) else None.
Proof.
  intros Hic. unfold Pat.q. rewrite exec_Chr, startswith_dq.
  destruct (rest cur); [reflexivity|].
  now rewrite no_ignorecase_chr.
Qed.

Lemma next_forward cur : next cur = forward 1 cur.
Proof. reflexivity. Qed.

Lemma drop_drop n m s : Py.drop m (Py.drop n s) = Py.drop (n + m) s.
Proof.
  revert s. induction n as [|n IH]; intros s; simpl.
  - now destruct s.
  - destruct s as [|c s]; simpl; [now destruct m|apply IH].
Qed.

Ltac norm_drops :=
  rewrite ?next_forward, ?rest_forward, ?drop_drop, ?Nat.add_assoc.

Ltac same_test :=
  match goal with
  | |- (if ?b then _ else _) = _ => destruct b; [|reflexivity]
  end.

(** The same facts with the rest of the pattern following. *)
Lemma exec_Lit_seq fl s r cur k :
  IGNORECASE fl = false ->
  exec fl (Seq (Lit s) r) cur k =
  if Py.startswith s (rest cur)
  then exec fl r (forward (String.length s) cur) k else None.
Proof. intros H. cbn [exec]. now rewrite exec_Lit. Qed.

Lemma exec_quote_seq fl r cur k :
  IGNORECASE fl = false ->
  exec fl (Seq Pat.q r) cur k =
  if Py.startswith dq (rest cur) then exec fl r (forward 1 cur) k else None.
Proof. intros H. cbn [exec]. now rewrite exec_quote. Qed.

Lemma exec_spaces_quote_seq fl r cur k :
  IGNORECASE fl = false ->
  exec fl (Seq Pat.ws_plus (Seq Pat.q r)) cur k =
  if 1 <=? span Py.isspace (rest cur)
  then exec fl (Seq Pat.q r) (forward (span Py.isspace (rest cur)) cur) k
  else None.
Proof.
  intros H.
  change (exec fl (Seq Pat.ws_plus (Seq Pat.q r)) cur k)
    with (exec fl (Plus true CSpace) cur
            (fun c => exec fl (Chr Pat.quote) c (fun c' => exec fl r c' k))).
  rewrite plus_greedy_then_chr by (intros c; now apply quote_not_space).
  reflexivity.
Qed.

Lemma exec_name_quote_seq fl r cur k :
  IGNORECASE fl = false ->
  exec fl (Seq (Grp Pat.not_quote_plus) (Seq Pat.q r)) cur k =
  if 1 <=? span not_quote (rest cur)
  then
    let fin := forward (span not_quote (rest cur)) cur in
    if Py.startswith dq (rest fin)
    then exec fl r (set_grp (Some (pos cur, pos fin)) (forward 1 fin)) k
    else None
  else None.
Proof.
  intros H.
  change (exec fl (Seq (Grp Pat.not_quote_plus) (Seq Pat.q r)) cur k)
    with (exec fl (Grp (Plus true (CNot Pat.quote))) cur
            (fun c => exec fl (Chr Pat.quote) c (fun c' => exec fl r c' k))).
  rewrite grp_plus_then_chr by (intros c; now apply quote_not_nonquote).
  change (in_cset fl (CNot Pat.quote)) with not_quote.
  destruct (1 <=? span not_quote (rest cur)); [|reflexivity]. cbv zeta.
  fold Pat.q. rewrite exec_quote by assumption.
  destruct (Py.startswith dq _); [|reflexivity].
  rewrite next_forward. do 3 f_equal.
  rewrite (pos_forward 1). f_equal. lia.
Qed.

Lemma exec_var_block name cur :
  exec Pat.dotall (Pat.var_block_regex name) cur Some =
  option_map (fun n => forward n cur) (var_block_length name (rest cur)).
Proof.
  unfold Pat.var_block_regex, var_block_length. cbn [Pat.seq]. cbv zeta.
  rewrite exec_Lit_seq by reflexivity. same_test. cbn [String.length].
  rewrite exec_spaces_quote_seq by reflexivity. norm_drops.
  set (w := span Py.isspace (Py.drop 8 (rest cur))). same_test.
  rewrite exec_quote_seq by reflexivity. norm_drops. same_test.
  rewrite exec_Lit_seq by reflexivity. norm_drops. same_test.
  rewrite exec_quote_seq by reflexivity. norm_drops. same_test.
  rewrite exec_to_closing_brace by reflexivity. norm_drops.
  destruct (Py.find "}" _) as [i|]; [|reflexivity].
  cbn [option_map]. f_equal. rewrite <- !forward_add.
  f_equal. lia.
Qed.

Lemma rest_set_grp g cur : rest (set_grp g cur) = rest cur.
Proof. reflexivity. Qed.

Lemma exec_var_blocks cur :
  exec Pat.dotall Pat.var_blocks cur Some =
  option_map
    (fun parts =>
       let '(off, n, total) := parts in
       set_grp (Some (pos cur + off, pos cur + off + n)) (forward total cur))
    (var_blocks_parts (rest cur)).
Proof.
  unfold Pat.var_blocks, var_blocks_parts. cbn [Pat.seq]. cbv zeta.
  rewrite exec_Lit_seq by reflexivity. same_test. cbn [String.length].
  rewrite exec_spaces_quote_seq by reflexivity. norm_drops.
  set (w := span Py.isspace (Py.drop 8 (rest cur))). same_test.
  rewrite exec_quote_seq by reflexivity. norm_drops. same_test.
  rewrite exec_name_quote_seq by reflexivity. cbv zeta. norm_drops.
  set (n := span not_quote (Py.drop (8 + w + 1) (rest cur))). same_test.
  same_test.
  rewrite exec_to_closing_brace by reflexivity.
  rewrite rest_set_grp. norm_drops.
  destruct (Py.find "}" _) as [i|]; [|reflexivity].
  cbn [option_map]. rewrite forward_set_grp, !pos_forward.
  rewrite <- !forward_add. f_equal.
  f_equal; [f_equal; f_equal; lia|f_equal; lia].
Qed.

(* ------------------------------------------------------------------ *)
(** Strings: prefixes, suffixes and runs *)

Lemma take_drop n s : Py.take n s +++ Py.drop n s = s.
Proof.
  revert s. induction n as [|n IH]; intros s; simpl.
  - now destruct s.
  - destruct s as [|c s]; simpl; [reflexivity|]. now rewrite IH.
Qed.

Lemma length_take n s : n <= String.length s -> String.length (Py.take n s) = n.
Proof.
  revert s. induction n as [|n IH]; intros s H; simpl.
  - now destruct s.
  - destruct s as [|c s]; simpl in *; [lia|]. rewrite IH; lia.
Qed.

Lemma startswith_app p s : Py.startswith p (p +++ s) = true.
Proof.
  induction p as [|c p IH]; simpl; [reflexivity|].
  now rewrite Ascii.eqb_refl, IH.
Qed.

Lemma startswith_split p s :
  Py.startswith p s = true -> s = p +++ Py.drop (String.length p) s.
Proof.
  revert s. induction p as [|c p IH]; intros s H; simpl in *.
  - now destruct s.
  - destruct s as [|c' s]; [discriminate|].
    apply andb_prop in H. destruct H as [Hc Hp].
    apply Ascii.eqb_eq in Hc. subst c'. simpl. f_equal. now apply IH.
Qed.

Lemma startswith_take n s : Py.startswith (Py.take n s) s = true.
Proof.
  revert s. induction n as [|n IH]; intros s; simpl.
  - now destruct s.
  - destruct s as [|c s]; simpl; [reflexivity|].
    now rewrite Ascii.eqb_refl, IH.
Qed.

Lemma span_le p s : span p s <= String.length s.
Proof.
  induction s as [|c s IH]; simpl; [lia|]. destruct (p c); simpl; lia.
Qed.

Lemma span_all p s : all_chars p (Py.take (span p s) s) = true.
Proof.
  induction s as [|c s IH]; simpl; [reflexivity|].
  destruct (p c) eqn:E; simpl; [|reflexivity]. now rewrite E, IH.
Qed.

Lemma find_char_cons c c' s :
  Py.find (String c "") (String c' s) =
  if Ascii.eqb c c' then Some 0
  else option_map S (Py.find (String c "") s).
Proof.
  cbn [Py.find Py.startswith]. destruct (Ascii.eqb c c'); [|reflexivity].
  now destruct s.
Qed.

Lemma find_char_nil c : Py.find (String c "") "" = None.
Proof. reflexivity. Qed.

Lemma find_char_split c s i :
  Py.find (String c "") s = Some i ->
  s = Py.take i s +++ String c (Py.drop (S i) s)
  /\ Py.contains (String c "") (Py.take i s) = false.
Proof.
  unfold Py.contains. revert i. induction s as [|c' s IH]; intros i H.
  - discriminate.
  - rewrite find_char_cons in H.
    destruct (Ascii.eqb c c') eqn:Hc.
    + injection H as <-. apply Ascii.eqb_eq in Hc. subst c'.
      simpl. split; reflexivity.
    + destruct (Py.find (String c "") s) as [j|] eqn:F; [|discriminate].
      injection H as <-. destruct (IH j eq_refl) as [E N].
      split.
      * change (String c' s =
                String c' (Py.take j s +++ String c (Py.drop (S j) s))).
        now rewrite <- E.
      * change (Py.take (S j) (String c' s))
          with (String c' (Py.take j s)).
        rewrite find_char_cons, Hc.
        destruct (Py.find (String c "") (Py.take j s)); [discriminate|].
        reflexivity.
Qed.

Lemma find_char_lt c s i :
  Py.find (String c "") s = Some i -> i < String.length s.
Proof.
  revert i. induction s as [|c' s IH]; intros i H; [discriminate|].
  rewrite find_char_cons in H. destruct (Ascii.eqb c c').
  - injection H as <-. simpl. lia.
  - destruct (Py.find (String c "") s) as [j|]; [|discriminate].
    injection H as <-. specialize (IH j eq_refl). simpl. lia.
Qed.

Lemma drop_app_length p s : Py.drop (String.length p) (p +++ s) = s.
Proof. induction p; simpl; auto. Qed.

Lemma length_drop n s : String.length (Py.drop n s) = String.length s - n.
Proof.
  revert s. induction n as [|n IH]; intros s; simpl.
  - destruct s; simpl; lia.
  - destruct s as [|c s]; simpl; [reflexivity|apply IH].
Qed.

(* ------------------------------------------------------------------ *)
(** Matches of the two variable-block patterns *)

Lemma match_at_var_block name cur :
  grp cur = None ->
  match_at Pat.dotall (Pat.var_block_regex name) cur =
  option_map
    (fun n => Match (pos cur) (pos cur + n) (Py.take n (rest cur)) None)
    (var_block_length name (rest cur)).
Proof.
  intros Hg. unfold match_at. rewrite exec_var_block.
  destruct (var_block_length name (rest cur)) as [n|]; [|reflexivity].
  cbn [option_map]. rewrite pos_forward, grp_forward, Hg.
  replace (pos cur + n - pos cur) with n by lia. reflexivity.
Qed.

Lemma match_at_var_blocks cur :
  match_at Pat.dotall Pat.var_blocks cur =
  option_map
    (fun parts =>
       let '(off, n, total) := parts in
       Match (pos cur) (pos cur + total) (Py.take total (rest cur))
             (Some (Py.take n (Py.drop off (rest cur)))))
    (var_blocks_parts (rest cur)).
Proof.
  unfold match_at. rewrite exec_var_blocks.
  destruct (var_blocks_parts (rest cur)) as [[[off n] total]|];
    [|reflexivity].
  cbn [option_map set_grp pos grp]. rewrite pos_forward.
  unfold Py.slice.
  replace (pos cur + total - pos cur) with total by lia.
  replace (pos cur + off + n - pos cur - (pos cur + off - pos cur))
    with n by lia.
  replace (pos cur + off - pos cur) with off by lia. reflexivity.
Qed.

(** Where [Pat.var_blocks] matches and captures a name, the pattern with
    that name spliced in matches the same text. *)
Lemma var_blocks_parts_block s off n total :
  var_blocks_parts s = Some (off, n, total) ->
  var_block_length (Py.take n (Py.drop off s)) s = Some total.
Proof.
  unfold var_blocks_parts, var_block_length. cbv zeta.
  destruct (Py.startswith "variable" s); [|discriminate].
  set (w := span Py.isspace (Py.drop 8 s)).
  destruct (1 <=? w); [|discriminate].
  destruct (Py.startswith dq (Py.drop w (Py.drop 8 s))); [|discriminate].
  set (s3 := Py.drop 1 (Py.drop w (Py.drop 8 s))).
  destruct (1 <=? span not_quote s3); [|discriminate].
  destruct (Py.startswith dq (Py.drop (span not_quote s3) s3)) eqn:Hq;
    [|discriminate].
  destruct (Py.find "}" (Py.drop 1 (Py.drop (span not_quote s3) s3)))
    as [i|] eqn:Hf; [|discriminate].
  intros H.
  assert (Hoff : off = 8 + w + 1) by congruence.
  assert (Hn : n = span not_quote s3) by congruence.
  assert (Ht : total = 8 + w + 1 + span not_quote s3 + 1 + S i)
    by congruence.
  clear H. subst off n total.
  assert (E3 : Py.drop (8 + w + 1) s = s3)
    by (unfold s3; now rewrite !drop_drop, ?Nat.add_assoc).
  rewrite E3, startswith_take.
  rewrite length_take by apply span_le. now rewrite Hq, Hf.
Qed.

(* ------------------------------------------------------------------ *)
(** Scanning: [search] and [finditer] try the same cursors *)

Lemma next_step cur c s' : rest cur = String c s' -> next cur = step c s' cur.
Proof. intros E. unfold next. now rewrite E. Qed.

Lemma search_from_found fl r s : forall cur m,
  rest cur = s ->
  search_from fl r s cur = Some m ->
  exists k, k <= String.length s
            /\ match_at fl r (forward k cur) = Some m.
Proof.
  induction s as [|c s IH]; intros cur m E H; cbn [search_from] in H.
  - exists 0. split; [lia|]. cbn [forward].
    destruct (match_at fl r cur); [assumption|discriminate].
  - destruct (match_at fl r cur) as [m'|] eqn:M.
    + exists 0. split; [lia|]. cbn [forward]. congruence.
    + destruct (IH (step c s cur) m eq_refl H) as (k & Hk & Hm).
      exists (S k). split; [simpl; lia|]. cbn [forward].
      now rewrite (next_step _ E).
Qed.

Lemma search_from_complete fl r s : forall cur k m,
  rest cur = s ->
  k <= String.length s ->
  match_at fl r (forward k cur) = Some m ->
  exists m', search_from fl r s cur = Some m'.
Proof.
  induction s as [|c s IH]; intros cur k m E Hk H; cbn [search_from].
  - assert (k = 0) by (simpl in Hk; lia). subst k. cbn [forward] in H.
    rewrite H. eauto.
  - destruct (match_at fl r cur) as [m'|] eqn:M; [eauto|].
    destruct k as [|k]; [cbn [forward] in H; congruence|].
    cbn [forward] in H. rewrite (next_step _ E) in H.
    apply (IH (step c s cur) k m eq_refl); [simpl in Hk; lia|assumption].
Qed.

Lemma finditer_from_in fl r s : forall cur skip m,
  rest cur = s ->
  In m (finditer_from fl r s cur skip) ->
  exists k, k <= String.length s
            /\ match_at fl r (forward k cur) = Some m.
Proof.
  induction s as [|c s IH]; intros cur skip m E H.
  - destruct skip; cbn [finditer_from] in H; [|contradiction].
    destruct (match_at fl r cur) as [m'|] eqn:M; [|contradiction].
    destruct H as [->|[]]. exists 0. split; [lia|assumption].
  - assert (Hrec : forall skip',
              In m (finditer_from fl r s (step c s cur) skip') ->
              exists k, k <= String.length (String c s)
                        /\ match_at fl r (forward k cur) = Some m).
    { intros skip' H'.
      destruct (IH (step c s cur) skip' m eq_refl H') as (k & Hk & Hm).
      exists (S k). split; [simpl; lia|]. cbn [forward].
      now rewrite (next_step _ E). }
    destruct skip; cbn [finditer_from] in H; [|eauto].
    destruct (match_at fl r cur) as [m'|] eqn:M; [|eauto].
    destruct H as [->|H]; [|eauto].
    exists 0. split; [lia|assumption].
Qed.

Lemma grp_start_forward k s : grp (forward k (start_of s)) = None.
Proof. now rewrite grp_forward. Qed.

(* ------------------------------------------------------------------ *)
(** The block examined for a variable name *)

Lemma search_var_block_plain name content :
  Pat.plain name = true ->
  search_var_block name content =
  Val (search Pat.dotall (Pat.var_block_regex name) content).
Proof.
  intros H. unfold search_var_block, Pat.var_block. now rewrite H.
Qed.

(** Every name found by the declaration pattern has an examined block. *)
Lemma found_name_has_block name content :
  In name (findall Pat.dotall Pat.var_blocks content) ->
  exists blk, examined_block name content = Some blk.
Proof.
  unfold findall, finditer. intros H. apply in_map_iff in H.
  destruct H as (m0 & Hname & Hin).
  destruct (@finditer_from_in _ _ content (Cursor 0 None content None) 0 m0
              eq_refl Hin) as (k & Hk & Hm).
  rewrite match_at_var_blocks in Hm.
  destruct (var_blocks_parts _) as [[[off n] total]|] eqn:P;
    [|discriminate].
  cbn [option_map] in Hm. injection Hm as <-. cbn [group1] in Hname.
  subst name. apply var_blocks_parts_block in P.
  assert (Hb : match_at Pat.dotall
                 (Pat.var_block_regex
                    (Py.take n (Py.drop off
                       (rest (forward k (Cursor 0 None content None))))))
                 (forward k (Cursor 0 None content None)) <> None).
  { rewrite match_at_var_block by apply grp_forward. rewrite P. discriminate. }
  destruct (match_at _ _ _) as [mb|] eqn:Mb; [|congruence].
  destruct (@search_from_complete _ _ content (Cursor 0 None content None)
              k mb eq_refl Hk Mb) as [m' Hs].
  unfold examined_block, search, start_of. rewrite Hs. simpl. eauto.
Qed.

Lemma string_app_assoc (a b c : string) : (a +++ b) +++ c = a +++ b +++ c.
Proof. induction a; simpl; congruence. Qed.

Lemma string_length_app (a b : string) :
  String.length (a +++ b) = String.length a + String.length b.
Proof. induction a; simpl; congruence. Qed.

Lemma take_app_length (a b : string) : Py.take (String.length a) (a +++ b) = a.
Proof. induction a; simpl; [now destruct b|congruence]. Qed.

Lemma length_take_le n s : String.length (Py.take n s) <= String.length s.
Proof.
  revert s. induction n; intros [|c s]; simpl; try lia.
  specialize (IHn s). lia.
Qed.

Lemma var_block_length_shape name s total :
  var_block_length name s = Some total ->
  exists ws body,
    Py.take total s = "variable" +++ ws +++ quoted name +++ body +++ "}"
    /\ ws <> "" /\ all_chars Py.isspace ws = true
    /\ Py.contains "}" body = false.
Proof.
  unfold var_block_length. cbv zeta.
  destruct (Py.startswith "variable" s) eqn:H1; [|discriminate].
  set (s1 := Py.drop 8 s). set (w := span Py.isspace s1).
  destruct (1 <=? w) eqn:Hw; [|discriminate].
  set (s2 := Py.drop w s1).
  destruct (Py.startswith dq s2) eqn:H2; [|discriminate].
  set (s3 := Py.drop 1 s2).
  destruct (Py.startswith name s3) eqn:H3; [|discriminate].
  set (s4 := Py.drop (String.length name) s3).
  destruct (Py.startswith dq s4) eqn:H4; [|discriminate].
  set (s5 := Py.drop 1 s4).
  destruct (Py.find "}" s5) as [i|] eqn:H5; [|discriminate].
  intros H. assert (Ht : total = 8 + w + 1 + String.length name + 1 + S i)
    by congruence. clear H.
  apply startswith_split in H1, H2, H3, H4.
  change (String.length "variable") with 8 in H1. fold s1 in H1.
  change (String.length dq) with 1 in H2, H4. fold s3 in H2. fold s5 in H4.
  fold s4 in H3.
  destruct (@find_char_split _ _ _ H5) as [E5 N5].
  pose proof (take_drop w s1) as E1. fold s2 in E1.
  exists (Py.take w s1), (Py.take i s5). repeat split.
  - assert (Es : s = ("variable" +++ Py.take w s1 +++ quoted name
                        +++ Py.take i s5 +++ "}") +++ Py.drop (S i) s5).
    { rewrite H1 at 1. rewrite <- E1 at 1. rewrite H2 at 1.
      rewrite H3 at 1. rewrite H4 at 1. rewrite E5 at 1.
      unfold quoted. now rewrite !string_app_assoc. }
    rewrite Es at 1.
    assert (Hl : total = String.length ("variable" +++ Py.take w s1
                   +++ quoted name +++ Py.take i s5 +++ "}")).
    { unfold quoted. rewrite !string_length_app.
      rewrite (@length_take w s1) by apply span_le.
      rewrite (@length_take i s5)
        by (pose proof (@find_char_lt _ _ _ H5); lia).
      subst total. simpl. lia. }
    rewrite Hl. apply take_app_length.
  - intros E. apply Nat.leb_le in Hw.
    pose proof (@length_take w s1 (span_le _ _)) as L. rewrite E in L.
    simpl in L. lia.
  - apply span_all.
  - exact N5.
Qed.

Lemma examined_block_shape name content blk :
  examined_block name content = Some blk ->
  block_of name blk /\ exists pre post, content = pre +++ blk +++ post.
Proof.
  unfold examined_block, search, start_of.
  destruct (search_from _ _ _ _) as [m|] eqn:S; [|discriminate].
  cbn [option_map]. intros [= <-].
  destruct (@search_from_found _ _ content (Cursor 0 None content None) m
              eq_refl S) as (k & Hk & Hm).
  rewrite match_at_var_block in Hm by apply grp_forward.
  rewrite rest_forward in Hm. cbn [rest] in Hm.
  destruct (var_block_length name (Py.drop k content)) as [total|] eqn:L;
    [|discriminate].
  cbn [option_map] in Hm. injection Hm as <-. cbn [group0].
  split.
  - destruct (@var_block_length_shape _ _ _ L) as (ws & body & H).
    now exists ws, body.
  - exists (Py.take k content), (Py.drop total (Py.drop k content)).
    now rewrite !take_drop.
Qed.

(* ================================================================== *)
(** ** Variable validation *)
(* ================================================================== *)

Lemma check_variable_validation_runs self content :
  FS.child (root self) "variables.tf" = Some (File content) ->
  all_plain (findall Pat.dotall Pat.var_blocks content) ->
  runs (check_variable_validation self)
       (flat_map (validation_results_of content)
                 (findall Pat.dotall Pat.var_blocks content))
       (Val tt).
Proof.
  intros Hc Hp. unfold check_variable_validation. rewrite Hc.
  simpl FS.read_text. apply runs_read. apply runs_for_each.
  intros name Hin. rewrite (@search_var_block_plain name content (Hp name Hin)).
  apply runs_read. unfold validation_results_of, examined_block.
  destruct (search Pat.dotall (Pat.var_block_regex name) content) as [m|];
    [|apply runs_ret].
  cbn [option_map]. unfold has_default, mentions_validation.
  destruct (negb _ && negb _); [apply runs_append|apply runs_ret].
Qed.

Lemma append_inv_tail (a b t : string) : a +++ t = b +++ t -> a = b.
Proof.
  revert b. induction a as [|c a IH]; intros [|c' b] H; simpl in H.
  - reflexivity.
  - exfalso. apply (f_equal String.length) in H. simpl in H.
    rewrite string_length_app in H. lia.
  - exfalso. apply (f_equal String.length) in H. simpl in H.
    rewrite string_length_app in H. lia.
  - injection H as -> H. f_equal. now apply IH.
Qed.

Lemma append_inv_head (h a b : string) : h +++ a = h +++ b -> a = b.
Proof. induction h; simpl; intros H; [assumption|]. injection H. auto. Qed.

Lemma validation_failure_inj a b :
  validation_failure a = validation_failure b -> a = b.
Proof.
  unfold validation_failure, result4, quoted. intros H.
  injection H as H. apply append_inv_tail in H.
  now apply append_inv_tail in H.
Qed.

Lemma validation_results_of_in content name r :
  In r (validation_results_of content name) -> r = validation_failure name.
Proof.
  unfold validation_results_of.
  destruct (examined_block name content); [|contradiction].
  destruct (negb _ && negb _); [|contradiction].
  now intros [<-|[]].
Qed.

(** What check_variable_validation looks at: with variables.tf a regular
    file whose found names are free of pattern metacharacters, the rule
    completes and, for every name found by the declaration pattern, the
    name has an examined block, which runs from a header of that name
    through the first closing brace after it; a failing Variable
    Validation result for the name is emitted exactly when that block
    holds neither a default assignment nor the word validation. *)
Lemma variable_validation_by_examined_block (self : IaCValidator)
    (content : string) :
  FS.child (root self) "variables.tf" = Some (File content) ->
  all_plain (findall Pat.dotall Pat.var_blocks content) ->
  exists out,
    runs (check_variable_validation self) out (Val tt)
    /\ (forall r, In r out ->
          exists name, In name (findall Pat.dotall Pat.var_blocks content)
                       /\ r = validation_failure name)
    /\ forall name,
         In name (findall Pat.dotall Pat.var_blocks content) ->
         exists blk,
           examined_block name content = Some blk
           /\ block_of name blk
           /\ (exists pre post, content = pre +++ blk +++ post)
           /\ (In (validation_failure name) out <->
               has_default blk = false /\ mentions_validation blk = false)
           /\ (has_default blk = true -> ~ In (validation_failure name) out).
Proof.
  intros Hc Hp.
  exists (flat_map (validation_results_of content)
            (findall Pat.dotall Pat.var_blocks content)).
  split; [apply check_variable_validation_runs; assumption|].
  split.
  - intros r Hr. apply in_flat_map in Hr. destruct Hr as (name & Hin & Hr).
    exists name. split; [assumption|].
    now apply validation_results_of_in in Hr.
  - intros name Hin. destruct (@found_name_has_block _ _ Hin) as [blk Hb].
    exists blk. destruct (@examined_block_shape _ _ _ Hb) as [Hshape Hpos].
    assert (Hiff : In (validation_failure name)
                     (flat_map (validation_results_of content)
                        (findall Pat.dotall Pat.var_blocks content)) <->
                   has_default blk = false /\ mentions_validation blk = false).
    { split.
      - intros Hr. apply in_flat_map in Hr.
        destruct Hr as (name' & _ & Hr).
        pose proof (@validation_results_of_in _ _ _ Hr) as E.
        apply validation_failure_inj in E. subst name'.
        unfold validation_results_of in Hr. rewrite Hb in Hr.
        destruct (has_default blk), (mentions_validation blk);
          simpl in Hr; try contradiction. now split.
      - intros [Hd Hv]. apply in_flat_map. exists name. split; [assumption|].
        unfold validation_results_of. rewrite Hb, Hd, Hv. now left. }
    split; [exact Hb|]. split; [exact Hshape|]. split; [exact Hpos|].
    split; [exact Hiff|].
    intros Hd Hr. apply Hiff in Hr. destruct Hr as [Hd' _]. congruence.
Qed.

Lemma all_plain_check (names : list string) :
  forallb Pat.plain names = true -> all_plain names.
Proof.
  intros H name Hin. rewrite forallb_forall in H. now apply H.
Qed.

(* ------------------------------------------------------------------ *)
(** A default placed after a closing brace *)

(** C6, at the failing input: variables.tf declares tags with a type
    holding braces, followed by a default.  The declaration has a default
    value, so the claim requires that no Variable Validation result is
    emitted for it; the run records the failing result saying that the
    required variable tags lacks a validation block, because the block
    the rule examines stops at the first closing brace, inside the type,
    before the default. *)
Theorem default_after_brace_is_reported :
  let content := lines tags_lines in
  let n := variables_root tags_lines in
  let flagged := filter is_variable_validation (run_results "." n false) in
  run_outcome "." n false = Val false
  /\ declaration_of "tags" content = Some (Py.join nl tags_lines)
  /\ has_default (Py.join nl tags_lines) = true
  /\ examined_block "tags" content
     = Some ("variable " +++ quoted "tags" +++ " {" +++ nl
               +++ "  type    = object({ env = string }")
  /\ flagged = [validation_failure "tags"]
  /\ passed (validation_failure "tags") = false
  /\ message (validation_failure "tags")
     = "Required variable " +++ quoted "tags" +++ " lacks validation block"
  /\ ~ claimed_validation_rule content (run_results "." n false).
Proof.
  cbv zeta.
  assert (H1 : declaration_of "tags" (lines tags_lines)
               = Some (Py.join nl tags_lines)) by (vm_compute; reflexivity).
  assert (H2 : has_default (Py.join nl tags_lines) = true)
    by (vm_compute; reflexivity).
  assert (H3 : filter is_variable_validation
                 (run_results "." (variables_root tags_lines) false)
               = [validation_failure "tags"]) by (vm_compute; reflexivity).
  split; [vm_compute; reflexivity|].
  split; [exact H1|]. split; [exact H2|].
  split; [vm_compute; reflexivity|].
  split; [exact H3|]. split; [reflexivity|]. split; [reflexivity|].
  intros Hclaim.
  destruct (Hclaim "tags" (Py.join nl tags_lines)) as [_ Hno].
  - vm_compute. now left.
  - exact H1.
  - apply (Hno H2).
    pose proof (proj1 (filter_In is_variable_validation
                         (validation_failure "tags")
                         (run_results "." (variables_root tags_lines) false)))
      as Hf.
    rewrite H3 in Hf. exact (proj1 (Hf (or_introl eq_refl))).
Qed.

(* ================================================================== *)
(** ** Sensitive variables *)
(* ================================================================== *)

Lemma sensitive_result_verdict name blk :
  sensitive_result name blk =
  sensitive_verdict name (mentions_sensitive_true blk).
Proof. reflexivity. Qed.

Lemma check_sensitive_variables_runs self content :
  FS.child (root self) "variables.tf" = Some (File content) ->
  all_plain (sensitive_names content) ->
  runs (check_sensitive_variables self)
       (flat_map (sensitive_results_of content) (sensitive_names content))
       (Val tt).
Proof.
  intros Hc Hp. unfold check_sensitive_variables. rewrite Hc.
  simpl FS.read_text. apply runs_read. apply runs_for_each.
  intros name Hin. rewrite (@search_var_block_plain name content (Hp name Hin)).
  apply runs_read. unfold sensitive_results_of, examined_block.
  destruct (search Pat.dotall (Pat.var_block_regex name) content) as [m|];
    [|apply runs_ret].
  cbn [option_map]. rewrite <- sensitive_result_verdict. apply runs_append.
Qed.

Lemma length_flat_map_le {X} (f : X -> list ValidationResult) (xs : list X) :
  (forall x, List.length (f x) <= 1) ->
  List.length (flat_map f xs) <= List.length xs.
Proof.
  intros H. induction xs as [|x xs IH]; simpl; [lia|].
  rewrite List.length_app. specialize (H x). lia.
Qed.

(** The sub-check in general: one result per found name that has an
    examined block, passing exactly when the block holds both words. *)
Lemma sensitive_results_by_examined_block (self : IaCValidator)
    (content : string) :
  FS.child (root self) "variables.tf" = Some (File content) ->
  all_plain (sensitive_names content) ->
  let out := flat_map (sensitive_results_of content)
                      (sensitive_names content) in
  runs (check_sensitive_variables self) out (Val tt)
  /\ List.length out <= List.length (sensitive_names content)
  /\ (forall name,
        examined_block name content = None ->
        sensitive_results_of content name = [])
  /\ forall name blk,
       examined_block name content = Some blk ->
       block_of name blk
       /\ (exists pre post, content = pre +++ blk +++ post)
       /\ exists r,
            sensitive_results_of content name = [r]
            /\ check_name r = "Sensitive Variable"
            /\ (passed r = true <->
                Py.contains "sensitive" blk = true
                /\ Py.contains "true" blk = true).
Proof.
  intros Hc Hp. cbv zeta.
  split; [now apply check_sensitive_variables_runs|].
  split.
  { apply length_flat_map_le. intros name. unfold sensitive_results_of.
    destruct (examined_block name content); simpl; lia. }
  split.
  { intros name H. unfold sensitive_results_of. now rewrite H. }
  intros name blk Hb.
  destruct (@examined_block_shape _ _ _ Hb) as [Hshape Hpos].
  split; [exact Hshape|]. split; [exact Hpos|].
  exists (sensitive_verdict name (mentions_sensitive_true blk)).
  split; [unfold sensitive_results_of; now rewrite Hb|].
  split; [reflexivity|].
  cbn [sensitive_verdict result3 passed]. unfold mentions_sensitive_true.
  apply andb_true_iff.
Qed.

(* ------------------------------------------------------------------ *)
(** A variable declared not sensitive *)

(** C1, at the failing input: variables.tf declares db_password with
    sensitive = false and nullable = true.  The declaration holds no
    true-valued sensitivity marker, so the claim requires exactly one
    failing Sensitive Variable result; the run records exactly one
    Sensitive Variable result, a passing one whose message says that the
    variable is marked sensitive, because the examined block holds the
    word sensitive and, in another attribute, the word true. *)
Theorem sensitive_false_is_reported_marked :
  let content := lines unmarked_password in
  let n := variables_root unmarked_password in
  let flagged := filter is_sensitive_variable (run_results "." n false) in
  run_outcome "." n false = Val false
  /\ sensitive_names content = ["db_password"]
  /\ declaration_of "db_password" content = Some (Py.join nl unmarked_password)
  /\ has_true_marker (Py.join nl unmarked_password) = false
  /\ flagged = [sensitive_verdict "db_password" true]
  /\ passed (sensitive_verdict "db_password" true) = true
  /\ message (sensitive_verdict "db_password" true)
     = "Variable " +++ quoted "db_password" +++ " is marked sensitive"
  /\ ~ claimed_sensitive_rule content (run_results "." n false).
Proof.
  cbv zeta.
  assert (H1 : declaration_of "db_password" (lines unmarked_password)
               = Some (Py.join nl unmarked_password))
    by (vm_compute; reflexivity).
  assert (H2 : has_true_marker (Py.join nl unmarked_password) = false)
    by (vm_compute; reflexivity).
  assert (H3 : filter is_sensitive_variable
                 (run_results "." (variables_root unmarked_password) false)
               = [sensitive_verdict "db_password" true])
    by (vm_compute; reflexivity).
  split; [vm_compute; reflexivity|].
  split; [vm_compute; reflexivity|].
  split; [exact H1|]. split; [exact H2|].
  split; [exact H3|]. split; [reflexivity|]. split; [reflexivity|].
  intros Hclaim.
  destruct (Hclaim "db_password" (Py.join nl unmarked_password)) as [_ Hno].
  - vm_compute. now left.
  - exact H1.
  - apply Hno. rewrite H2.
    pose proof (proj1 (filter_In is_sensitive_variable
                         (sensitive_verdict "db_password" true)
                         (run_results "." (variables_root unmarked_password)
                            false)))
      as Hf.
    rewrite H3 in Hf. exact (proj1 (Hf (or_introl eq_refl))).
Qed.

(* ================================================================== *)
(** ** How the matcher runs on the sensitive-name pattern *)
(* ================================================================== *)

Lemma lower_char_quote c :
  Ascii.eqb (Py.lower_char c) Pat.quote = Ascii.eqb c Pat.quote.
Proof. destruct c as [[] [] [] [] [] [] [] []]; reflexivity. Qed.

Lemma lower_char_brace c :
  Ascii.eqb (Py.lower_char c) "}" = Ascii.eqb c "}".
Proof. destruct c as [[] [] [] [] [] [] [] []]; reflexivity. Qed.

Lemma chr_eq_quote fl c : chr_eq fl Pat.quote c = Ascii.eqb c Pat.quote.
Proof.
  unfold chr_eq. destruct (IGNORECASE fl); [|reflexivity].
  apply lower_char_quote.
Qed.

Lemma chr_eq_brace fl c : chr_eq fl "}" c = Ascii.eqb c "}".
Proof.
  unfold chr_eq. destruct (IGNORECASE fl); [|reflexivity].
  apply lower_char_brace.
Qed.

Lemma exec_Lit_ci fl s : forall cur k,
  IGNORECASE fl = true ->
  exec fl (Lit s) cur k =
  if startswith_ci s (rest cur) then k (forward (String.length s) cur)
  else None.
Proof.
  induction s as [|c s IH]; intros cur k Hic; cbn [Lit exec startswith_ci].
  - reflexivity.
  - destruct (rest cur) as [|c' r'] eqn:E; [reflexivity|].
    unfold chr_eq. rewrite Hic.
    destruct (Ascii.eqb (Py.lower_char c') (Py.lower_char c));
      cbn [andb]; [|reflexivity].
    rewrite IH by assumption. cbn [rest step String.length forward].
    now rewrite (next_step _ E).
Qed.

Lemma exec_quote_any fl cur k :
  exec fl Pat.q cur k =
  if Py.startswith dq (rest cur) then k (next cur) else None.
Proof.
  unfold Pat.q. rewrite exec_Chr, startswith_dq.
  destruct (rest cur); [reflexivity|]. now rewrite chr_eq_quote.
Qed.

Lemma quote_outside fl cs :
  in_cset fl cs Pat.quote = false ->
  forall c, chr_eq fl Pat.quote c = true -> in_cset fl cs c = false.
Proof.
  intros H c Hc. rewrite chr_eq_quote in Hc. apply Ascii.eqb_eq in Hc.
  now subst c.
Qed.

Lemma lazy_to_brace_any fl s : forall cur,
  DOTALL fl = true ->
  rest cur = s ->
  star_from fl false CDot (fun c => exec fl (Chr "}") c Some) s cur =
  match Py.find "}" s with
  | Some i => Some (forward (S i) cur)
  | None => None
  end.
Proof.
  induction s as [|c s IH]; intros cur Hd E; cbn [star_from].
  - rewrite exec_Chr, E. reflexivity.
  - assert (N : next cur = step c s cur) by (unfold next; now rewrite E).
    cbn [in_cset]. rewrite Hd. cbn [orb]. rewrite exec_Chr, E.
    rewrite chr_eq_brace. rewrite find_char_cons.
    rewrite (Ascii.eqb_sym "}" c).
    destruct (Ascii.eqb c "}") eqn:Hc; cbn [orelse].
    + reflexivity.
    + rewrite IH by auto. cbn [forward]. rewrite N.
      destruct (Py.find "}" s); reflexivity.
Qed.

Lemma exec_to_closing_brace_any fl cur :
  DOTALL fl = true ->
  exec fl Pat.to_closing_brace cur Some =
  match Py.find "}" (rest cur) with
  | Some i => Some (forward (S i) cur)
  | None => None
  end.
Proof.
  intros Hd. unfold Pat.to_closing_brace. cbn [exec].
  now apply lazy_to_brace_any.
Qed.

Lemma after_group_chr fl p0 k fin :
  after_group fl p0 k fin =
  exec fl (Chr Pat.quote) fin
       (fun c => k (set_grp (Some (p0, pos c - 1)) c)).
Proof.
  unfold after_group. rewrite exec_Chr_set_grp, !exec_Chr.
  destruct (rest fin) as [|c s'] eqn:E; [reflexivity|].
  destruct (chr_eq fl Pat.quote c); [|reflexivity].
  replace (pos (next fin) - 1) with (pos fin); [reflexivity|].
  unfold next. rewrite E. simpl. lia.
Qed.

(** The second [^\x22]* of the group runs to the end of the run. *)
Lemma run_then_after_group fl p0 k s cur :
  rest cur = s ->
  star_from fl true (CNot Pat.quote) (after_group fl p0 k) s cur =
  after_group fl p0 k (end_of_run cur).
Proof.
  intros E. unfold end_of_run. rewrite E.
  rewrite (@star_from_ext fl true (CNot Pat.quote) (after_group fl p0 k)
             (fun f => exec fl (Chr Pat.quote) f
                         (fun c => k (set_grp (Some (p0, pos c - 1)) c))))
    by (intros c; apply after_group_chr).
  rewrite star_greedy_then_chr; [|now apply quote_outside|assumption].
  now rewrite after_group_chr.
Qed.

Lemma span_skip n : forall s,
  all_chars not_quote (Py.take n s) = true ->
  n <= String.length s ->
  span not_quote s = n + span not_quote (Py.drop n s).
Proof.
  induction n as [|n IH]; intros s Hall Hn.
  - now destruct s.
  - destruct s as [|c s]; [simpl in Hn; lia|].
    cbn [Py.take all_chars] in Hall. apply andb_prop in Hall.
    destruct Hall as [Hc Hall]. cbn [span Py.drop]. rewrite Hc.
    rewrite (IH s Hall) by (simpl in Hn; lia). reflexivity.
Qed.

(** A word matched up to case is made of non-quote characters when its
    own characters are. *)
Lemma startswith_ci_run w : forall s,
  all_chars (fun x => negb (Ascii.eqb (Py.lower_char x) Pat.quote)) w = true ->
  startswith_ci w s = true ->
  all_chars not_quote (Py.take (String.length w) s) = true
  /\ String.length w <= String.length s.
Proof.
  induction w as [|a w IH]; intros s Hw H.
  - split; [now destruct s|simpl; lia].
  - destruct s as [|b s]; [discriminate|].
    cbn [startswith_ci] in H. apply andb_prop in H. destruct H as [Hb H].
    cbn [all_chars] in Hw. apply andb_prop in Hw. destruct Hw as [Ha Hw].
    destruct (IH s Hw H) as [IH1 IH2].
    cbn [String.length Py.take all_chars]. split; [|simpl; lia].
    rewrite IH1, andb_true_r. unfold not_quote.
    apply Ascii.eqb_eq in Hb. rewrite <- lower_char_quote, Hb. exact Ha.
Qed.

Lemma end_of_run_after_word w cur :
  all_chars (fun x => negb (Ascii.eqb (Py.lower_char x) Pat.quote)) w = true ->
  startswith_ci w (rest cur) = true ->
  end_of_run (forward (String.length w) cur) = end_of_run cur.
Proof.
  intros Hw H. destruct (@startswith_ci_run _ _ Hw H) as [Hall Hlen].
  unfold end_of_run. rewrite rest_forward, <- forward_add.
  now rewrite <- (@span_skip _ _ Hall Hlen).
Qed.

Lemma exec_word_then_run fl p0 k w cur :
  IGNORECASE fl = true ->
  all_chars (fun x => negb (Ascii.eqb (Py.lower_char x) Pat.quote)) w = true ->
  exec fl (Lit w) cur
    (fun c => exec fl Pat.not_quote_star c (after_group fl p0 k)) =
  if startswith_ci w (rest cur) then after_group fl p0 k (end_of_run cur)
  else None.
Proof.
  intros Hic Hw. rewrite exec_Lit_ci by assumption.
  destruct (startswith_ci w (rest cur)) eqn:H; [|reflexivity].
  unfold Pat.not_quote_star. cbn [exec].
  rewrite run_then_after_group by reflexivity.
  now rewrite end_of_run_after_word.
Qed.

(** (?:password|secret|key)[^\x22]* and what follows the group. *)
Lemma exec_keyword_then_run fl p0 k cur :
  IGNORECASE fl = true ->
  exec fl (Seq Pat.secret_word Pat.not_quote_star) cur (after_group fl p0 k) =
  if keyword_at (rest cur) then after_group fl p0 k (end_of_run cur)
  else None.
Proof.
  intros Hic. unfold Pat.secret_word, keyword_at.
  change (exec fl (Seq (Alt (Lit "password") (Alt (Lit "secret") (Lit "key")))
                       Pat.not_quote_star) cur (after_group fl p0 k))
    with (orelse
            (exec fl (Lit "password") cur
               (fun c => exec fl Pat.not_quote_star c (after_group fl p0 k)))
            (fun _ =>
               orelse
                 (exec fl (Lit "secret") cur
                    (fun c => exec fl Pat.not_quote_star c
                                (after_group fl p0 k)))
                 (fun _ =>
                    exec fl (Lit "key") cur
                      (fun c => exec fl Pat.not_quote_star c
                                  (after_group fl p0 k))))).
  rewrite !exec_word_then_run by (assumption || reflexivity).
  destruct (startswith_ci "password" (rest cur)),
           (startswith_ci "secret" (rest cur)),
           (startswith_ci "key" (rest cur));
    cbn [orb orelse];
    destruct (after_group fl p0 k (end_of_run cur)); reflexivity.
Qed.

Lemma keyword_at_quote s :
  keyword_at (String Pat.quote s) = false.
Proof. reflexivity. Qed.

(** The first [^\x22]* of the group backs off until a word starts; every
    choice ends at the same place. *)
Lemma exec_run_keyword_run fl p0 k s : forall cur,
  IGNORECASE fl = true ->
  rest cur = s ->
  star_from fl true (CNot Pat.quote)
    (fun c => exec fl (Seq Pat.secret_word Pat.not_quote_star) c
                (after_group fl p0 k)) s cur =
  if keyword_in_run s then after_group fl p0 k (end_of_run cur) else None.
Proof.
  induction s as [|c s IH]; intros cur Hic E;
    cbn [star_from keyword_in_run].
  - rewrite exec_keyword_then_run by assumption. rewrite E. reflexivity.
  - change (in_cset fl (CNot Pat.quote) c) with (not_quote c).
    rewrite exec_keyword_then_run by assumption. rewrite E.
    destruct (not_quote c) eqn:Hc; [|reflexivity].
    rewrite IH by auto.
    assert (Hend : end_of_run (step c s cur) = end_of_run cur).
    { unfold end_of_run. rewrite E. cbn [rest step span]. rewrite Hc.
      cbn [forward]. now rewrite (next_step _ E). }
    rewrite Hend.
    destruct (keyword_in_run s), (keyword_at (String c s));
      cbn [orb orelse];
      destruct (after_group fl p0 k (end_of_run cur)); reflexivity.
Qed.

Lemma exec_Lit_ci_seq fl s r cur k :
  IGNORECASE fl = true ->
  exec fl (Seq (Lit s) r) cur k =
  if startswith_ci s (rest cur)
  then exec fl r (forward (String.length s) cur) k else None.
Proof. intros H. cbn [exec]. now rewrite exec_Lit_ci. Qed.

Lemma exec_quote_seq_any fl r cur k :
  exec fl (Seq Pat.q r) cur k =
  if Py.startswith dq (rest cur) then exec fl r (forward 1 cur) k else None.
Proof. cbn [exec]. now rewrite exec_quote_any. Qed.

Lemma exec_spaces_quote_seq_any fl r cur k :
  exec fl (Seq Pat.ws_plus (Seq Pat.q r)) cur k =
  if 1 <=? span Py.isspace (rest cur)
  then exec fl (Seq Pat.q r) (forward (span Py.isspace (rest cur)) cur) k
  else None.
Proof.
  change (exec fl (Seq Pat.ws_plus (Seq Pat.q r)) cur k)
    with (exec fl (Plus true CSpace) cur
            (fun c => exec fl (Chr Pat.quote) c (fun c' => exec fl r c' k))).
  rewrite plus_greedy_then_chr by (now apply quote_outside).
  reflexivity.
Qed.

Lemma next_set_grp g cur : next (set_grp g cur) = set_grp g (next cur).
Proof. unfold next, set_grp. cbn [rest]. now destruct (rest cur). Qed.

Lemma exec_sensitive_group_seq fl r cur k :
  IGNORECASE fl = true ->
  exec fl (Seq (Grp (Seq Pat.not_quote_star
                       (Seq Pat.secret_word Pat.not_quote_star)))
               (Seq Pat.q r)) cur k =
  if keyword_in_run (rest cur) then
    let fin := end_of_run cur in
    if Py.startswith dq (rest fin)
    then exec fl r (set_grp (Some (pos cur, pos fin)) (forward 1 fin)) k
    else None
  else None.
Proof.
  intros Hic.
  change (exec fl (Seq (Grp (Seq Pat.not_quote_star
                               (Seq Pat.secret_word Pat.not_quote_star)))
                       (Seq Pat.q r)) cur k)
    with (star_from fl true (CNot Pat.quote)
            (fun c => exec fl (Seq Pat.secret_word Pat.not_quote_star) c
                        (after_group fl (pos cur) (fun m => exec fl r m k)))
            (rest cur) cur).
  rewrite exec_run_keyword_run by auto.
  destruct (keyword_in_run (rest cur)); [|reflexivity]. cbv zeta.
  unfold after_group. fold Pat.q. rewrite exec_quote_any, rest_set_grp.
  destruct (Py.startswith dq (rest (end_of_run cur))); [|reflexivity].
  now rewrite next_set_grp.
Qed.

Lemma exec_sensitive_vars cur :
  exec Pat.dotall_ignorecase Pat.sensitive_vars cur Some =
  option_map
    (fun parts =>
       let '(off, n, total) := parts in
       set_grp (Some (pos cur + off, pos cur + off + n)) (forward total cur))
    (sensitive_parts (rest cur)).
Proof.
  unfold Pat.sensitive_vars, sensitive_parts. cbn [Pat.seq]. cbv zeta.
  rewrite exec_Lit_ci_seq by reflexivity. same_test. cbn [String.length].
  rewrite exec_spaces_quote_seq_any. norm_drops.
  set (w := span Py.isspace (Py.drop 8 (rest cur))). same_test.
  rewrite exec_quote_seq_any. norm_drops. same_test.
  rewrite exec_sensitive_group_seq by reflexivity. unfold end_of_run.
  cbv zeta. norm_drops. same_test.
  set (n := span not_quote (Py.drop (8 + w + 1) (rest cur))). same_test.
  rewrite exec_to_closing_brace_any by reflexivity.
  rewrite rest_set_grp. norm_drops.
  destruct (Py.find "}" _) as [i|]; [|reflexivity].
  cbn [option_map]. rewrite forward_set_grp, !pos_forward.
  rewrite <- !forward_add. f_equal.
  f_equal; [f_equal; f_equal; lia|f_equal; lia].
Qed.

Lemma match_at_sensitive_vars cur :
  match_at Pat.dotall_ignorecase Pat.sensitive_vars cur =
  option_map
    (fun parts =>
       let '(off, n, total) := parts in
       Match (pos cur) (pos cur + total) (Py.take total (rest cur))
             (Some (Py.take n (Py.drop off (rest cur)))))
    (sensitive_parts (rest cur)).
Proof.
  unfold match_at. rewrite exec_sensitive_vars.
  destruct (sensitive_parts (rest cur)) as [[[off n] total]|];
    [|reflexivity].
  cbn [option_map set_grp pos grp]. rewrite pos_forward.
  unfold Py.slice.
  replace (pos cur + total - pos cur) with total by lia.
  replace (pos cur + off + n - pos cur - (pos cur + off - pos cur))
    with n by lia.
  replace (pos cur + off - pos cur) with off by lia. reflexivity.
Qed.

(* ================================================================== *)
(** ** A file declaring db_password alone *)
(* ================================================================== *)

Lemma find_char_app c a b :
  Py.contains (String c "") a = false ->
  Py.find (String c "") (a +++ String c b) = Some (String.length a).
Proof.
  unfold Py.contains. induction a as [|x a IH]; intros H.
  - cbn [String.append]. rewrite find_char_cons, Ascii.eqb_refl. reflexivity.
  - cbn [String.append String.length]. rewrite find_char_cons in *.
    destruct (Ascii.eqb c x); [discriminate|].
    destruct (Py.find (String c "") a) as [j|] eqn:F; [discriminate|].
    rewrite IH by reflexivity. reflexivity.
Qed.

Lemma sensitive_parts_password t :
  sensitive_parts (password_header +++ t) =
  match Py.find "}" (String " " (String "{" t)) with
  | Some i => Some (10, 11, 22 + S i)
  | None => None
  end.
Proof. reflexivity. Qed.

Lemma var_block_length_password t :
  var_block_length "db_password" (password_header +++ t) =
  match Py.find "}" (String " " (String "{" t)) with
  | Some i => Some (22 + S i)
  | None => None
  end.
Proof. reflexivity. Qed.

Lemma find_brace_after_header body post :
  Py.contains "}" body = false ->
  Py.find "}" (String " " (String "{" (body +++ String "}" post))) =
  Some (2 + String.length body).
Proof.
  intros H. rewrite !find_char_cons. cbn [Ascii.eqb Bool.eqb].
  rewrite (@find_char_app "}" body post H). reflexivity.
Qed.

Lemma finditer_from_none fl r s : forall cur skip,
  rest cur = s ->
  (forall k, skip <= k -> k <= String.length s ->
             match_at fl r (forward k cur) = None) ->
  finditer_from fl r s cur skip = [].
Proof.
  induction s as [|c s IH]; intros cur skip E H.
  - destruct skip; cbn [finditer_from]; [|reflexivity].
    pose proof (H 0 (le_n 0) (le_n 0)) as H0. cbn [forward] in H0.
    now rewrite H0.
  - assert (Hrec : forall skip',
              (forall k, skip' <= k -> k <= String.length s ->
                         match_at fl r (forward (S k) cur) = None) ->
              finditer_from fl r s (step c s cur) skip' = []).
    { intros skip' H'. apply IH; [reflexivity|].
      intros k Hk1 Hk2. rewrite <- (next_step _ E). now apply H'. }
    destruct skip as [|skip]; cbn [finditer_from].
    + assert (H0 : match_at fl r cur = None)
        by (apply (H 0); simpl; lia).
      rewrite H0. apply Hrec.
      intros k _ Hk. apply H; simpl; lia.
    + apply Hrec. intros k Hk1 Hk2. apply H; simpl; lia.
Qed.

(** One match, and nothing matching from its end on. *)
Lemma finditer_from_single fl r s cur m :
  rest cur = s ->
  match_at fl r cur = Some m ->
  1 <= m_end m - m_start m ->
  (forall k, m_end m - m_start m <= k -> k <= String.length s ->
             match_at fl r (forward k cur) = None) ->
  finditer_from fl r s cur 0 = [m].
Proof.
  intros E Hm Hlen Hnone. destruct s as [|c s]; cbn [finditer_from];
    rewrite Hm; [reflexivity|].
  f_equal. apply finditer_from_none; [reflexivity|].
  intros k Hk1 Hk2. rewrite <- (next_step _ E).
  change (forward k (next cur)) with (forward (S k) cur).
  apply Hnone; simpl; lia.
Qed.

Lemma search_from_here fl r s cur m :
  match_at fl r cur = Some m -> search_from fl r s cur = Some m.
Proof. intros H. destruct s; cbn [search_from]; now rewrite H. Qed.

Lemma single_password_file_split body :
  single_password_file body = password_block_text body +++ nl.
Proof.
  unfold single_password_file, password_block_text.
  now rewrite !string_app_assoc.
Qed.

Lemma length_password_block_text body :
  String.length (password_block_text body) = 25 + String.length body.
Proof.
  unfold password_block_text. rewrite !string_length_app. simpl. lia.
Qed.

Lemma drop_all_app a b n :
  Py.drop (String.length a + n) (a +++ b) = Py.drop n b.
Proof. induction a; simpl; auto. Qed.

Lemma flat_map_single {X Y} (f : X -> list Y) (x : X) :
  flat_map f [x] = f x.
Proof. simpl. apply app_nil_r. Qed.

Section SinglePassword.

Variable body : string.
Hypothesis no_brace : Py.contains "}" body = false.

Let content : string := single_password_file body.
Let total : nat := 25 + String.length body.

Lemma sensitive_parts_single :
  sensitive_parts content = Some (10, 11, total).
Proof.
  unfold content, single_password_file. rewrite sensitive_parts_password.
  change ("}" +++ nl) with (String "}" nl).
  rewrite (@find_brace_after_header body nl no_brace). unfold total.
  do 2 f_equal.
Qed.

Lemma var_block_length_single :
  var_block_length "db_password" content = Some total.
Proof.
  unfold content, single_password_file. rewrite var_block_length_password.
  change ("}" +++ nl) with (String "}" nl).
  rewrite (@find_brace_after_header body nl no_brace). unfold total.
  f_equal.
Qed.

Lemma take_total_content : Py.take total content = password_block_text body.
Proof.
  unfold content, total. rewrite single_password_file_split.
  rewrite <- length_password_block_text. apply take_app_length.
Qed.

Lemma drop_past_block n :
  Py.drop (total + n) content = Py.drop n nl.
Proof.
  unfold content, total. rewrite single_password_file_split.
  rewrite <- length_password_block_text. apply drop_all_app.
Qed.

Lemma length_content : String.length content = total + 1.
Proof.
  unfold content, total. rewrite single_password_file_split.
  rewrite string_length_app, length_password_block_text. reflexivity.
Qed.

Lemma sensitive_names_single : sensitive_names content = ["db_password"].
Proof.
  unfold sensitive_names, findall, finditer.
  rewrite (@finditer_from_single _ _ content (Cursor 0 None content None)
             (Match 0 total (Py.take total content) (Some "db_password"))).
  - reflexivity.
  - reflexivity.
  - rewrite match_at_sensitive_vars. cbn [rest pos].
    rewrite sensitive_parts_single. reflexivity.
  - cbn [m_end m_start]. unfold total. lia.
  - cbn [m_end m_start]. rewrite Nat.sub_0_r. intros k Hk1 Hk2.
    rewrite length_content in Hk2.
    rewrite match_at_sensitive_vars, rest_forward. cbn [rest].
    replace k with (total + (k - total)) by lia.
    rewrite drop_past_block.
    assert (Hk : k - total = 0 \/ k - total = 1) by lia.
    destruct Hk as [-> | ->]; reflexivity.
Qed.

Lemma examined_block_single :
  examined_block "db_password" content = Some (password_block_text body).
Proof.
  unfold examined_block, search, start_of.
  rewrite (@search_from_here _ _ content (Cursor 0 None content None)
             (Match 0 total (Py.take total content) None)).
  - cbn [option_map group0]. now rewrite take_total_content.
  - rewrite match_at_var_block by reflexivity. cbn [rest pos].
    now rewrite var_block_length_single.
Qed.

Lemma check_sensitive_variables_single self :
  FS.child (root self) "variables.tf" = Some (File content) ->
  runs (check_sensitive_variables self)
       [sensitive_verdict "db_password"
          (mentions_sensitive_true (password_block_text body))]
       (Val tt).
Proof.
  intros Hc.
  assert (Hp : all_plain (sensitive_names content)).
  { rewrite sensitive_names_single. intros name [<-|[]]. reflexivity. }
  pose proof (@check_sensitive_variables_runs self content Hc Hp) as H.
  assert (E : flat_map (sensitive_results_of content) (sensitive_names content)
              = [sensitive_verdict "db_password"
                   (mentions_sensitive_true (password_block_text body))]).
  { rewrite sensitive_names_single, flat_map_single.
    unfold sensitive_results_of. now rewrite examined_block_single. }
  rewrite E in H. exact H.
Qed.

End SinglePassword.

Lemma contains_middle sub a b : Py.contains sub (a +++ sub +++ b) = true.
Proof.
  unfold Py.contains. induction a as [|x a IH].
  - cbn [String.append]. destruct (sub +++ b) eqn:E;
      cbn [Py.find]; rewrite <- E, startswith_app; reflexivity.
  - cbn [String.append Py.find].
    destruct (Py.startswith sub (String x (a +++ sub +++ b)));
      [reflexivity|].
    destruct (Py.find sub (a +++ sub +++ b)); [reflexivity|discriminate].
Qed.

Lemma contains_char_app c a b :
  Py.contains (String c "") (a +++ b) =
  Py.contains (String c "") a || Py.contains (String c "") b.
Proof.
  unfold Py.contains. induction a as [|x a IH].
  - reflexivity.
  - cbn [String.append]. rewrite !find_char_cons.
    destruct (Ascii.eqb c x); [reflexivity|].
    destruct (Py.find (String c "") (a +++ b)),
             (Py.find (String c "") a),
             (Py.find (String c "") b); simpl in *; congruence.
Qed.

Lemma marked_block_mentions body :
  mentions_sensitive_true (password_block_text (body +++ marker_line)) = true.
Proof.
  unfold mentions_sensitive_true, password_block_text, marker_line.
  apply andb_true_intro. split.
  - replace (password_header +++ (body +++ "  sensitive = true" +++ nl) +++ "}")
      with ((password_header +++ body +++ "  ") +++ "sensitive"
              +++ (" = true" +++ nl +++ "}"))
      by (now rewrite !string_app_assoc).
    apply contains_middle.
  - replace (password_header +++ (body +++ "  sensitive = true" +++ nl) +++ "}")
      with ((password_header +++ body +++ "  sensitive = ") +++ "true"
              +++ (nl +++ "}"))
      by (now rewrite !string_app_assoc).
    apply contains_middle.
Qed.

Lemma marked_body_no_brace body :
  Py.contains "}" body = false ->
  Py.contains "}" (body +++ marker_line) = false.
Proof. intros H. now rewrite contains_char_app, H. Qed.

(** What the Sensitive Variable sub-check looks at: with variables.tf a
    regular file whose sensitive names are free of pattern
    metacharacters, it emits, for each name found by the sensitive-name
    pattern, in order, one result when the name has an examined block and
    none otherwise; the examined block runs from a header of that name
    through the first closing brace after it, and the result passes
    exactly when that block holds both the word sensitive and the word
    true.  For variables.tf holding the single block of db_password with a
    brace-free body, one result is emitted, and with the line
    sensitive = true added to the body it is a passing one. *)
Lemma sensitive_variable_by_examined_block :
  (forall (self : IaCValidator) (content : string),
     FS.child (root self) "variables.tf" = Some (File content) ->
     all_plain (sensitive_names content) ->
     let out := flat_map (sensitive_results_of content)
                         (sensitive_names content) in
     runs (check_sensitive_variables self) out (Val tt)
     /\ List.length out <= List.length (sensitive_names content)
     /\ (forall name,
           examined_block name content = None ->
           sensitive_results_of content name = [])
     /\ forall name blk,
          examined_block name content = Some blk ->
          block_of name blk
          /\ (exists pre post, content = pre +++ blk +++ post)
          /\ exists r,
               sensitive_results_of content name = [r]
               /\ check_name r = "Sensitive Variable"
               /\ (passed r = true <->
                   Py.contains "sensitive" blk = true
                   /\ Py.contains "true" blk = true))
  /\ (forall (before after : IaCValidator) (body : string),
        Py.contains "}" body = false ->
        FS.child (root before) "variables.tf" =
          Some (File (single_password_file body)) ->
        FS.child (root after) "variables.tf" =
          Some (File (single_password_file (body +++ marker_line))) ->
        runs (check_sensitive_variables before)
             [sensitive_verdict "db_password"
                (Py.contains "sensitive" (password_block_text body)
                 && Py.contains "true" (password_block_text body))]
             (Val tt)
        /\ runs (check_sensitive_variables after)
                [sensitive_verdict "db_password" true] (Val tt)).
Proof.
  split.
  - intros self content. apply sensitive_results_by_examined_block.
  - intros before after body Hb H1 H2. split.
    + now apply check_sensitive_variables_single.
    + pose proof (@check_sensitive_variables_single (body +++ marker_line)
                    (marked_body_no_brace body Hb) after H2) as H.
      rewrite marked_block_mentions in H. exact H.
Qed.


(* ================================================================== *)
(** ** The verdict of a run *)
(* ================================================================== *)

Lemma count_passed_le rs : count_passed rs <= List.length rs.
Proof. unfold count_passed. apply filter_length_le. Qed.

Lemma no_failure_all_passed rs :
  (List.length rs - count_passed rs =? 0) = forallb passed rs.
Proof.
  induction rs as [|r rs IH]; [reflexivity|].
  pose proof (count_passed_le rs) as Hle.
  unfold count_passed in *. cbn [filter forallb]. destruct (passed r).
  - cbn [List.length andb]. rewrite <- IH. reflexivity.
  - cbn [andb]. apply Nat.eqb_neq. cbn [List.length]. lia.
Qed.

Lemma run_results_nonempty p n st : run_results p n st <> [].
Proof.
  unfold run_results. rewrite run_all_checks_new. cbv zeta.
  destruct (FS.glob n) as [|f fs]; simpl; [discriminate|].
  destruct (log_all_checks_head (mkValidator p n st [] (f :: fs)))
    as [more ->].
  discriminate.
Qed.

Lemma generate_report_nonempty v :
  results v <> [] -> exists s, generate_report v = Val s.
Proof.
  intros H. unfold generate_report.
  destruct (results v); [congruence|]. simpl. eauto.
Qed.

Lemma run_outcome_val p n st b :
  run_outcome p n st = Val b -> b = forallb passed (run_results p n st).
Proof.
  unfold run_outcome, run_results. rewrite run_all_checks_new. cbv zeta.
  destruct (FS.glob n) as [|f fs]; simpl.
  - now intros [= <-].
  - destruct (outcome _) as [[]| |]; try discriminate.
    intros [= <-]. apply no_failure_all_passed.
Qed.

Lemma main_exit_code p st rep n :
  exit_code (main (mkArgs p st rep) (Some n)) =
  match run_outcome p n st with
  | Val b => Some (if b then 0 else 1)
  | Exc _ => Some 2
  | Uncovered => None
  end.
Proof.
  pose proof (@run_results_nonempty p n st) as Hne.
  unfold main, run_outcome, run_results in *.
  simpl arg_path. simpl arg_strict. simpl arg_report.
  destruct (run_all_checks (new_validator p n st)) as [v [b|e|]];
    simpl in *; try reflexivity.
  destruct rep; [|reflexivity].
  destruct (@generate_report_nonempty v Hne) as [s ->]. reflexivity.
Qed.

(** X1. run_all_checks returns True exactly when no recorded result
    failed.  main exits with 0 in that case, with 1 when some result
    failed and with 2 when a check raised.  The summary of a requested
    report is always computed without an exception, so that, the report
    file being writable, asking for a report does not change the exit
    code. *)
Theorem verdict_and_exit_code (p : string) (n : node) (st rep : bool) :
  let code := exit_code (main (mkArgs p st rep) (Some n)) in
  match run_outcome p n st with
  | Val b =>
      b = forallb passed (run_results p n st)
      /\ code = Some (if forallb passed (run_results p n st) then 0 else 1)
  | Exc _ => code = Some 2
  | Uncovered => code = None
  end.
Proof.
  cbv zeta. rewrite main_exit_code.
  destruct (run_outcome p n st) as [b| |] eqn:E; try reflexivity.
  rewrite <- (@run_outcome_val p n st b E). now split.
Qed.

Lemma run_outcome_empty p n st :
  FS.glob n = [] -> run_outcome p n st = Val false.
Proof.
  intros G. unfold run_outcome. rewrite run_all_checks_new. cbv zeta.
  now rewrite G.
Qed.

(** In a run that returns, every rule ended normally and the results are
    the rules' own results one after the other. *)
Lemma run_results_by_rule p n st b :
  run_outcome p n st = Val b -> FS.glob n <> [] ->
  let self := mkValidator p n st [] (FS.glob n) in
  run_results p n st =
    log (check_file_structure self) ++ log (check_magic_numbers self)
    ++ log (check_string_booleans self)
    ++ log (check_naming_conventions self)
    ++ log (check_documentation self)
    ++ log (check_security_standards self)
    ++ log (check_variable_validation self)
    ++ log (check_output_organization self)
  /\ outcome (check_documentation self) = Val tt
  /\ outcome (check_security_standards self) = Val tt
  /\ outcome (check_variable_validation self) = Val tt.
Proof.
  intros Hrun Hne. cbv zeta.
  rewrite (@run_results_log p n st Hne).
  pose proof (@run_outcome_all_checks p n st b Hrun Hne) as Hout.
  set (self := mkValidator p n st [] (FS.glob n)) in *.
  unfold outcome in Hout. unfold log at 1. rewrite eval_all_checks in *.
  destruct (seq_eval_val_inv _ _ Hout) as (_ & H1 & ->).
  destruct (seq_eval_val_inv _ _ H1) as (_ & H2 & ->).
  destruct (seq_eval_val_inv _ _ H2) as (_ & H3 & ->).
  destruct (seq_eval_val_inv _ _ H3) as (_ & H4 & ->).
  destruct (seq_eval_val_inv _ _ H4) as (H5 & H6 & ->).
  destruct (seq_eval_val_inv _ _ H6) as (H7 & H8 & ->).
  destruct (seq_eval_val_inv _ _ H8) as (H9 & _ & ->).
  unfold log, outcome. now repeat split.
Qed.

(** X2. The results of a run that returns are the results of the eight
    rules in their fixed order (file structure, magic numbers, string
    booleans, naming, documentation, security, variable validation, output
    organization), each rule contributing what it emits when run on its own
    from an empty result list. *)
Theorem results_follow_rule_order (p : string) (n : node) (st b : bool) :
  run_outcome p n st = Val b -> FS.glob n <> [] ->
  let self := mkValidator p n st [] (FS.glob n) in
  run_results p n st =
    log (check_file_structure self) ++ log (check_magic_numbers self)
    ++ log (check_string_booleans self)
    ++ log (check_naming_conventions self)
    ++ log (check_documentation self)
    ++ log (check_security_standards self)
    ++ log (check_variable_validation self)
    ++ log (check_output_organization self).
Proof.
  intros Hrun Hne.
  exact (proj1 (@run_results_by_rule p n st b Hrun Hne)).
Qed.

Lemma results_follow_rule_order_witness :
  let self := mkValidator "." compliant_root false [] (FS.glob compliant_root) in
  run_results "." compliant_root false =
    log (check_file_structure self) ++ log (check_magic_numbers self)
    ++ log (check_string_booleans self)
    ++ log (check_naming_conventions self)
    ++ log (check_documentation self)
    ++ log (check_security_standards self)
    ++ log (check_variable_validation self)
    ++ log (check_output_organization self).
Proof.
  assert (Hrun : run_outcome "." compliant_root false = Val true)
    by (vm_compute; reflexivity).
  assert (Hne : FS.glob compliant_root <> [])
    by (vm_compute; discriminate).
  exact (@results_follow_rule_order "." compliant_root false true Hrun Hne).
Defined.

Lemma forallb_passed_file_structure self :
  forallb passed (file_structure_results self) = true ->
  Forall (fun name => FS.exists_ (FS.child (root self) name) = true)
         ["README.md"; "variables.tf"; "outputs.tf"; ".gitignore";
          "locals_constants.tf"]
  /\ FS.exists_ (FS.child (root self) "versions.tf")
     || FS.exists_ (FS.child (root self) "provider.tf") = true.
Proof.
  unfold file_structure_results, required_files, required_file_result.
  cbn [map app forallb passed result3].
  change (String.eqb "README.md" "versions.tf") with false.
  change (String.eqb "variables.tf" "versions.tf") with false.
  change (String.eqb "outputs.tf" "versions.tf") with false.
  change (String.eqb "versions.tf" "versions.tf") with true.
  change (String.eqb ".gitignore" "versions.tf") with false.
  cbn [andb].
  destruct (FS.exists_ (FS.child (root self) "README.md")) eqn:E1;
    [|discriminate].
  destruct (FS.exists_ (FS.child (root self) "variables.tf")) eqn:E2;
    [|discriminate].
  destruct (FS.exists_ (FS.child (root self) "outputs.tf")) eqn:E3;
    [|discriminate].
  destruct (FS.exists_ (FS.child (root self) ".gitignore")) eqn:E4;
    [|intros H; rewrite andb_false_r in H; discriminate].
  destruct (FS.exists_ (FS.child (root self) "locals_constants.tf")) eqn:E5;
    [|intros H; rewrite !andb_false_r in H; discriminate].
  assert (Hfiles : Forall
            (fun name => FS.exists_ (FS.child (root self) name) = true)
            ["README.md"; "variables.tf"; "outputs.tf"; ".gitignore";
             "locals_constants.tf"])
    by (repeat constructor; assumption).
  destruct (FS.exists_ (FS.child (root self) "versions.tf"));
    cbn [negb andb orb].
  - intros _. split; [exact Hfiles|reflexivity].
  - destruct (FS.exists_ (FS.child (root self) "provider.tf"));
      [|discriminate].
    intros _. split; [exact Hfiles|reflexivity].
Qed.

Lemma documentation_all_passed self :
  outcome (check_documentation self) = Val tt ->
  forallb passed (log (check_documentation self)) = true ->
  FS.exists_ (FS.child (root self) "terraform.tfvars.example") = true
  /\ exists text,
       FS.child (root self) "README.md" = Some (File text)
       /\ Forall (fun keyword => Py.contains keyword (Py.lower text) = true)
                 ["prerequisites"; "quick start"; "configuration"].
Proof.
  unfold outcome, log, eval, check_documentation.
  destruct (FS.child (root self) "README.md") as [[text|es]|];
    [|discriminate|discriminate].
  intros _. unfold required_sections, section_result, example_result.
  cbn [FS.read_text lift bind for_each append ret app fst snd forallb
       passed result3].
  destruct (Py.contains "prerequisites" (Py.lower text)) eqn:E1;
    [|discriminate].
  destruct (Py.contains "quick start" (Py.lower text)) eqn:E2;
    [|discriminate].
  destruct (Py.contains "configuration" (Py.lower text)) eqn:E3;
    [|discriminate].
  destruct (FS.exists_ (FS.child (root self) "terraform.tfvars.example"));
    [|discriminate].
  intros _. split; [reflexivity|]. exists text.
  split; [reflexivity|repeat constructor; assumption].
Qed.

(** X3. main exits with 0 only if the root holds README.md, variables.tf,
    outputs.tf, .gitignore, locals_constants.tf and
    terraform.tfvars.example, holds versions.tf or provider.tf, discovers at
    least one file, and README.md is a regular file whose text mentions
    prerequisites, quick start and configuration in some letter case. *)
Theorem exit_zero_needs_files (p : string) (st rep : bool) (n : node) :
  exit_code (main (mkArgs p st rep) (Some n)) = Some 0 ->
  Forall (fun name => FS.exists_ (FS.child n name) = true) needed_files
  /\ FS.exists_ (FS.child n "versions.tf")
     || FS.exists_ (FS.child n "provider.tf") = true
  /\ FS.glob n <> []
  /\ exists text,
       FS.child n "README.md" = Some (File text)
       /\ Forall (fun keyword => Py.contains keyword (Py.lower text) = true)
                 ["prerequisites"; "quick start"; "configuration"].
Proof.
  rewrite main_exit_code.
  destruct (run_outcome p n st) as [b| |] eqn:Hrun; try discriminate.
  destruct b; [intros _|discriminate].
  assert (Hne : FS.glob n <> []).
  { intros G. rewrite (@run_outcome_empty p n st G) in Hrun. discriminate. }
  pose proof (@run_outcome_val p n st true Hrun) as Hall.
  destruct (@run_results_by_rule p n st true Hrun Hne)
    as (Hres & Hdoc & _).
  cbv zeta in Hres. rewrite Hres in Hall. symmetry in Hall.
  rewrite !forallb_app in Hall.
  apply andb_prop in Hall. destruct Hall as [Hfs Hall].
  do 3 (apply andb_prop in Hall; destruct Hall as [_ Hall]).
  apply andb_prop in Hall. destruct Hall as [Hd _].
  unfold log in Hfs. rewrite eval_check_file_structure in Hfs.
  destruct (forallb_passed_file_structure _ Hfs) as [Hfiles Hver].
  destruct (documentation_all_passed _ Hdoc Hd) as (Hex & text & Hr & Hkw).
  simpl root in *.
  split; [|split; [exact Hver|split; [exact Hne|exists text; now split]]].
  unfold needed_files.
  repeat match goal with
  | H : Forall _ (_ :: _) |- _ => inversion H; clear H; subst
  end.
  repeat constructor; assumption.
Qed.

Lemma exit_zero_needs_files_witness :
  exit_code (main (mkArgs "." false true) (Some compliant_root)) = Some 0
  /\ FS.exists_ (FS.child compliant_root "versions.tf")
     || FS.exists_ (FS.child compliant_root "provider.tf") = true.
Proof.
  assert (H : exit_code (main (mkArgs "." false true) (Some compliant_root))
              = Some 0) by (vm_compute; reflexivity).
  split; [exact H|].
  exact (proj1 (proj2 (@exit_zero_needs_files "." false true compliant_root H))).
Defined.

(* ================================================================== *)
(** ** Which results can pass *)
(* ================================================================== *)

Ltac fails_step :=
  match goal with
  | |- adds _ (bind _ _) => apply adds_bind; [| intros ?]
  | |- adds _ (for_each _ _) => apply adds_for_each; intros ? ?
  | |- adds _ (when _ _) => apply adds_when
  | |- adds _ (append _) =>
      apply adds_append;
      first [ intros _; reflexivity
            | intros Hp; exfalso; revert Hp; apply Bool.diff_false_true ]
  | |- adds _ (ret _) => apply adds_ret
  | |- adds _ (lift _) => apply adds_lift
  | |- adds _ (if ?b then _ else _) => destruct b
  | |- adds _ (let (_, _) := ?x in _) => destruct x
  | |- adds _ (match ?x with _ => _ end) => destruct x
  end.

Ltac fails_auto := repeat fails_step.

Lemma check_file_structure_passing self :
  adds (fails_unless_named passing_names) (check_file_structure self).
Proof.
  unfold check_file_structure, required_files. simpl for_each. fails_auto.
Qed.

Lemma check_magic_numbers_passing self :
  adds (fails_unless_named passing_names) (check_magic_numbers self).
Proof. unfold check_magic_numbers. fails_auto. Qed.

Lemma check_string_booleans_passing self :
  adds (fails_unless_named passing_names) (check_string_booleans self).
Proof. unfold check_string_booleans. fails_auto. Qed.

Lemma check_naming_conventions_passing self :
  adds (fails_unless_named passing_names) (check_naming_conventions self).
Proof. unfold check_naming_conventions. fails_auto. Qed.

Lemma check_documentation_passing self :
  adds (fails_unless_named passing_names) (check_documentation self).
Proof.
  unfold check_documentation, required_sections. simpl for_each. fails_auto.
Qed.

Lemma check_security_standards_passing self :
  adds (fails_unless_named passing_names) (check_security_standards self).
Proof.
  unfold check_security_standards, check_sensitive_variables. fails_auto.
Qed.

Lemma check_variable_validation_passing self :
  adds (fails_unless_named passing_names) (check_variable_validation self).
Proof. unfold check_variable_validation. fails_auto. Qed.

Lemma check_output_organization_passing self :
  adds (fails_unless_named passing_names) (check_output_organization self).
Proof. unfold check_output_organization. fails_auto. Qed.

(** X4. In any run, a passing result can only be a Required File result,
    the Constants File result, a README section result, the Example
    Configuration result or a Sensitive Variable result: every Magic
    Number, String Boolean, Variable Naming, Resource Naming, Hardcoded
    Secret, Overly Permissive Security Rule, Variable Validation, Output
    Organization, README.md and File Discovery result is a failing one. *)
Theorem only_listed_checks_can_pass (p : string) (n : node) (st : bool) :
  Forall (fun r => passed r = true ->
                   existsb (String.eqb (check_name r)) passing_names = true)
         (run_results p n st).
Proof.
  change (Forall (fails_unless_named passing_names) (run_results p n st)).
  unfold run_results. rewrite run_all_checks_new. cbv zeta.
  destruct (FS.glob n) as [|f fs]; simpl fst; simpl results.
  - constructor; [|constructor]. intros H. discriminate H.
  - apply all_checks_Forall; apply adds_log.
    + apply check_file_structure_passing.
    + apply check_magic_numbers_passing.
    + apply check_string_booleans_passing.
    + apply check_naming_conventions_passing.
    + apply check_documentation_passing.
    + apply check_security_standards_passing.
    + apply check_variable_validation_passing.
    + apply check_output_organization_passing.
Qed.

(* ================================================================== *)
(** ** A directory among the discovered entries *)
(* ================================================================== *)

Lemma runs_bind_exc {A B} (m : M A) (k : A -> M B) o e :
  runs m o (Exc e) -> runs (bind m k) o (Exc e).
Proof. intros Hm s. unfold bind. now rewrite Hm. Qed.

Lemma stops_bind_first (m k : M unit) :
  stops_at_directory m -> stops_at_directory (m ;; k).
Proof. intros [o H]. exists o. now apply runs_bind_exc. Qed.

Lemma stops_bind_second (m k : M unit) :
  completes m -> stops_at_directory k -> stops_at_directory (m ;; k).
Proof.
  intros [o1 H1] [o2 H2]. exists (o1 ++ o2). eapply runs_bind_val; eauto.
Qed.

Lemma cos_completes m : completes m -> completes_or_stops m.
Proof. now left. Qed.

Lemma cos_bind (m k : M unit) :
  completes_or_stops m -> completes_or_stops k ->
  completes_or_stops (m ;; k).
Proof.
  intros [Hm|Hm] Hk.
  - destruct Hk as [Hk|Hk].
    + left. now apply completes_bind.
    + right. now apply stops_bind_second.
  - right. now apply stops_bind_first.
Qed.

Lemma cos_for_each {X} (xs : list X) (body : X -> M unit) :
  (forall x, In x xs -> completes_or_stops (body x)) ->
  completes_or_stops (for_each xs body).
Proof.
  induction xs as [|x xs IH]; intros H; simpl.
  - left. apply completes_ret.
  - apply cos_bind; [apply H; now left|].
    apply IH. intros y Hy. apply H. now right.
Qed.

(** Reading a discovered entry: a regular file gives its text to what
    follows, a directory raises. *)
Lemma cos_read (n : node) (k : string -> M unit) :
  (forall text, completes (k text)) ->
  completes_or_stops (bind (lift (FS.read_text n)) k).
Proof.
  intros Hk. destruct n as [text|es]; simpl FS.read_text.
  - left. apply completes_read. apply Hk.
  - right. exists []. apply runs_bind_exc. apply runs_lift.
Qed.

Lemma stops_read es (k : string -> M unit) :
  stops_at_directory (bind (lift (FS.read_text (Dir es))) k).
Proof. exists []. apply runs_bind_exc. apply runs_lift. Qed.

Lemma stops_for_each {X} (xs : list X) (body : X -> M unit) x :
  (forall y, In y xs -> completes_or_stops (body y)) ->
  In x xs -> stops_at_directory (body x) ->
  stops_at_directory (for_each xs body).
Proof.
  induction xs as [|y ys IH]; intros Hall Hin Hx; [contradiction|].
  simpl. destruct Hin as [->|Hin].
  - now apply stops_bind_first.
  - destruct (Hall y (or_introl eq_refl)) as [Hy|Hy].
    + apply stops_bind_second; [exact Hy|].
      apply IH; auto. intros z Hz. apply Hall. now right.
    + now apply stops_bind_first.
Qed.

Lemma check_magic_numbers_cos self :
  completes_or_stops (check_magic_numbers self).
Proof.
  unfold check_magic_numbers. apply cos_for_each. intros tf _.
  destruct (String.eqb (FS.name tf) "locals_constants.tf").
  - left. apply completes_ret.
  - apply cos_read. intros text. repeat completes_step.
Qed.

Lemma check_string_booleans_stops self f es :
  In f (tf_files self) -> target f = Dir es ->
  stops_at_directory (check_string_booleans self).
Proof.
  intros Hin Hdir. unfold check_string_booleans.
  apply (@stops_for_each _ _ _ f); [|exact Hin|].
  - intros tf _. apply cos_read. intros text. repeat completes_step.
  - rewrite Hdir. apply stops_read.
Qed.

Lemma stops_eval m :
  stops_at_directory m -> snd (eval m) = Exc IsADirectoryError.
Proof. intros [o H]. unfold eval. now rewrite (H []). Qed.

Lemma seq_eval_stops a b :
  snd a = Exc IsADirectoryError ->
  snd (seq_eval a b) = Exc IsADirectoryError.
Proof. intros H. unfold seq_eval. now rewrite H. Qed.

Lemma seq_eval_after l b : snd (seq_eval (l, Val tt) b) = snd b.
Proof. reflexivity. Qed.

Lemma all_checks_stops self f es :
  In f (tf_files self) -> target f = Dir es ->
  outcome (all_checks self) = Exc IsADirectoryError.
Proof.
  intros Hin Hdir. unfold outcome. rewrite eval_all_checks.
  rewrite eval_check_file_structure, seq_eval_after.
  destruct (check_magic_numbers_cos self) as [Hm|Hm].
  - rewrite (completes_eval Hm), seq_eval_after.
    apply seq_eval_stops. apply stops_eval.
    exact (@check_string_booleans_stops self f es Hin Hdir).
  - apply seq_eval_stops. now apply stops_eval.
Qed.

(** X5. A directory whose name ends in .tf is discovered like a file, and
    reading it raises: whenever some discovered entry is a directory,
    run_all_checks raises IsADirectoryError, main exits with 2, and the
    results recorded up to that point, starting with the six
    file-structure results, are kept. *)
Theorem directory_entry_aborts_run (p : string) (st rep : bool) (n : node)
    (f : tf_file) (es : list (string * node)) :
  In f (FS.glob n) -> target f = Dir es ->
  run_outcome p n st = Exc IsADirectoryError
  /\ exit_code (main (mkArgs p st rep) (Some n)) = Some 2
  /\ exists more,
       run_results p n st =
       file_structure_results (mkValidator p n st [] (FS.glob n)) ++ more.
Proof.
  intros Hin Hdir.
  assert (Hne : FS.glob n <> []) by (intros G; rewrite G in Hin; contradiction).
  assert (Hout : run_outcome p n st = Exc IsADirectoryError).
  { unfold run_outcome. rewrite run_all_checks_new. cbv zeta.
    pose proof (@all_checks_stops (mkValidator p n st [] (FS.glob n)) f es
                  Hin Hdir) as Hs.
    destruct (FS.glob n) as [|g gs]; [congruence|]. simpl snd.
    now rewrite Hs. }
  split; [exact Hout|]. split.
  - rewrite main_exit_code, Hout. reflexivity.
  - rewrite (@run_results_log p n st Hne). apply log_all_checks_head.
Qed.

Lemma directory_entry_aborts_run_witness :
  run_outcome "." module_dir_root false = Exc IsADirectoryError
  /\ exit_code (main (mkArgs "." false false) (Some module_dir_root)) = Some 2.
Proof.
  assert (Hin : In (TfFile ["network.tf"] (Dir [("rules.txt", File "")]))
                   (FS.glob module_dir_root))
    by (vm_compute; right; left; reflexivity).
  pose proof (@directory_entry_aborts_run "." false false module_dir_root
                _ _ Hin eq_refl) as H.
  split; [exact (proj1 H)|exact (proj1 (proj2 H))].
Defined.

(* ================================================================== *)
(** ** The figures of the report *)
(* ================================================================== *)



(* ================================================================== *)
(** ** Rules that look at one line at a time *)
(* ================================================================== *)

Section PerLine.

Variable per_line :
  tf_file -> string -> nat -> string -> list ValidationResult.

Hypothesis placed : forall tf text i line,
  Forall (fun r => at_place (FS.relative_to tf) i r = true)
         (per_line tf text i line).

Lemma per_line_elsewhere tf tf' text i j line :
  FS.relative_to tf' <> FS.relative_to tf \/ j <> i ->
  filter (at_place (FS.relative_to tf) i) (per_line tf' text j line) = [].
Proof.
  intros Hne. apply filter_none.
  eapply Forall_impl; [|apply placed].
  intros r Hr. unfold at_place in *.
  apply andb_prop in Hr. destruct Hr as [Hf Hl].
  apply String.eqb_eq in Hf. apply Nat.eqb_eq in Hl.
  destruct Hne as [Hne|Hne].
  - destruct (String.eqb_spec (file_path r) (FS.relative_to tf));
      [congruence|reflexivity].
  - destruct (Nat.eqb_spec (line_number r) i); [congruence|].
    apply andb_false_r.
Qed.

Lemma file_results_at tf text k line :
  nth_error (Py.split_lines text) k = Some line ->
  filter (at_place (FS.relative_to tf) (S k)) (file_results per_line tf text)
  = per_line tf text (S k) line.
Proof.
  intros Hk. unfold file_results.
  rewrite (@filter_flat_map_unique _ _ fst _ _ (S k, line)).
  - simpl. apply filter_all. apply placed.
  - rewrite enumerate_from_keys. apply seq_NoDup.
  - apply (@enumerate_from_nth _ _ 1 k line Hk).
  - intros [j l] _ Hj. simpl in *. apply per_line_elsewhere. now right.
Qed.

Lemma entry_results_elsewhere tf tf' i :
  FS.relative_to tf' <> FS.relative_to tf ->
  filter (at_place (FS.relative_to tf) i) (entry_results per_line tf') = [].
Proof.
  intros Hne. unfold entry_results.
  destruct (target tf') as [text|]; [|reflexivity].
  unfold file_results. apply filter_flat_map_nil.
  intros [j l] _. apply per_line_elsewhere. now left.
Qed.

(** The results a per-line rule attributes to one line of one discovered
    file are those it emits for that line. *)
Lemma entry_results_at (fs : list tf_file) tf text k line :
  NoDup (map FS.relative_to fs) ->
  In tf fs ->
  target tf = File text ->
  nth_error (Py.split_lines text) k = Some line ->
  filter (at_place (FS.relative_to tf) (S k))
         (flat_map (entry_results per_line) fs)
  = per_line tf text (S k) line.
Proof.
  intros Hnd Hin Htext Hk.
  rewrite (@filter_flat_map_unique _ _ FS.relative_to _ _ tf); auto.
  - unfold entry_results. rewrite Htext. now apply file_results_at.
  - intros y _ Hy. now apply entry_results_elsewhere.
Qed.

End PerLine.

Lemma check_string_booleans_runs self :
  all_regular (tf_files self) ->
  runs (check_string_booleans self)
       (flat_map (entry_results string_boolean_line_results) (tf_files self))
       (Val tt).
Proof.
  intros Hreg. unfold check_string_booleans.
  apply runs_for_each. intros tf Hin. unfold entry_results.
  destruct (Hreg tf Hin) as [text E]. rewrite E. simpl FS.read_text.
  apply runs_read. unfold file_results.
  apply runs_for_each. intros [i line] _. cbn [fst snd].
  unfold string_boolean_line_results.
  eapply runs_bind_val; apply runs_when; apply runs_append.
Qed.

Lemma string_boolean_line_results_placed tf text i line :
  Forall (fun r => at_place (FS.relative_to tf) i r = true)
         (string_boolean_line_results tf text i line).
Proof.
  unfold string_boolean_line_results. apply Forall_app.
  split; [destruct (found no_flags Pat.yes_no line)
         |destruct (found no_flags Pat.true_false line)];
    repeat constructor; unfold at_place; cbn [file_path line_number
      yes_no_result true_false_result];
    now rewrite String.eqb_refl, Nat.eqb_refl.
Qed.

(** X7. For a line of a discovered regular file, check_string_booleans
    records at that line one failing String Boolean result if the yes/no
    membership pattern occurs on the line, followed by one more if the
    true/false membership pattern occurs on it, and nothing else: at most
    two results per line, none when neither pattern occurs. *)
Theorem string_boolean_per_line (self : IaCValidator) (tf : tf_file)
    (text : string) (k : nat) (line : string) :
  all_regular (tf_files self) ->
  NoDup (map FS.relative_to (tf_files self)) ->
  In tf (tf_files self) ->
  target tf = File text ->
  nth_error (Py.split_lines text) k = Some line ->
  outcome (check_string_booleans self) = Val tt
  /\ filter (at_place (FS.relative_to tf) (S k))
            (log (check_string_booleans self)) =
     (if found no_flags Pat.yes_no line
      then [yes_no_result tf (S k)] else [])
     ++ (if found no_flags Pat.true_false line
         then [true_false_result tf (S k)] else []).
Proof.
  intros Hreg Hnd Hin Htext Hk.
  pose proof (@check_string_booleans_runs self Hreg) as Hruns.
  unfold outcome, log, eval. rewrite (Hruns []). cbn [fst snd app].
  split; [reflexivity|].
  exact (@entry_results_at string_boolean_line_results
           string_boolean_line_results_placed (tf_files self) tf text k line
           Hnd Hin Htext Hk).
Qed.

Lemma string_boolean_per_line_witness :
  let self := mkValidator "." string_boolean_root false []
                (FS.glob string_boolean_root) in
  filter (at_place "variables.tf" 3) (log (check_string_booleans self))
  = [yes_no_result string_boolean_file 3].
Proof.
  cbv zeta.
  assert (Hreg : all_regular (FS.glob string_boolean_root))
    by (apply all_regular_check; vm_compute; reflexivity).
  assert (Hnd : NoDup (map FS.relative_to (FS.glob string_boolean_root)))
    by (apply NoDup_check; vm_compute; reflexivity).
  assert (Hin : In string_boolean_file (FS.glob string_boolean_root))
    by (vm_compute; left; reflexivity).
  assert (Hk : nth_error (Py.split_lines (lines string_boolean_lines)) 2
               = Some ("    condition = contains([" +++ quoted "yes" +++ ", "
                         +++ quoted "no" +++ "], var.enabled)"))
    by (vm_compute; reflexivity).
  pose proof (@string_boolean_per_line
                (mkValidator "." string_boolean_root false []
                   (FS.glob string_boolean_root))
                string_boolean_file _ 2 _ Hreg Hnd Hin eq_refl Hk) as H.
  exact (proj2 H).
Defined.

(* ================================================================== *)
(** ** Where a pattern matches *)
(* ================================================================== *)

Lemma search_from_occurs fl r s : forall cur,
  match search_from fl r s cur with Some _ => true | None => false end
  = occurs_from (matches_at fl r) s cur.
Proof.
  induction s as [|c s IH]; intros cur; cbn [search_from occurs_from];
    unfold matches_at at 1; destruct (match_at fl r cur); cbn [orb];
    auto.
Qed.

Lemma found_occurs fl r s :
  found fl r s = occurs_from (matches_at fl r) s (start_of s).
Proof. unfold found, search. apply search_from_occurs. Qed.

Lemma occurs_from_ext (a b : cursor -> bool) s : forall cur,
  (forall c, a c = b c) -> occurs_from a s cur = occurs_from b s cur.
Proof.
  induction s as [|c s IH]; intros cur H; cbn [occurs_from]; rewrite H;
    [reflexivity|]. now rewrite IH.
Qed.

Lemma occurs_from_or (a b : cursor -> bool) s : forall cur,
  occurs_from (fun c => a c || b c) s cur
  = occurs_from a s cur || occurs_from b s cur.
Proof.
  induction s as [|c s IH]; intros cur; cbn [occurs_from].
  - now rewrite !orb_false_r.
  - rewrite IH.
    destruct (a cur), (b cur), (occurs_from a s (step c s cur)),
      (occurs_from b s (step c s cur)); reflexivity.
Qed.

Lemma matches_at_Alt fl r1 r2 cur :
  matches_at fl (Alt r1 r2) cur = matches_at fl r1 cur || matches_at fl r2 cur.
Proof.
  unfold matches_at, match_at. cbn [exec].
  destruct (exec fl r1 cur Some); cbn [orelse orb]; reflexivity.
Qed.

Lemma matches_at_Lit fl s cur :
  IGNORECASE fl = false ->
  matches_at fl (Lit s) cur = Py.startswith s (rest cur).
Proof.
  intros Hic. unfold matches_at, match_at. rewrite exec_Lit by assumption.
  now destruct (Py.startswith s (rest cur)).
Qed.

Lemma occurs_from_startswith sub s : forall cur,
  rest cur = s ->
  occurs_from (fun c => Py.startswith sub (rest c)) s cur = Py.contains sub s.
Proof.
  unfold Py.contains.
  induction s as [|c s IH]; intros cur E; cbn [occurs_from Py.find];
    rewrite E; destruct (Py.startswith sub _); cbn [orb]; try reflexivity.
  rewrite (IH (step c s cur) eq_refl).
  now destruct (Py.find sub s).
Qed.

(** Searching for a literal text, case-sensitively, is the substring
    test. *)
Lemma found_Lit fl sub s :
  IGNORECASE fl = false -> found fl (Lit sub) s = Py.contains sub s.
Proof.
  intros Hic. rewrite found_occurs.
  rewrite (@occurs_from_ext _ (fun c => Py.startswith sub (rest c)))
    by (intros c; now apply matches_at_Lit).
  now apply occurs_from_startswith.
Qed.

Lemma found_Alt fl r1 r2 s :
  found fl (Alt r1 r2) s = found fl r1 s || found fl r2 s.
Proof.
  rewrite !found_occurs.
  rewrite (@occurs_from_ext _ (fun c => matches_at fl r1 c || matches_at fl r2 c))
    by (intros c; apply matches_at_Alt).
  apply occurs_from_or.
Qed.

Lemma found_var_or_data line :
  found no_flags Pat.var_or_data line
  = Py.contains "var." line || Py.contains "data." line.
Proof.
  unfold Pat.var_or_data. rewrite found_Alt.
  now rewrite !found_Lit by reflexivity.
Qed.

(* ================================================================== *)
(** ** Hardcoded secrets *)
(* ================================================================== *)

Lemma check_security_standards_runs self o r :
  all_regular (tf_files self) ->
  runs (check_sensitive_variables self) o r ->
  runs (check_security_standards self)
       (flat_map (entry_results security_line_results) (tf_files self) ++ o)
       r.
Proof.
  intros Hreg Hs. unfold check_security_standards.
  eapply runs_bind_val; [|exact Hs].
  apply runs_for_each. intros tf Hin. unfold entry_results.
  destruct (Hreg tf Hin) as [text E]. rewrite E. simpl FS.read_text.
  apply runs_read. unfold file_results.
  apply runs_for_each. intros [i line] _. cbn [fst snd].
  unfold security_line_results.
  eapply runs_bind_val.
  - destruct (found Pat.ignorecase Pat.hardcoded_secret line);
      [|apply runs_ret].
    cbn [when]. apply runs_when. apply runs_append.
  - destruct (Py.contains "source_address_prefix" line
              && Py.contains (quoted "*") line); [|apply runs_ret].
    cbn [when]. apply runs_when. apply runs_append.
Qed.

Lemma security_line_results_placed tf text i line :
  Forall (fun r => at_place (FS.relative_to tf) i r = true)
         (security_line_results tf text i line).
Proof.
  unfold security_line_results. apply Forall_app. split.
  - destruct (found Pat.ignorecase Pat.hardcoded_secret line);
      [|constructor].
    destruct (negb (found no_flags Pat.var_or_data line)); repeat constructor.
    unfold at_place. cbn [file_path line_number hardcoded_secret_result].
    now rewrite String.eqb_refl, Nat.eqb_refl.
  - destruct (Py.contains "source_address_prefix" line
              && Py.contains (quoted "*") line); [|constructor].
    destruct (Py.contains "allow" _); repeat constructor.
    unfold at_place. cbn [file_path line_number permissive_rule].
    now rewrite String.eqb_refl, Nat.eqb_refl.
Qed.

Lemma filter_and (P Q : ValidationResult -> bool) l :
  filter (fun r => P r && Q r) l = filter P (filter Q l).
Proof.
  induction l as [|x l IH]; [reflexivity|]. cbn [filter].
  destruct (Q x); cbn [filter]; rewrite ?andb_true_r, ?andb_false_r;
    [destruct (P x)|]; now rewrite IH.
Qed.

Lemma hardcoded_secret_at_sensitive f i o :
  Forall (named ["Sensitive Variable"]) o ->
  filter (hardcoded_secret_at f i) o = [].
Proof.
  intros H. apply filter_none. eapply Forall_impl; [|exact H].
  intros r Hr. unfold hardcoded_secret_at.
  destruct (String.eqb_spec (check_name r) "Hardcoded Secret") as [E|_];
    [|reflexivity].
  exfalso.
  exact (@named_other ["Sensitive Variable"] r "Hardcoded Secret" Hr
           eq_refl E).
Qed.

(** X8. For a line of a discovered regular file, check_security_standards
    records exactly one Hardcoded Secret result at that line, a failing one,
    when the secret-assignment pattern occurs on the line (in any letter
    case) and the line holds neither the text var. nor the text data.; it
    records none at that line otherwise.  In particular a line that refers
    to a variable or a data source is never reported as a hardcoded
    secret. *)
Theorem hardcoded_secret_per_line (self : IaCValidator) (tf : tf_file)
    (text : string) (k : nat) (line : string) :
  all_regular (tf_files self) ->
  NoDup (map FS.relative_to (tf_files self)) ->
  In tf (tf_files self) ->
  target tf = File text ->
  nth_error (Py.split_lines text) k = Some line ->
  filter (hardcoded_secret_at (FS.relative_to tf) (S k))
         (log (check_security_standards self)) =
  if found Pat.ignorecase Pat.hardcoded_secret line
     && negb (Py.contains "var." line || Py.contains "data." line)
  then [hardcoded_secret_result tf (S k)] else [].
Proof.
  intros Hreg Hnd Hin Htext Hk.
  destruct (check_sensitive_variables_names self) as (o & r & Hs & Ho).
  pose proof (@check_security_standards_runs self o r Hreg Hs) as Hruns.
  unfold log, eval. rewrite (Hruns []). cbn [fst app].
  rewrite filter_app, (hardcoded_secret_at_sensitive _ _ Ho), app_nil_r.
  unfold hardcoded_secret_at. rewrite filter_and.
  rewrite (@entry_results_at security_line_results
             security_line_results_placed (tf_files self) tf text k line
             Hnd Hin Htext Hk).
  unfold security_line_results. rewrite found_var_or_data, filter_app.
  destruct (found Pat.ignorecase Pat.hardcoded_secret line); cbn [andb].
  - destruct (negb (Py.contains "var." line || Py.contains "data." line));
      destruct (Py.contains "source_address_prefix" line
                && Py.contains (quoted "*") line);
      try destruct (Py.contains "allow" _); reflexivity.
  - destruct (Py.contains "source_address_prefix" line
              && Py.contains (quoted "*") line);
      try destruct (Py.contains "allow" _); reflexivity.
Qed.

Lemma hardcoded_secret_per_line_witness :
  let self := mkValidator "." secrets_root false [] (FS.glob secrets_root) in
  filter (hardcoded_secret_at "main.tf" 1) (log (check_security_standards self))
  = [hardcoded_secret_result secrets_file 1]
  /\ filter (hardcoded_secret_at "main.tf" 2)
            (log (check_security_standards self)) = [].
Proof.
  cbv zeta.
  assert (Hreg : all_regular (FS.glob secrets_root))
    by (apply all_regular_check; vm_compute; reflexivity).
  assert (Hnd : NoDup (map FS.relative_to (FS.glob secrets_root)))
    by (apply NoDup_check; vm_compute; reflexivity).
  assert (Hin : In secrets_file (FS.glob secrets_root))
    by (vm_compute; left; reflexivity).
  assert (H1 : nth_error (Py.split_lines (lines secrets_lines)) 0
               = Some ("  admin_password = " +++ quoted "hunter2"))
    by (vm_compute; reflexivity).
  assert (H2 : nth_error (Py.split_lines (lines secrets_lines)) 1
               = Some ("  admin_password = var.admin_password # "
                         +++ quoted "x"))
    by (vm_compute; reflexivity).
  split.
  - exact (@hardcoded_secret_per_line
             (mkValidator "." secrets_root false [] (FS.glob secrets_root))
             secrets_file _ 0 _ Hreg Hnd Hin eq_refl H1).
  - exact (@hardcoded_secret_per_line
             (mkValidator "." secrets_root false [] (FS.glob secrets_root))
             secrets_file _ 1 _ Hreg Hnd Hin eq_refl H2).
Defined.

(* ================================================================== *)
(** ** Naming conventions *)
(* ================================================================== *)

Lemma matches_at_upper cur :
  matches_at no_flags Pat.upper cur =
  match rest cur with
  | String c _ => Py.isupper_ascii c
  | EmptyString => false
  end.
Proof.
  unfold matches_at, match_at, Pat.upper. cbn [exec].
  destruct (rest cur) as [|c s]; [reflexivity|].
  change (in_cset no_flags (CRange "A" "Z") c) with (Py.isupper_ascii c).
  now destruct (Py.isupper_ascii c).
Qed.

Lemma occurs_from_head (p : ascii -> bool) s : forall cur,
  rest cur = s ->
  occurs_from (fun c => match rest c with
                        | String x _ => p x
                        | EmptyString => false
                        end) s cur
  = any_char p s.
Proof.
  induction s as [|c s IH]; intros cur E; cbn [occurs_from any_char];
    rewrite E; [reflexivity|].
  now rewrite (IH (step c s cur) eq_refl).
Qed.

(** r'[A-Z]' is found in a name exactly when the name holds an ASCII
    capital letter. *)
Lemma found_upper name : found no_flags Pat.upper name = has_upper name.
Proof.
  rewrite found_occurs.
  rewrite (@occurs_from_ext _ (fun c => match rest c with
                                        | String x _ => Py.isupper_ascii x
                                        | EmptyString => false
                                        end))
    by apply matches_at_upper.
  now apply occurs_from_head.
Qed.

Lemma check_naming_conventions_runs self :
  all_regular (tf_files self) ->
  runs (check_naming_conventions self)
       (flat_map variable_naming_of (tf_files self)
        ++ flat_map resource_naming_of (tf_files self)) (Val tt).
Proof.
  intros Hreg. unfold check_naming_conventions.
  eapply runs_bind_val.
  - apply runs_for_each. intros tf Hin. unfold variable_naming_of.
    destruct (String.eqb (FS.name tf) "variables.tf"); cbn [negb];
      [|apply runs_ret].
    destruct (Hreg tf Hin) as [text E]. rewrite E. simpl FS.read_text.
    apply runs_read. apply runs_for_each. intros var_name _.
    unfold variable_naming_results. rewrite <- found_upper.
    eapply runs_bind_val; apply runs_when; apply runs_append.
  - apply runs_for_each. intros tf Hin. unfold resource_naming_of.
    destruct (Hreg tf Hin) as [text E]. rewrite E. simpl FS.read_text.
    apply runs_read. apply runs_for_each. intros res_name _.
    unfold resource_naming_results. rewrite <- found_upper.
    apply runs_when. apply runs_append.
Qed.

Lemma exec_name_quote_end fl cur k :
  IGNORECASE fl = false ->
  exec fl (Seq (Grp Pat.not_quote_plus) Pat.q) cur k =
  if 1 <=? span not_quote (rest cur)
  then
    let fin := forward (span not_quote (rest cur)) cur in
    if Py.startswith dq (rest fin)
    then k (set_grp (Some (pos cur, pos fin)) (forward 1 fin))
    else None
  else None.
Proof.
  intros H.
  change (exec fl (Seq (Grp Pat.not_quote_plus) Pat.q) cur k)
    with (exec fl (Seq (Grp Pat.not_quote_plus) (Seq Pat.q Eps)) cur k).
  now rewrite exec_name_quote_seq.
Qed.

Lemma exec_var_pattern cur :
  exec no_flags Pat.var_pattern cur Some =
  option_map
    (fun parts =>
       let '(off, n, total) := parts in
       set_grp (Some (pos cur + off, pos cur + off + n)) (forward total cur))
    (var_pattern_parts (rest cur)).
Proof.
  unfold Pat.var_pattern, var_pattern_parts. cbn [Pat.seq]. cbv zeta.
  rewrite exec_Lit_seq by reflexivity. same_test. cbn [String.length].
  rewrite exec_spaces_quote_seq by reflexivity. norm_drops.
  set (w := span Py.isspace (Py.drop 8 (rest cur))). same_test.
  rewrite exec_quote_seq by reflexivity. norm_drops. same_test.
  rewrite exec_name_quote_end by reflexivity. cbv zeta. norm_drops.
  set (n := span not_quote (Py.drop (8 + w + 1) (rest cur))). same_test.
  same_test. cbn [exec option_map].
  rewrite !pos_forward. rewrite <- !forward_add.
  replace (8 + (w + (1 + (n + 1)))) with (8 + w + 1 + n + 1) by lia.
  f_equal. f_equal. f_equal. f_equal; lia.
Qed.

Lemma match_at_var_pattern cur :
  match_at no_flags Pat.var_pattern cur =
  option_map
    (fun parts =>
       let '(off, n, total) := parts in
       Match (pos cur) (pos cur + total) (Py.take total (rest cur))
             (Some (Py.take n (Py.drop off (rest cur)))))
    (var_pattern_parts (rest cur)).
Proof.
  unfold match_at. rewrite exec_var_pattern.
  destruct (var_pattern_parts (rest cur)) as [[[off n] total]|];
    [|reflexivity].
  cbn [option_map set_grp pos grp]. rewrite pos_forward.
  unfold Py.slice.
  replace (pos cur + total - pos cur) with total by lia.
  replace (pos cur + off + n - pos cur - (pos cur + off - pos cur))
    with n by lia.
  replace (pos cur + off - pos cur) with off by lia. reflexivity.
Qed.

Lemma var_pattern_parts_name s off n total :
  var_pattern_parts s = Some (off, n, total) ->
  1 <= String.length (Py.take n (Py.drop off s))
  /\ all_chars not_quote (Py.take n (Py.drop off s)) = true.
Proof.
  unfold var_pattern_parts. cbv zeta.
  destruct (Py.startswith "variable" s); [|discriminate].
  set (w := span Py.isspace (Py.drop 8 s)).
  destruct (1 <=? w); [|discriminate].
  destruct (Py.startswith dq (Py.drop w (Py.drop 8 s))); [|discriminate].
  set (s3 := Py.drop 1 (Py.drop w (Py.drop 8 s))).
  destruct (1 <=? span not_quote s3) eqn:Hn1; [|discriminate].
  destruct (Py.startswith dq (Py.drop (span not_quote s3) s3));
    [|discriminate].
  intros H.
  assert (Hoff : off = 8 + w + 1) by congruence.
  assert (Hn : n = span not_quote s3) by congruence.
  clear H. subst off n.
  assert (E3 : Py.drop (8 + w + 1) s = s3)
    by (unfold s3; now rewrite !drop_drop, ?Nat.add_assoc).
  rewrite E3. split; [|apply span_all].
  rewrite length_take by apply span_le. now apply Nat.leb_le.
Qed.

(** Every variable name the rule looks at is non-empty and free of double
    quotes. *)
Lemma var_pattern_names content name :
  In name (findall no_flags Pat.var_pattern content) ->
  1 <= String.length name /\ all_chars not_quote name = true.
Proof.
  unfold findall, finditer. intros H. apply in_map_iff in H.
  destruct H as (m0 & Hname & Hin).
  destruct (@finditer_from_in _ _ content (Cursor 0 None content None) 0 m0
              eq_refl Hin) as (k & Hk & Hm).
  rewrite match_at_var_pattern in Hm.
  destruct (var_pattern_parts _) as [[[off n] total]|] eqn:P;
    [|discriminate].
  cbn [option_map] in Hm. injection Hm as <-. cbn [group1] in Hname.
  subst name. exact (var_pattern_parts_name _ P).
Qed.

Lemma variable_naming_results_nil tf name :
  variable_naming_results tf name = [] <->
  has_upper name = false /\ 3 <= String.length name.
Proof.
  unfold variable_naming_results.
  destruct (has_upper name);
    destruct (Nat.ltb_spec (String.length name) 3) as [Hlt|Hge];
    cbn [app]; split; intros Hx; try discriminate Hx;
    try (split; auto; lia);
    destruct Hx as [H1 H2]; try discriminate; try lia; reflexivity.
Qed.

(** X9. On discovered regular files, check_naming_conventions first goes
    through the files called variables.tf and then through every file.  For
    each variable name found it records a failing Variable Naming result
    when the name holds an ASCII capital letter and another one when the
    name has fewer than three characters; for each resource name found it
    records a failing Resource Naming result when the name holds an ASCII
    capital letter.  A name in lower case, digits, underscores or any other
    characters, of three characters or more, yields no result.  Every
    variable name looked at is non-empty and free of double quotes. *)
Theorem naming_results_by_name (self : IaCValidator) :
  all_regular (tf_files self) ->
  runs (check_naming_conventions self)
       (flat_map variable_naming_of (tf_files self)
        ++ flat_map resource_naming_of (tf_files self)) (Val tt)
  /\ (forall tf name,
        variable_naming_results tf name = [] <->
        any_char Py.isupper_ascii name = false /\ 3 <= String.length name)
  /\ (forall tf name,
        resource_naming_results tf name = [] <->
        any_char Py.isupper_ascii name = false)
  /\ (forall content name,
        In name (findall no_flags Pat.var_pattern content) ->
        1 <= String.length name /\ all_chars not_quote name = true).
Proof.
  intros Hreg. split; [now apply check_naming_conventions_runs|].
  split; [apply variable_naming_results_nil|]. split.
  - intros tf name. unfold resource_naming_results, has_upper.
    destruct (any_char Py.isupper_ascii name); split; intros H;
      try discriminate; reflexivity.
  - apply var_pattern_names.
Qed.

Lemma naming_results_by_name_witness :
  let self := mkValidator "." naming_root false [] (FS.glob naming_root) in
  log (check_naming_conventions self)
  = [not_snake_case "Variable"
       (TfFile ["variables.tf"] (File (lines naming_lines))) "vmSize";
     too_short (TfFile ["variables.tf"] (File (lines naming_lines))) "az"].
Proof.
  cbv zeta.
  assert (Hreg : all_regular (FS.glob naming_root))
    by (apply all_regular_check; vm_compute; reflexivity).
  pose proof (proj1 (@naming_results_by_name
                (mkValidator "." naming_root false [] (FS.glob naming_root))
                Hreg)) as H.
  unfold log, eval. rewrite (H []). vm_compute. reflexivity.
Defined.

(* ================================================================== *)
(** ** The groups of the report *)
(* ================================================================== *)

Lemma group_of_append key r d k :
  group_of k (group_append key r d) =
  if String.eqb key k then group_of key d ++ [r] else group_of k d.
Proof.
  induction d as [|[k0 l0] d IH]; cbn [group_append group_of].
  - now destruct (String.eqb key k).
  - destruct (String.eqb_spec k0 key) as [->|Hne]; cbn [group_of].
    + now destruct (String.eqb key k).
    + rewrite IH.
      destruct (String.eqb_spec k0 k) as [->|Hk];
        destruct (String.eqb_spec key k) as [->|Hk'];
        try reflexivity; congruence.
Qed.

Lemma keys_group_append key r d k :
  In k (map fst (group_append key r d)) -> k = key \/ In k (map fst d).
Proof.
  induction d as [|[k0 l0] d IH]; cbn [group_append map fst In].
  - intros [<-|[]]. now left.
  - destruct (String.eqb_spec k0 key) as [->|Hne]; cbn [map fst In].
    + intros [<-|H]; auto.
    + intros [<-|H]; auto. destruct (IH H); auto.
Qed.

Lemma NoDup_group_append key r d :
  NoDup (map fst d) -> NoDup (map fst (group_append key r d)).
Proof.
  induction d as [|[k0 l0] d IH]; cbn [group_append map fst]; intros H.
  - repeat constructor. intros [].
  - inversion H as [|? ? Hnot Hnd]; subst.
    destruct (String.eqb_spec k0 key) as [->|Hne]; cbn [map fst].
    + now constructor.
    + constructor; [|now apply IH].
      intros Hin. destruct (keys_group_append _ _ _ _ Hin); congruence.
Qed.

Lemma nonempty_group_append key r d :
  (forall k l, In (k, l) d -> l <> []) ->
  forall k l, In (k, l) (group_append key r d) -> l <> [].
Proof.
  induction d as [|[k0 l0] d IH]; cbn [group_append]; intros H k l Hin.
  - destruct Hin as [[= <- <-]|[]]. discriminate.
  - destruct (String.eqb k0 key).
    + destruct Hin as [[= <- <-]|Hin].
      * now destruct l0.
      * eapply H. right. exact Hin.
    + destruct Hin as [[= <- <-]|Hin].
      * eapply H. left. reflexivity.
      * eapply IH; [|exact Hin]. intros k' l' H'. eapply H. right. exact H'.
Qed.

Lemma size_group_append key r d :
  entries (group_append key r d) = S (entries d).
Proof.
  induction d as [|[k0 l0] d IH]; cbn [group_append]; [reflexivity|].
  destruct (String.eqb k0 key); cbn [entries].
  - rewrite length_app. simpl. lia.
  - rewrite IH. lia.
Qed.

Lemma grouped_step d rs r :
  grouped d rs -> grouped (group_append (check_type r) r d) (rs ++ [r]).
Proof.
  intros (Hnd & Hne & Hg & Hsize). repeat split.
  - now apply NoDup_group_append.
  - now apply nonempty_group_append.
  - intros k. rewrite group_of_append, filter_app. cbn [filter].
    unfold of_type at 2.
    destruct (String.eqb_spec (check_type r) k) as [->|Hk].
    + now rewrite Hg.
    + now rewrite app_nil_r, Hg.
  - rewrite size_group_append, Hsize, length_app. simpl. lia.
Qed.

Lemma grouped_fold rest : forall d done,
  grouped d done ->
  grouped (fold_left (fun d r => group_append (check_type r) r d) rest d)
          (done ++ rest).
Proof.
  induction rest as [|r rest IH]; intros d done H; cbn [fold_left].
  - now rewrite app_nil_r.
  - replace (done ++ r :: rest) with ((done ++ [r]) ++ rest)
      by (now rewrite <- app_assoc).
    apply IH. now apply grouped_step.
Qed.

Lemma grouped_by_type rs : grouped (by_type rs) rs.
Proof.
  unfold by_type. apply (@grouped_fold rs [] []).
  repeat split; try constructor. intros k l [].
Qed.

Lemma group_of_In k l d :
  NoDup (map fst d) -> In (k, l) d -> group_of k d = l.
Proof.
  induction d as [|[k0 l0] d IH]; cbn [map fst group_of];
    intros Hnd Hin; [contradiction|].
  inversion Hnd as [|? ? Hnot Hnd']; subst.
  destruct Hin as [[= -> ->]|Hin].
  - now rewrite String.eqb_refl.
  - destruct (String.eqb_spec k0 k) as [->|_]; [|now apply IH].
    exfalso. apply Hnot. change k with (fst (k, l)). now apply in_map.
Qed.

Lemma In_group_of k d : group_of k d <> [] -> In (k, group_of k d) d.
Proof.
  induction d as [|[k0 l0] d IH]; cbn [group_of]; intros H; [congruence|].
  destruct (String.eqb_spec k0 k) as [->|_]; [now left|].
  right. now apply IH.
Qed.

Lemma In_insert_item x e l : In x (insert_item e l) <-> x = e \/ In x l.
Proof.
  induction l as [|e' l IH]; cbn [insert_item In].
  - intuition congruence.
  - destruct (String.leb (fst e) (fst e')); cbn [In]; rewrite ?IH;
      intuition congruence.
Qed.

Lemma In_sorted_items x d : In x (sorted_items d) <-> In x d.
Proof.
  induction d as [|e d IH]; cbn [sorted_items fold_right In]; [tauto|].
  fold (sorted_items d). rewrite In_insert_item, IH. intuition congruence.
Qed.

Lemma size_insert_item e l :
  entries (insert_item e l) = List.length (snd e) + entries l.
Proof.
  induction l as [|[k' l'] l IH]; cbn [insert_item].
  - destruct e. cbn [entries snd]. lia.
  - destruct (String.leb (fst e) (fst (k', l'))).
    + destruct e. reflexivity.
    + cbn [entries]. rewrite IH. lia.
Qed.

Lemma size_sorted_items d : entries (sorted_items d) = entries d.
Proof.
  induction d as [|[k l] d IH]; cbn [sorted_items fold_right];
    [reflexivity|].
  fold (sorted_items d). rewrite size_insert_item, IH. reflexivity.
Qed.

Lemma leb_ltb a b : String.leb a b = true -> a <> b -> String.ltb a b = true.
Proof.
  unfold String.leb, String.ltb. intros H Hne.
  destruct (String.compare a b) eqn:C; try reflexivity; try discriminate.
  exfalso. apply Hne. now apply String.compare_eq_iff.
Qed.

Lemma not_leb_ltb a b : String.leb a b = false -> String.ltb b a = true.
Proof.
  intros H. apply leb_ltb.
  - destruct (String.leb_total a b); congruence.
  - intros ->. destruct (String.leb_total a a); congruence.
Qed.

Lemma ascending_cons a keys :
  ascending (a :: keys) =
  match keys with
  | [] => true
  | b :: _ => String.ltb a b && ascending keys
  end.
Proof. now destruct keys. Qed.

Lemma ascending_insert_item e l :
  ascending (map fst l) = true ->
  ~ In (fst e) (map fst l) ->
  ascending (map fst (insert_item e l)) = true.
Proof.
  induction l as [|e' l IH]; intros Hs Hnot; [reflexivity|].
  cbn [insert_item].
  destruct (String.leb (fst e) (fst e')) eqn:L.
  - change (map fst (e :: e' :: l)) with (fst e :: map fst (e' :: l)).
    rewrite ascending_cons. cbn [map]. cbn [map] in Hs. rewrite Hs.
    rewrite (@leb_ltb (fst e) (fst e')); [reflexivity|exact L|].
    intros E. apply Hnot. left. now symmetry.
  - change (map fst (e' :: insert_item e l))
      with (fst e' :: map fst (insert_item e l)).
    rewrite ascending_cons.
    assert (Hl : ascending (map fst l) = true).
    { cbn [map] in Hs. rewrite ascending_cons in Hs.
      destruct (map fst l); [reflexivity|].
      now apply andb_prop in Hs. }
    assert (Hn : ~ In (fst e) (map fst l)).
    { intros Hin. apply Hnot. now right. }
    specialize (IH Hl Hn).
    destruct l as [|e'' l]; cbn [insert_item map].
    + rewrite (@not_leb_ltb _ _ L). reflexivity.
    + cbn [insert_item map] in IH.
      destruct (String.leb (fst e) (fst e'')); cbn [map] in *.
      * rewrite IH, (@not_leb_ltb _ _ L). reflexivity.
      * rewrite IH. cbn [map] in Hs. rewrite ascending_cons in Hs.
        apply andb_prop in Hs. now rewrite (proj1 Hs).
Qed.

Lemma keys_insert_item k e l :
  In k (map fst (insert_item e l)) <-> k = fst e \/ In k (map fst l).
Proof.
  induction l as [|e' l IH]; cbn [insert_item map In].
  - intuition congruence.
  - destruct (String.leb (fst e) (fst e')); cbn [map In]; rewrite ?IH;
      intuition congruence.
Qed.

Lemma keys_sorted_items k d :
  In k (map fst (sorted_items d)) <-> In k (map fst d).
Proof.
  induction d as [|e d IH]; cbn [sorted_items fold_right map In]; [tauto|].
  fold (sorted_items d). rewrite keys_insert_item, IH. intuition congruence.
Qed.

Lemma ascending_sorted_items d :
  NoDup (map fst d) -> ascending (map fst (sorted_items d)) = true.
Proof.
  induction d as [|e d IH]; cbn [sorted_items fold_right map]; intros H;
    [reflexivity|].
  inversion H as [|? ? Hnot Hnd]; subst. fold (sorted_items d).
  apply ascending_insert_item; [now apply IH|].
  now rewrite keys_sorted_items.
Qed.

(** X10. The sections generate_report writes: their headings, the check
    names cut at the first colon, come in strictly ascending order of code
    points, so no heading is written twice; there is a section for a
    heading exactly when some result has that check type, and it lists all
    the results of that type in the order they were recorded; the sections
    together hold as many entries as there are results. *)
Theorem report_sections_by_type (self : IaCValidator) :
  let sections := report_sections self in
  ascending (map fst sections) = true
  /\ (forall key rs,
        In (key, rs) sections <->
        rs <> []
        /\ rs = filter (fun r => String.eqb (check_type r) key)
                       (results self))
  /\ entries sections = List.length (results self).
Proof.
  cbv zeta. unfold report_sections.
  destruct (grouped_by_type (results self)) as (Hnd & Hne & Hg & Hsize).
  split; [now apply ascending_sorted_items|]. split.
  - intros key rs. rewrite In_sorted_items. split.
    + intros Hin. split; [now apply (Hne key)|].
      rewrite <- (@group_of_In key rs _ Hnd Hin). apply Hg.
    + intros [Hrs ->]. fold (of_type key). rewrite <- Hg.
      apply In_group_of. rewrite Hg. exact Hrs.
  - now rewrite size_sorted_items.
Qed.

(* ================================================================== *)
(** ** The lookback window of the wildcard rule *)
(* ================================================================== *)

Lemma first_line_prefix s :
  Py.startswith (hd "" (Py.split_lines s)) s = true.
Proof.
  induction s as [|c s IH]; [reflexivity|]. cbn [Py.split_lines].
  destruct (Ascii.eqb c Py.newline); [reflexivity|].
  destruct (Py.split_lines s) as [|l ls]; cbn [hd Py.startswith] in *.
  - now rewrite Ascii.eqb_refl.
  - now rewrite Ascii.eqb_refl, IH.
Qed.

Lemma find_cons_some sub c s i :
  Py.find sub s = Some i -> exists j, Py.find sub (String c s) = Some j.
Proof.
  intros H. cbn [Py.find]. destruct (Py.startswith sub (String c s)); eauto.
  rewrite H. simpl. eauto.
Qed.

Lemma find_empty s : Py.find "" s = Some 0.
Proof. now destruct s. Qed.

(** Every line of a text occurs in the text. *)
Lemma line_found s line :
  In line (Py.split_lines s) -> exists i, Py.find line s = Some i.
Proof.
  revert line. induction s as [|c s IH]; intros line Hin.
  - destruct Hin as [<-|[]]. exists 0. reflexivity.
  - cbn [Py.split_lines] in Hin.
    destruct (Ascii.eqb c Py.newline).
    + destruct Hin as [<-|Hin]; [exists 0; apply find_empty|].
      destruct (IH line Hin) as [i Hi]. exact (@find_cons_some line c s i Hi).
    + pose proof (first_line_prefix s) as Hp.
      destruct (Py.split_lines s) as [|l ls] eqn:E.
      * destruct Hin as [<-|[]]. exists 0. cbn [Py.find Py.startswith].
        now rewrite Ascii.eqb_refl.
      * destruct Hin as [<-|Hin].
        -- exists 0. cbn [hd] in Hp. cbn [Py.find Py.startswith].
           now rewrite Ascii.eqb_refl, Hp.
        -- destruct (IH line (or_intror Hin)) as [i Hi].
           exact (@find_cons_some line c s i Hi).
Qed.

Lemma find_bound sub s i :
  Py.find sub s = Some i ->
  i <= String.length s /\ Py.startswith sub (Py.drop i s) = true.
Proof.
  revert i. induction s as [|c s IH]; intros i; cbn [Py.find].
  - destruct (Py.startswith sub "") eqn:E; [|discriminate].
    intros [= <-]. split; [lia|exact E].
  - destruct (Py.startswith sub (String c s)) eqn:E.
    + intros [= <-]. split; [lia|exact E].
    + destruct (Py.find sub s) as [j|]; [|discriminate].
      intros [= <-]. destruct (IH j eq_refl) as [Hj Hs].
      split; [simpl; lia|exact Hs].
Qed.

Lemma slice_split a b s :
  a <= b -> Py.drop a s = Py.slice a b s +++ Py.drop b s.
Proof.
  intros H. unfold Py.slice.
  rewrite <- (take_drop (b - a) (Py.drop a s)) at 1.
  rewrite drop_drop. now replace (a + (b - a)) with b by lia.
Qed.

(** X11. The window in which the wildcard rule looks for allow: for a line
    of the file's text, content.find(line) never fails, and the window is
    the stretch of at most 200 characters that ends where the first
    occurrence of the line's text in the file begins; it holds exactly 200
    characters once that occurrence starts at offset 200 or later. *)
Theorem lookback_window (content line : string) :
  In line (Py.split_lines content) ->
  exists at_,
    Py.find line content = Some at_
    /\ Py.startswith line (Py.drop at_ content) = true
    /\ content = Py.take (at_ - 200) content +++ lookback content line
                   +++ Py.drop at_ content
    /\ String.length (lookback content line) = Nat.min at_ 200.
Proof.
  intros Hin. destruct (@line_found content line Hin) as [i Hi]. exists i.
  destruct (@find_bound line content i Hi) as [Hle Hs].
  unfold lookback. rewrite Hi.
  split; [reflexivity|]. split; [exact Hs|]. split.
  - rewrite <- slice_split by lia. now rewrite take_drop.
  - unfold Py.slice. rewrite length_take; [lia|].
    rewrite length_drop. lia.
Qed.

Lemma lookback_window_witness :
  exists at_,
    Py.find "  b" ("a" +++ nl +++ "  b") = Some at_
    /\ String.length (lookback ("a" +++ nl +++ "  b") "  b") = Nat.min at_ 200.
Proof.
  assert (Hin : In "  b" (Py.split_lines ("a" +++ nl +++ "  b")))
    by (vm_compute; right; left; reflexivity).
  destruct (@lookback_window ("a" +++ nl +++ "  b") "  b" Hin)
    as (i & H1 & _ & _ & H2).
  exists i. split; assumption.
Defined.

(* ================================================================== *)
(** ** Names the sensitive-variable pattern selects *)
(* ================================================================== *)

Lemma lower_take n s : Py.lower (Py.take n s) = Py.take n (Py.lower s).
Proof.
  revert s. induction n as [|n IH]; intros [|c s]; cbn [Py.take Py.lower];
    try reflexivity. now rewrite IH.
Qed.

Lemma length_lower s : String.length (Py.lower s) = String.length s.
Proof. induction s as [|c s IH]; simpl; congruence. Qed.

(** A lower-case word found up to case is found as it stands in the
    lower-cased text. *)
Lemma startswith_ci_lower w : forall s,
  Py.lower w = w ->
  startswith_ci w s = true -> Py.startswith w (Py.lower s) = true.
Proof.
  induction w as [|a w IH]; intros s Hw H; [reflexivity|].
  destruct s as [|b s]; [discriminate|].
  cbn [Py.lower] in Hw. injection Hw as Ha Hw.
  cbn [startswith_ci] in H. apply andb_prop in H. destruct H as [Hb H].
  cbn [Py.lower Py.startswith]. rewrite (IH s Hw H), andb_true_r.
  apply Ascii.eqb_eq in Hb. rewrite Hb, Ha. apply Ascii.eqb_refl.
Qed.

Lemma startswith_within w : forall n s,
  String.length w <= n ->
  Py.startswith w s = true -> Py.startswith w (Py.take n s) = true.
Proof.
  induction w as [|a w IH]; intros n s Hn H; [reflexivity|].
  destruct s as [|b s]; [discriminate|].
  destruct n as [|n]; [simpl in Hn; lia|].
  cbn [Py.startswith Py.take] in *. apply andb_prop in H.
  destruct H as [Hab H]. rewrite Hab. cbn [andb].
  apply IH; [simpl in Hn; lia|exact H].
Qed.

Lemma contains_startswith sub s :
  Py.startswith sub s = true -> Py.contains sub s = true.
Proof.
  intros H. unfold Py.contains. destruct s; cbn [Py.find]; now rewrite H.
Qed.

Lemma contains_cons sub c s :
  Py.contains sub s = true -> Py.contains sub (String c s) = true.
Proof.
  unfold Py.contains. intros H. cbn [Py.find].
  destruct (Py.startswith sub (String c s)); [reflexivity|].
  now destruct (Py.find sub s).
Qed.

Lemma has_keyword_cons c s :
  has_keyword s = true -> has_keyword (String c s) = true.
Proof.
  unfold has_keyword. cbn [Py.lower]. intros H.
  destruct (Py.contains "password" (Py.lower s)) eqn:E1;
    [now rewrite (@contains_cons _ _ _ E1)|].
  destruct (Py.contains "secret" (Py.lower s)) eqn:E2;
    [rewrite (@contains_cons _ _ _ E2); now rewrite orb_true_r|].
  destruct (Py.contains "key" (Py.lower s)) eqn:E3; [|discriminate].
  rewrite (@contains_cons _ _ _ E3). now rewrite !orb_true_r.
Qed.

Lemma span_covers_word w s :
  all_chars (fun x => negb (Ascii.eqb (Py.lower_char x) Pat.quote)) w = true ->
  Py.lower w = w ->
  startswith_ci w s = true ->
  Py.contains w (Py.lower (Py.take (span not_quote s) s)) = true.
Proof.
  intros Hq Hw H.
  destruct (@startswith_ci_run _ _ Hq H) as [Hall Hlen].
  apply contains_startswith. rewrite lower_take.
  apply startswith_within.
  - rewrite (@span_skip _ _ Hall Hlen). lia.
  - now apply startswith_ci_lower.
Qed.

Lemma keyword_at_run s :
  keyword_at s = true -> has_keyword (Py.take (span not_quote s) s) = true.
Proof.
  unfold keyword_at, has_keyword. intros H.
  apply orb_prop in H. destruct H as [H|H].
  - apply orb_prop in H. destruct H as [H|H].
    + now rewrite (@span_covers_word "password" s eq_refl eq_refl H).
    + rewrite (@span_covers_word "secret" s eq_refl eq_refl H).
      now rewrite orb_true_r.
  - rewrite (@span_covers_word "key" s eq_refl eq_refl H).
    now rewrite !orb_true_r.
Qed.

Lemma keyword_in_run_name s :
  keyword_in_run s = true ->
  has_keyword (Py.take (span not_quote s) s) = true.
Proof.
  induction s as [|c s IH]; [discriminate|].
  cbn [keyword_in_run]. destruct (not_quote c) eqn:Hc.
  - intros H. apply orb_prop in H. destruct H as [H|H].
    + cbn [span]. rewrite Hc. cbn [Py.take]. apply has_keyword_cons.
      now apply IH.
    + now apply keyword_at_run.
  - now apply keyword_at_run.
Qed.

Lemma sensitive_parts_name s off n total :
  sensitive_parts s = Some (off, n, total) ->
  all_chars not_quote (Py.take n (Py.drop off s)) = true
  /\ has_keyword (Py.take n (Py.drop off s)) = true.
Proof.
  unfold sensitive_parts. cbv zeta.
  destruct (startswith_ci "variable" s); [|discriminate].
  set (w := span Py.isspace (Py.drop 8 s)).
  destruct (1 <=? w); [|discriminate].
  destruct (Py.startswith dq (Py.drop w (Py.drop 8 s))); [|discriminate].
  set (s3 := Py.drop 1 (Py.drop w (Py.drop 8 s))).
  destruct (keyword_in_run s3) eqn:Hkw; [|discriminate].
  destruct (Py.startswith dq (Py.drop (span not_quote s3) s3));
    [|discriminate].
  destruct (Py.find "}" _); [|discriminate].
  intros H.
  assert (Hoff : off = 8 + w + 1) by congruence.
  assert (Hn : n = span not_quote s3) by congruence.
  clear H. subst off n.
  assert (E3 : Py.drop (8 + w + 1) s = s3)
    by (unfold s3; now rewrite !drop_drop, ?Nat.add_assoc).
  rewrite E3. split; [apply span_all|now apply keyword_in_run_name].
Qed.

Lemma sensitive_names_keyword content name :
  In name (findall Pat.dotall_ignorecase Pat.sensitive_vars content) ->
  all_chars not_quote name = true /\ has_keyword name = true.
Proof.
  unfold findall, finditer. intros H. apply in_map_iff in H.
  destruct H as (m0 & Hname & Hin).
  destruct (@finditer_from_in _ _ content (Cursor 0 None content None) 0 m0
              eq_refl Hin) as (k & Hk & Hm).
  rewrite match_at_sensitive_vars in Hm.
  destruct (sensitive_parts _) as [[[off n] total]|] eqn:P;
    [|discriminate].
  cbn [option_map] in Hm. injection Hm as <-. cbn [group1] in Hname.
  subst name. exact (@sensitive_parts_name _ _ _ _ P).
Qed.

Lemma adds_read {A B} (Q : ValidationResult -> Prop) (a : A)
    (k : A -> M B) :
  adds Q (k a) -> adds Q (bind (lift (Val a)) k).
Proof.
  intros (out & r & Hruns & HQ). exists out, r.
  split; [now apply runs_read|exact HQ].
Qed.

(** Whatever the sub-check records, it records for a name the pattern
    found in variables.tf, also when it does not run to its end. *)
Lemma check_sensitive_variables_found self :
  adds (recorded_for_found_name (root self)) (check_sensitive_variables self).
Proof.
  unfold check_sensitive_variables.
  destruct (FS.child (root self) "variables.tf") as [[content|es]|] eqn:E.
  - cbn [FS.read_text]. apply adds_read. apply adds_for_each.
    intros name Hin. apply adds_bind; [apply adds_lift|].
    intros [m|]; [|apply adds_ret].
    apply adds_append.
    exists content, name, (mentions_sensitive_true (group0 m)).
    split; [exact E|]. split; [exact Hin|].
    apply sensitive_result_verdict.
  - cbn [FS.read_text]. exists [], (Exc IsADirectoryError).
    split; [apply runs_bind_exc; apply runs_lift|constructor].
  - apply adds_ret.
Qed.

Lemma named_not_sensitive n ns r :
  existsb (String.eqb "Sensitive Variable") ns = false ->
  named ns r -> sensitive_only_for_found n r.
Proof.
  intros Hns Hr E. exfalso.
  exact (@named_other ns r "Sensitive Variable" Hr Hns E).
Qed.

Lemma check_security_standards_found self :
  adds (sensitive_only_for_found (root self)) (check_security_standards self).
Proof.
  unfold check_security_standards. apply adds_bind.
  - apply (@adds_weaken _
             (named ["Hardcoded Secret"; "Overly Permissive Security Rule"])).
    + intros x. now apply named_not_sensitive.
    + adds_auto.
  - intros _.
    apply (@adds_weaken _ (recorded_for_found_name (root self)));
      [|apply check_sensitive_variables_found].
    intros x Hx _. exact Hx.
Qed.

Lemma run_sensitive_only_for_found p n st :
  Forall (sensitive_only_for_found n) (run_results p n st).
Proof.
  unfold run_results. rewrite run_all_checks_new. cbv zeta.
  destruct (FS.glob n) as [|f fs]; simpl fst; simpl results.
  - constructor; [|constructor]. intros E. discriminate E.
  - set (self := mkValidator p n st [] (f :: fs)).
    change n with (root self).
    apply all_checks_Forall; apply adds_log.
    + apply (@adds_weaken _ (named file_structure_names));
        [|apply check_file_structure_names].
      intros x. now apply named_not_sensitive.
    + apply (@adds_weaken _ (named ["Magic Number"]));
        [|apply check_magic_numbers_names].
      intros x. now apply named_not_sensitive.
    + apply (@adds_weaken _ (named ["String Boolean"]));
        [|apply check_string_booleans_names].
      intros x. now apply named_not_sensitive.
    + apply (@adds_weaken _ (named ["Variable Naming"; "Resource Naming"]));
        [|apply check_naming_conventions_names].
      intros x. now apply named_not_sensitive.
    + apply (@adds_weaken _ (named documentation_names));
        [|apply check_documentation_names].
      intros x. now apply named_not_sensitive.
    + apply check_security_standards_found.
    + apply (@adds_weaken _ (named ["Variable Validation"]));
        [|apply check_variable_validation_names].
      intros x. now apply named_not_sensitive.
    + apply (@adds_weaken _ (named ["Output Organization"]));
        [|apply check_output_organization_names].
      intros x. now apply named_not_sensitive.
Qed.

(** X12. Every name the sensitive-variable sub-check looks at holds one of
    the words password, secret or key, in any letter case, and holds no
    double quote; and a Sensitive Variable result is only ever recorded for
    such a name: every Sensitive Variable result of a run, whether the run
    returns or not, is the verdict for a name that the pattern finds in
    the root's variables.tf, and that name holds one of the three words
    and no double quote. *)
Theorem sensitive_names_hold_keyword :
  (forall content name,
     In name (findall Pat.dotall_ignorecase Pat.sensitive_vars content) ->
     all_chars not_quote name = true
     /\ Py.contains "password" (Py.lower name)
        || Py.contains "secret" (Py.lower name)
        || Py.contains "key" (Py.lower name) = true)
  /\ (forall p n st r,
        In r (run_results p n st) ->
        check_name r = "Sensitive Variable" ->
        exists content name marked,
          FS.child n "variables.tf" = Some (File content)
          /\ In name
                (findall Pat.dotall_ignorecase Pat.sensitive_vars content)
          /\ r = sensitive_verdict name marked
          /\ all_chars not_quote name = true
          /\ Py.contains "password" (Py.lower name)
             || Py.contains "secret" (Py.lower name)
             || Py.contains "key" (Py.lower name) = true).
Proof.
  split; [exact sensitive_names_keyword|].
  intros p n st r Hin Hname.
  pose proof (run_sensitive_only_for_found p n st) as Hall.
  rewrite Forall_forall in Hall.
  destruct (Hall r Hin Hname) as (content & name & marked & Hc & Hn & Hr).
  exists content, name, marked.
  split; [exact Hc|]. split; [exact Hn|]. split; [exact Hr|].
  exact (@sensitive_names_keyword content name Hn).
Qed.

Lemma sensitive_names_hold_keyword_witness :
  (all_chars not_quote "API_Key" = true
   /\ Py.contains "password" (Py.lower "API_Key")
      || Py.contains "secret" (Py.lower "API_Key")
      || Py.contains "key" (Py.lower "API_Key") = true)
  /\ exists content name marked,
       FS.child (variables_root unmarked_password) "variables.tf"
         = Some (File content)
       /\ In name
             (findall Pat.dotall_ignorecase Pat.sensitive_vars content)
       /\ sensitive_verdict "db_password" true = sensitive_verdict name marked
       /\ all_chars not_quote name = true
       /\ Py.contains "password" (Py.lower name)
          || Py.contains "secret" (Py.lower name)
          || Py.contains "key" (Py.lower name) = true.
Proof.
  destruct sensitive_names_hold_keyword as [H1 H2]. split.
  - apply (H1 ("variable " +++ quoted "API_Key" +++ " { type = string }")).
    vm_compute. left. reflexivity.
  - assert (Hin : In (sensitive_verdict "db_password" true)
                     (run_results "." (variables_root unmarked_password)
                        false))
      by (vm_compute; tauto).
    exact (H2 "." (variables_root unmarked_password) false
              (sensitive_verdict "db_password" true) Hin eq_refl).
Defined.

(* ================================================================== *)
(** ** What discovery reaches *)
(* ================================================================== *)

Lemma node_induction (P : node -> Prop) :
  (forall text, P (File text)) ->
  (forall es, Forall (fun e => P (snd e)) es -> P (Dir es)) ->
  forall n, P n.
Proof.
  intros HF HD. fix IH 1. intros [text|es]; [apply HF|].
  apply HD. induction es as [|[d sub] es IHes]; constructor.
  - apply IH.
  - exact IHes.
Qed.

Lemma glob_Dir es :
  FS.glob (Dir es) =
  map (fun e => TfFile [fst e] (snd e)) (filter (fun e => FS.is_tf (fst e)) es)
  ++ glob_below es.
Proof.
  reflexivity.
Qed.

Lemma In_glob_below f es :
  In f (glob_below es) <->
  exists d sub g, In (d, sub) es /\ In g (FS.glob sub) /\ f = FS.under d g.
Proof.
  induction es as [|[d sub] es IH]; cbn [glob_below].
  - split; [intros []|intros (d & sub & g & [] & _)].
  - rewrite in_app_iff, in_map_iff, IH. split.
    + intros [(g & <- & Hg)|(d' & sub' & g & Hin & Hg & ->)].
      * exists d, sub, g. repeat split; auto. now left.
      * exists d', sub', g. repeat split; auto. now right.
    + intros (d' & sub' & g & [[= <- <-]|Hin] & Hg & ->).
      * left. exists g. now split.
      * right. exists d', sub', g. now repeat split.
Qed.

Lemma reaches_nonempty n ps x : reaches n ps x -> ps <> [].
Proof. intros H. destruct H; discriminate. Qed.

Lemma last_cons (d : string) ps : ps <> [] -> last (d :: ps) "" = last ps "".
Proof. destruct ps; [congruence|reflexivity]. Qed.

Lemma glob_sound : forall n f,
  In f (FS.glob n) ->
  reaches n (parts f) (target f) /\ FS.is_tf (FS.name f) = true.
Proof.
  apply (node_induction
           (fun n => forall f, In f (FS.glob n) ->
              reaches n (parts f) (target f) /\ FS.is_tf (FS.name f) = true)).
  - intros text f [].
  - intros es IH f Hin. rewrite glob_Dir, in_app_iff in Hin.
    destruct Hin as [Hin|Hin].
    + apply in_map_iff in Hin. destruct Hin as ([name x] & <- & Hin).
      apply filter_In in Hin. destruct Hin as [Hin Htf].
      split; [now constructor|exact Htf].
    + apply In_glob_below in Hin.
      destruct Hin as (d & sub & g & Hin & Hg & ->).
      rewrite Forall_forall in IH.
      destruct (IH (d, sub) Hin g Hg) as [Hr Htf].
      split; [cbn [FS.under parts target]; now apply reaches_below with sub|].
      unfold FS.name in *. cbn [FS.under parts].
      now rewrite (last_cons d (reaches_nonempty Hr)).
Qed.

Lemma glob_complete n ps x :
  reaches n ps x -> FS.is_tf (last ps "") = true ->
  In (TfFile ps x) (FS.glob n).
Proof.
  induction 1 as [es name x Hin|es d sub ps x Hin Hr IH]; intros Htf;
    rewrite glob_Dir, in_app_iff.
  - left. apply in_map_iff. exists (name, x). split; [reflexivity|].
    apply filter_In. now split.
  - right. apply In_glob_below. exists d, sub, (TfFile ps x).
    split; [exact Hin|]. split; [|reflexivity].
    apply IH. now rewrite <- (last_cons d (reaches_nonempty Hr)).
Qed.

(** X13. The entries run_all_checks stores in tf_files are exactly the
    entries found at some depth below the root whose own name ends in .tf,
    regular files and directories alike; an entry whose name has another
    ending is never looked at by the per-file rules, and the root itself is
    never among them. *)
Theorem discovery_reaches_tf_entries (p : string) (st : bool) (n : node)
    (f : tf_file) :
  In f (tf_files (fst (run_all_checks (new_validator p n st)))) <->
  reaches n (parts f) (target f) /\ Py.endswith ".tf" (FS.name f) = true.
Proof.
  assert (E : tf_files (fst (run_all_checks (new_validator p n st)))
              = FS.glob n).
  { rewrite run_all_checks_new. cbv zeta.
    destruct (FS.glob n) eqn:G; reflexivity. }
  rewrite E. split; [apply glob_sound|].
  intros [Hr Htf]. destruct f as [ps x]. now apply glob_complete.
Qed.

(* ================================================================== *)
(** ** README.md as a directory *)
(* ================================================================== *)

Lemma check_documentation_directory self es :
  FS.child (root self) "README.md" = Some (Dir es) ->
  eval (check_documentation self) = ([], Exc IsADirectoryError).
Proof.
  intros H. unfold check_documentation. rewrite H. reflexivity.
Qed.

Lemma required_readme_present self x :
  FS.child (root self) "README.md" = Some x ->
  exists more, file_structure_results self = readme_present :: more.
Proof.
  intros H. unfold file_structure_results, required_files.
  cbn [map app]. eexists. f_equal.
  unfold required_file_result. rewrite H. reflexivity.
Qed.

(** X14. When README.md is a directory and every discovered entry is a
    regular file, the Required File result for README.md passes, since the
    path exists, but the documentation rule raises on reading it:
    run_all_checks raises IsADirectoryError, main exits with 2, and the
    results are those of the file-structure, magic-number, string-boolean
    and naming rules only, with no documentation, security, validation or
    output result. *)
Theorem readme_directory_aborts_run (p : string) (st rep : bool) (n : node)
    (es : list (string * node)) :
  FS.child n "README.md" = Some (Dir es) ->
  FS.glob n <> [] ->
  all_regular (FS.glob n) ->
  let self := mkValidator p n st [] (FS.glob n) in
  run_outcome p n st = Exc IsADirectoryError
  /\ exit_code (main (mkArgs p st rep) (Some n)) = Some 2
  /\ run_results p n st =
       file_structure_results self ++ log (check_magic_numbers self)
       ++ log (check_string_booleans self)
       ++ log (check_naming_conventions self)
  /\ In readme_present (run_results p n st).
Proof.
  intros Hr Hne Hreg. cbv zeta.
  set (self := mkValidator p n st [] (FS.glob n)).
  assert (Heval : eval (all_checks self) =
            (file_structure_results self ++ log (check_magic_numbers self)
             ++ log (check_string_booleans self)
             ++ log (check_naming_conventions self),
             Exc IsADirectoryError)).
  { rewrite eval_all_checks, eval_check_file_structure.
    rewrite (completes_eval (check_magic_numbers_completes self Hreg)).
    rewrite (completes_eval (check_string_booleans_completes self Hreg)).
    rewrite (completes_eval (check_naming_conventions_completes self Hreg)).
    rewrite (@check_documentation_directory self es Hr).
    rewrite !seq_eval_val. unfold seq_eval. cbn [fst snd].
    now rewrite !app_nil_r. }
  assert (Hout : run_outcome p n st = Exc IsADirectoryError).
  { unfold run_outcome. rewrite run_all_checks_new. cbv zeta.
    fold self. destruct (FS.glob n) as [|g gs] eqn:G; [congruence|].
    cbn [snd]. unfold outcome. now rewrite Heval. }
  assert (Hres : run_results p n st = fst (eval (all_checks self))).
  { rewrite (@run_results_log p n st Hne). reflexivity. }
  split; [exact Hout|]. split; [rewrite main_exit_code, Hout; reflexivity|].
  rewrite Hres, Heval. cbn [fst]. split; [reflexivity|].
  destruct (@required_readme_present self (Dir es) Hr) as [more ->].
  now left.
Qed.

Lemma readme_directory_aborts_run_witness :
  run_outcome "." readme_dir_root false = Exc IsADirectoryError
  /\ In readme_present (run_results "." readme_dir_root false).
Proof.
  assert (Hne : FS.glob readme_dir_root <> [])
    by (vm_compute; discriminate).
  assert (Hreg : all_regular (FS.glob readme_dir_root))
    by (apply all_regular_check; vm_compute; reflexivity).
  pose proof (@readme_directory_aborts_run "." false false readme_dir_root
                [] eq_refl Hne Hreg) as H.
  cbv zeta in H. split; [exact (proj1 H)|exact (proj2 (proj2 (proj2 H)))].
Defined.

(* ================================================================== *)
(** ** Lines exempt from the magic-number rule *)
(* ================================================================== *)

Lemma hash_not_space c : Py.isspace c = true -> Ascii.eqb "#" c = false.
Proof.
  destruct (Ascii.eqb_spec "#"%char c) as [<-|]; [discriminate|reflexivity].
Qed.

Lemma startswith_hash_rstrip t :
  Py.startswith "#" (Py.rstrip t) = Py.startswith "#" t.
Proof.
  destruct t as [|c t]; [reflexivity|]. cbn [Py.rstrip].
  destruct (Py.rstrip t) as [|c' r].
  - destruct (Py.isspace c) eqn:S; cbn [Py.startswith].
    + now rewrite (hash_not_space _ S).
    + reflexivity.
  - reflexivity.
Qed.

(** A comment line is a line whose first character after leading
    whitespace is #. *)
Lemma is_comment_lstrip line :
  is_comment line = Py.startswith "#" (Py.lstrip line).
Proof. unfold is_comment, Py.strip. apply startswith_hash_rstrip. Qed.

Lemma magic_results_of_constants tf :
  FS.name tf = "locals_constants.tf" -> magic_results_of tf = [].
Proof. intros H. unfold magic_results_of. now rewrite H. Qed.

(** X15. In a run over regular files with distinct relative paths, no
    Magic Number result is attributed to any line of a discovered file
    called locals_constants.tf, at whatever depth it lies, nor to a line
    whose first character after leading whitespace is #, whatever the
    line holds. *)
Theorem magic_number_exemptions (p : string) (n : node) (st : bool)
    (tf : tf_file) (text : string) (k : nat) (line : string) :
  all_regular (FS.glob n) ->
  NoDup (map FS.relative_to (FS.glob n)) ->
  In tf (FS.glob n) ->
  target tf = File text ->
  nth_error (Py.split_lines text) k = Some line ->
  FS.name tf = "locals_constants.tf"
  \/ Py.startswith "#" (Py.lstrip line) = true ->
  filter (magic_at (FS.relative_to tf) (S k)) (run_results p n st) = [].
Proof.
  intros Hreg Hnd Hin Htext Hk Hex.
  rewrite (@run_magic_results p n st _ _ Hreg).
  destruct (String.eqb_spec (FS.name tf) "locals_constants.tf") as [Hc|Hc].
  - rewrite (@filter_flat_map_unique _ _ FS.relative_to _ _ tf); auto.
    + now rewrite (magic_results_of_constants _ Hc).
    + intros y _ Hy. now apply magic_results_of_other.
  - destruct Hex as [Hex|Hex]; [contradiction|].
    rewrite (@magic_results_at _ _ _ _ _ Hnd Hin Hc Htext Hk).
    unfold magic_line_results. now rewrite is_comment_lstrip, Hex.
Qed.

Lemma magic_number_exemptions_witness :
  filter (magic_at "locals_constants.tf" 2) (run_results "." port_root false)
  = [].
Proof.
  assert (Hreg : all_regular (FS.glob port_root))
    by (apply all_regular_check; vm_compute; reflexivity).
  assert (Hnd : NoDup (map FS.relative_to (FS.glob port_root)))
    by (apply NoDup_check; vm_compute; reflexivity).
  pose (tf := TfFile ["locals_constants.tf"]
                (File (lines ["locals {"; "  port = 22"; "}"]))).
  assert (Hin : In tf (FS.glob port_root))
    by (vm_compute; right; left; reflexivity).
  assert (Hk : nth_error (Py.split_lines (lines ["locals {"; "  port = 22"; "}"]))
                 1 = Some "  port = 22")
    by (vm_compute; reflexivity).
  exact (@magic_number_exemptions "." port_root false tf _ 1 _
           Hreg Hnd Hin eq_refl Hk (or_introl eq_refl)).
Defined.

(* ================================================================== *)
(** ** The wildcard rule, line by line *)
(* ================================================================== *)

Lemma permissive_at_sensitive f i o :
  Forall (named ["Sensitive Variable"]) o ->
  filter (permissive_at f i) o = [].
Proof.
  intros H. apply filter_none. eapply Forall_impl; [|exact H].
  intros r Hr. unfold permissive_at.
  destruct (String.eqb_spec (check_name r) "Overly Permissive Security Rule")
    as [E|_]; [|reflexivity].
  exfalso.
  exact (@named_other ["Sensitive Variable"] r
           "Overly Permissive Security Rule" Hr eq_refl E).
Qed.

(** X16. For a line of a discovered regular file, check_security_standards
    records exactly one Overly Permissive Security Rule result at that
    line, a failing one, when the line holds the text source_address_prefix
    and a double-quoted asterisk and the lookback window of the line holds
    allow in some letter case; it records none at that line otherwise. *)
Theorem wildcard_rule_per_line (self : IaCValidator) (tf : tf_file)
    (text : string) (k : nat) (line : string) :
  all_regular (tf_files self) ->
  NoDup (map FS.relative_to (tf_files self)) ->
  In tf (tf_files self) ->
  target tf = File text ->
  nth_error (Py.split_lines text) k = Some line ->
  filter (permissive_at (FS.relative_to tf) (S k))
         (log (check_security_standards self)) =
  if Py.contains "source_address_prefix" line
     && Py.contains (quoted "*") line
     && Py.contains "allow" (Py.lower (lookback text line))
  then [permissive_rule (FS.relative_to tf) (S k)] else [].
Proof.
  intros Hreg Hnd Hin Htext Hk.
  destruct (check_sensitive_variables_names self) as (o & r & Hs & Ho).
  pose proof (@check_security_standards_runs self o r Hreg Hs) as Hruns.
  unfold log, eval. rewrite (Hruns []). cbn [fst app].
  rewrite filter_app, (permissive_at_sensitive _ _ Ho), app_nil_r.
  unfold permissive_at. rewrite filter_and.
  rewrite (@entry_results_at security_line_results
             security_line_results_placed (tf_files self) tf text k line
             Hnd Hin Htext Hk).
  unfold security_line_results. rewrite filter_app.
  destruct (Py.contains "source_address_prefix" line
            && Py.contains (quoted "*") line); cbn [andb].
  - destruct (Py.contains "allow" _);
      destruct (found Pat.ignorecase Pat.hardcoded_secret line);
      try destruct (negb (found no_flags Pat.var_or_data line));
      reflexivity.
  - destruct (found Pat.ignorecase Pat.hardcoded_secret line);
      try destruct (negb (found no_flags Pat.var_or_data line));
      reflexivity.
Qed.

Lemma wildcard_rule_per_line_witness :
  let self := mkValidator "." allow_then_deny_root false []
                (FS.glob allow_then_deny_root) in
  filter (permissive_at "main.tf" 4) (log (check_security_standards self))
  = [permissive_rule "main.tf" 4].
Proof.
  cbv zeta.
  assert (Hreg : all_regular (FS.glob allow_then_deny_root))
    by (apply all_regular_check; vm_compute; reflexivity).
  assert (Hnd : NoDup (map FS.relative_to (FS.glob allow_then_deny_root)))
    by (apply NoDup_check; vm_compute; reflexivity).
  assert (Hin : In (TfFile ["main.tf"] (File allow_then_deny))
                   (FS.glob allow_then_deny_root))
    by (vm_compute; left; reflexivity).
  assert (Hk : nth_error (Py.split_lines allow_then_deny) 3
               = Some wildcard_line)
    by (vm_compute; reflexivity).
  pose proof (@wildcard_rule_per_line
                (mkValidator "." allow_then_deny_root false []
                   (FS.glob allow_then_deny_root))
                (TfFile ["main.tf"] (File allow_then_deny)) _ 3 _
                Hreg Hnd Hin eq_refl Hk) as H.
  exact H.
Defined.

(* ================================================================== *)
(** ** Results are only ever appended *)
(* ================================================================== *)

Lemma all_checks_any self : adds any_result (all_checks self).
Proof. unfold all_checks. any_chain. Qed.

Lemma all_checks_results p n st rs fs :
  all_checks (mkValidator p n st rs fs) = all_checks (mkValidator p n st [] fs).
Proof. reflexivity. Qed.

(** X17. run_all_checks never removes or rewrites a result recorded
    earlier: on a validator that already holds results it keeps them, in
    order, and appends exactly the results a fresh validator for the same
    path would record; the value it returns then counts the earlier
    results too. *)
Theorem results_only_grow (self : IaCValidator) :
  let after := run_all_checks self in
  results (fst after) =
    results self ++ run_results (path self) (root self) (strict self)
  /\ forall b, snd after = Val b ->
       b = forallb passed (results (fst after)).
Proof.
  cbv zeta. unfold run_results. rewrite run_all_checks_new. cbv zeta.
  unfold run_all_checks, set_tf_files. cbn [tf_files results path root strict].
  destruct (FS.glob (root self)) as [|f fs] eqn:G.
  - cbn [fst snd set_results results file_discovery_failure path].
    split; [reflexivity|]. intros b [= <-].
    rewrite forallb_app. cbn. now rewrite andb_false_r.
  - rewrite (all_checks_results (path self) (root self) (strict self)
               (results self) (f :: fs)).
    destruct (adds_runs (all_checks_any
                (mkValidator (path self) (root self) (strict self) []
                   (f :: fs)))) as [Hruns _].
    rewrite (Hruns (results self)).
    destruct (outcome _) as [[]| |]; cbn [fst snd set_results results];
      (split; [reflexivity|]); intros b; try discriminate.
    intros [= <-]. apply no_failure_all_passed.
Qed.

(* ================================================================== *)
(** ** The wire-server address *)
(* ================================================================== *)

Lemma match_at_Lit_group0 fl s cur m :
  IGNORECASE fl = false ->
  match_at fl (Lit s) cur = Some m -> group0 m = s.
Proof.
  intros Hic. unfold match_at. rewrite exec_Lit by assumption.
  destruct (Py.startswith s (rest cur)) eqn:E; [|discriminate].
  intros [= <-]. cbn [group0]. rewrite pos_forward.
  replace (pos cur + String.length s - pos cur) with (String.length s) by lia.
  rewrite (startswith_split _ _ E) at 1. apply take_app_length.
Qed.

Lemma finditer_Lit_group0 fl s line m :
  IGNORECASE fl = false ->
  In m (finditer fl (Lit s) line) -> group0 m = s.
Proof.
  intros Hic Hin. unfold finditer in Hin.
  destruct (@finditer_from_in _ _ line (Cursor 0 None line None) 0 m
              eq_refl Hin) as (k & _ & Hm).
  exact (@match_at_Lit_group0 fl s _ m Hic Hm).
Qed.

Lemma wire_server_line_result tf i line :
  is_comment line = false ->
  Py.contains "local." line = false ->
  Py.contains "168.63.129.16" line = true ->
  In (wire_server_result tf i) (magic_line_results tf i line).
Proof.
  intros Hc Hl Hw. unfold magic_line_results. rewrite Hc.
  apply in_flat_map. exists (Pat.wire_server, "Azure Wire Server IP").
  split; [right; right; left; reflexivity|]. cbn [fst snd]. rewrite Hl.
  assert (Hf : found no_flags Pat.wire_server line = true)
    by (unfold Pat.wire_server; now rewrite found_Lit).
  rewrite found_finditer in Hf.
  destruct (finditer no_flags Pat.wire_server line) as [|m ms] eqn:F;
    [discriminate|].
  apply in_flat_map. exists m. split; [now left|]. left.
  assert (Hg : group0 m = "168.63.129.16").
  { apply (@finditer_Lit_group0 no_flags _ line m eq_refl).
    unfold Pat.wire_server in F. rewrite F. now left. }
  unfold magic_result, wire_server_result. now rewrite Hg.
Qed.

(** X18. A line of a discovered regular file other than locals_constants.tf
    that is not a comment, holds no local. and holds the address
    168.63.129.16 anywhere gets, in the run, the failing Magic Number
    result for the Azure wire-server address, carrying the file's relative
    path and the 1-based line number. *)
Theorem wire_server_address_is_flagged (p : string) (n : node) (st : bool)
    (tf : tf_file) (text : string) (k : nat) (line : string) :
  all_regular (FS.glob n) ->
  NoDup (map FS.relative_to (FS.glob n)) ->
  In tf (FS.glob n) ->
  FS.name tf <> "locals_constants.tf" ->
  target tf = File text ->
  nth_error (Py.split_lines text) k = Some line ->
  is_comment line = false ->
  Py.contains "local." line = false ->
  Py.contains "168.63.129.16" line = true ->
  In (wire_server_result tf (S k)) (run_results p n st).
Proof.
  intros Hreg Hnd Hin Hname Htext Hk Hc Hl Hw.
  pose proof (@wire_server_line_result tf (S k) line Hc Hl Hw) as Hr.
  rewrite <- (@magic_results_at _ _ _ _ _ Hnd Hin Hname Htext Hk) in Hr.
  rewrite <- (@run_magic_results p n st _ _ Hreg) in Hr.
  apply filter_In in Hr. exact (proj1 Hr).
Qed.

Lemma wire_server_address_is_flagged_witness :
  In (wire_server_result
        (TfFile ["main.tf"] (File (lines wire_server_lines))) 2)
     (run_results "." wire_server_root false).
Proof.
  assert (Hreg : all_regular (FS.glob wire_server_root))
    by (apply all_regular_check; vm_compute; reflexivity).
  assert (Hnd : NoDup (map FS.relative_to (FS.glob wire_server_root)))
    by (apply NoDup_check; vm_compute; reflexivity).
  assert (Hin : In (TfFile ["main.tf"] (File (lines wire_server_lines)))
                   (FS.glob wire_server_root))
    by (vm_compute; left; reflexivity).
  assert (Hname : FS.name (TfFile ["main.tf"] (File (lines wire_server_lines)))
                  <> "locals_constants.tf")
    by (vm_compute; discriminate).
  assert (Hk : nth_error (Py.split_lines (lines wire_server_lines)) 1
               = Some ("  address_prefix = " +++ quoted "168.63.129.16/32"))
    by (vm_compute; reflexivity).
  exact (@wire_server_address_is_flagged "." wire_server_root false _ _ 1 _
           Hreg Hnd Hin Hname eq_refl Hk eq_refl eq_refl eq_refl).
Defined.

(* ================================================================== *)
(** ** Trees with distinct names *)
(* ================================================================== *)

Lemma contains_tail sub c s :
  Py.contains sub (String c s) = false -> Py.contains sub s = false.
Proof.
  intros H. destruct (Py.contains sub s) eqn:E; [|reflexivity].
  now rewrite (@contains_cons sub c s E) in H.
Qed.

Lemma contains_slash_head s : Py.contains "/" (String "/" s) = true.
Proof.
  unfold Py.contains. now rewrite find_char_cons, Ascii.eqb_refl.
Qed.

(** Two texts that agree after a slash-free stretch and a slash agree
    stretch by stretch. *)
Lemma split_at_slash a : forall b x y,
  a +++ "/" +++ x = b +++ "/" +++ y ->
  Py.contains "/" a = false -> Py.contains "/" b = false ->
  a = b /\ x = y.
Proof.
  induction a as [|c a IH]; intros [|c' b] x y E Ha Hb; cbn in E.
  - injection E as ->. now split.
  - injection E as <- _. now rewrite contains_slash_head in Hb.
  - injection E as -> _. now rewrite contains_slash_head in Ha.
  - injection E as -> E.
    destruct (IH b x y E (contains_tail _ _ _ Ha) (contains_tail _ _ _ Hb))
      as [-> ->].
    now split.
Qed.

Lemma join_slash_free_inj ps : forall qs,
  slash_free ps -> slash_free qs -> ps <> [] -> qs <> [] ->
  Py.join "/" ps = Py.join "/" qs -> ps = qs.
Proof.
  induction ps as [|p ps IH]; intros qs Hp Hq Np Nq E; [congruence|].
  destruct qs as [|q qs]; [congruence|].
  inversion Hp as [|? ? Hp1 Hp2]; subst.
  inversion Hq as [|? ? Hq1 Hq2]; subst.
  destruct ps as [|p2 ps]; destruct qs as [|q2 qs].
  - cbn [Py.join] in E. now subst.
  - exfalso. change (Py.join "/" (q :: q2 :: qs))
      with (q +++ "/" +++ Py.join "/" (q2 :: qs)) in E.
    cbn [Py.join] in E. subst p.
    now rewrite contains_middle in Hp1.
  - exfalso. change (Py.join "/" (p :: p2 :: ps))
      with (p +++ "/" +++ Py.join "/" (p2 :: ps)) in E.
    cbn [Py.join] in E. subst q.
    now rewrite contains_middle in Hq1.
  - change (Py.join "/" (p :: p2 :: ps))
      with (p +++ "/" +++ Py.join "/" (p2 :: ps)) in E.
    change (Py.join "/" (q :: q2 :: qs))
      with (q +++ "/" +++ Py.join "/" (q2 :: qs)) in E.
    destruct (split_at_slash _ _ _ _ E Hp1 Hq1) as [-> E'].
    f_equal. apply IH; auto; discriminate.
Qed.

Lemma reaches_slash_free n ps x :
  well_formed n -> reaches n ps x -> slash_free ps.
Proof.
  intros Hwf Hr. induction Hr as [es name x Hin|es d sub ps x Hin Hr IH];
    inversion Hwf as [|? _ Hall]; subst; rewrite Forall_forall in Hall.
  - constructor; [|constructor]. exact (proj1 (Hall _ Hin)).
  - constructor.
    + exact (proj1 (Hall _ Hin)).
    + apply IH. exact (proj2 (Hall _ Hin)).
Qed.

Lemma NoDup_map_filter {A B} (g : A -> B) (f : A -> bool) l :
  NoDup (map g l) -> NoDup (map g (filter f l)).
Proof.
  induction l as [|a l IH]; cbn [map filter]; intros H; [constructor|].
  inversion H as [|? ? Hnot Hnd]; subst.
  destruct (f a); cbn [map]; [|now apply IH].
  constructor; [|now apply IH].
  intros Hin. apply Hnot. apply in_map_iff in Hin.
  destruct Hin as (b & <- & Hb). apply in_map.
  apply filter_In in Hb. exact (proj1 Hb).
Qed.

Lemma NoDup_map_injective {A B} (g : A -> B) l :
  (forall x y, g x = g y -> x = y) -> NoDup l -> NoDup (map g l).
Proof.
  intros Hinj H. apply NoDup_map_NoDup_ForallPairs; [|exact H].
  intros x y _ _. apply Hinj.
Qed.

Lemma parts_glob_below es ps :
  In ps (map parts (glob_below es)) ->
  exists d sub g,
    In (d, sub) es /\ In g (FS.glob sub) /\ ps = d :: parts g.
Proof.
  intros H. apply in_map_iff in H. destruct H as (f & <- & Hf).
  apply In_glob_below in Hf. destruct Hf as (d & sub & g & Hin & Hg & ->).
  exists d, sub, g. now repeat split.
Qed.

Lemma NoDup_parts_glob_below es :
  NoDup (map fst es) ->
  Forall (fun e => NoDup (map parts (FS.glob (snd e)))) es ->
  NoDup (map parts (glob_below es)).
Proof.
  induction es as [|[d sub] es IH]; cbn [map fst glob_below];
    intros Hnd Hall; [constructor|].
  inversion Hnd as [|? ? Hnot Hnd']; subst.
  inversion Hall as [|? ? Hsub Hall']; subst. cbn [snd] in Hsub.
  rewrite map_app. apply NoDup_app.
  - rewrite map_map. cbn [FS.under parts].
    rewrite <- (map_map parts (cons d)).
    apply NoDup_map_injective; [|exact Hsub]. now intros x y [= ->].
  - now apply IH.
  - intros ps H1 H2. apply in_map_iff in H1.
    destruct H1 as (f & <- & Hf). apply in_map_iff in Hf.
    destruct Hf as (g & <- & _). cbn [FS.under parts] in H2.
    destruct (parts_glob_below _ _ H2) as (d' & sub' & g' & Hin & _ & E).
    injection E as <- _. apply Hnot.
    change d with (fst (d, sub')). now apply in_map.
Qed.

Lemma NoDup_parts_glob : forall n,
  well_formed n -> NoDup (map parts (FS.glob n)).
Proof.
  apply (node_induction
           (fun n => well_formed n -> NoDup (map parts (FS.glob n)))).
  - intros text _. constructor.
  - intros es IH Hwf. inversion Hwf as [|? Hnd Hall]; subst.
    rewrite glob_Dir, map_app. apply NoDup_app.
    + rewrite map_map. cbn [parts].
      rewrite <- (map_map fst (fun name => [name])).
      apply NoDup_map_injective; [now intros x y [= ->]|].
      now apply NoDup_map_filter.
    + apply NoDup_parts_glob_below; [exact Hnd|].
      rewrite Forall_forall in *. intros e He.
      apply (IH e He). exact (proj2 (Hall e He)).
    + intros ps H1 H2. apply in_map_iff in H1.
      destruct H1 as (f & <- & Hf). apply in_map_iff in Hf.
      destruct Hf as (e & <- & _). cbn [parts] in H2.
      destruct (parts_glob_below _ _ H2) as (d & sub & g & _ & Hg & E).
      injection E as _ E.
      destruct (glob_sound _ _ Hg) as [Hr _].
      apply (reaches_nonempty Hr). now symmetry.
Qed.

(** X19. In a tree where every directory lists each name once and no name
    holds a slash, the discovered entries have pairwise distinct relative
    paths: the file_path recorded in a result names one discovered file
    only. *)
Theorem distinct_relative_paths (n : node) :
  well_formed n -> NoDup (map FS.relative_to (FS.glob n)).
Proof.
  intros Hwf. unfold FS.relative_to.
  rewrite <- (map_map parts (Py.join "/")).
  apply NoDup_map_NoDup_ForallPairs; [|now apply NoDup_parts_glob].
  intros ps qs Hp Hq E.
  apply in_map_iff in Hp. destruct Hp as (f & <- & Hf).
  apply in_map_iff in Hq. destruct Hq as (g & <- & Hg).
  destruct (glob_sound _ _ Hf) as [Rf _].
  destruct (glob_sound _ _ Hg) as [Rg _].
  apply join_slash_free_inj; auto.
  - exact (reaches_slash_free Hwf Rf).
  - exact (reaches_slash_free Hwf Rg).
  - exact (reaches_nonempty Rf).
  - exact (reaches_nonempty Rg).
Qed.

Lemma distinct_relative_paths_witness :
  NoDup (map FS.relative_to (FS.glob port_root)).
Proof.
  apply distinct_relative_paths. unfold port_root. apply wf_dir.
  - apply NoDup_check. vm_compute. reflexivity.
  - repeat (constructor; [split; [reflexivity|apply wf_file]|]).
    constructor.
Defined.
